(** * A shallow embedding of the testerone back end

    The repository is a NestJS/Prisma service: tenants (accounts) hold users
    with a role, projects, evaluations with questions, participations,
    responses and e-mail invitations.  The service classes are embedded here
    as functions in a state-and-exception monad over a [World]: the
    relational store, the external identity provider, the wall clock, the
    source of random UUIDs and a schedule of infrastructure failures.

    An exception does not undo what was written before it was thrown (a
    row updated just before a [throw] stays updated); only [$transaction]
    restores the store. *)

From Stdlib Require Import String List ZArith Bool Lia Arith Permutation Sorted.
Import ListNotations.
Local Open Scope string_scope.
Local Open Scope list_scope.

Set Implicit Arguments.

(* ===================================================================== *)
(** ** Enumerations of the Prisma client *)
(* ===================================================================== *)

Inductive Role := FOUNDER | TESTER | MEMBER.

Definition Role_eqb (a b : Role) : bool :=
  match a, b with
  | FOUNDER, FOUNDER | TESTER, TESTER | MEMBER, MEMBER => true
  | _, _ => false
  end.

Module EvaluationStatus.
Inductive t := DRAFT | ACTIVE | COMPLETED.
Definition eqb (a b : t) : bool :=
  match a, b with
  | DRAFT, DRAFT | ACTIVE, ACTIVE | COMPLETED, COMPLETED => true
  | _, _ => false
  end.
End EvaluationStatus.

Module ParticipantStatus.
Inductive t := PENDING | ACCEPTED | REJECTED.
Definition eqb (a b : t) : bool :=
  match a, b with
  | PENDING, PENDING | ACCEPTED, ACCEPTED | REJECTED, REJECTED => true
  | _, _ => false
  end.
End ParticipantStatus.

Module InvitationStatus.
Inductive t := PENDING | ACCEPTED | EXPIRED | REVOKED.
Definition eqb (a b : t) : bool :=
  match a, b with
  | PENDING, PENDING | ACCEPTED, ACCEPTED
  | EXPIRED, EXPIRED | REVOKED, REVOKED => true
  | _, _ => false
  end.
(** [invitation.status.toLowerCase()] *)
Definition toLowerCase (s : t) : string :=
  match s with
  | PENDING => "pending" | ACCEPTED => "accepted"
  | EXPIRED => "expired" | REVOKED => "revoked"
  end.
End InvitationStatus.

(* ===================================================================== *)
(** ** Exceptions *)
(* ===================================================================== *)

(** The Nest HTTP exceptions the services throw, the plain JavaScript
    [Error], the errors of the Prisma client (by code: P2002 unique
    constraint, P2025 record not found; and the refusal of a query whose
    arguments are not valid), the error the identity provider answers
    with, and an outage of a collaborator. *)
Inductive Exn :=
| ForbiddenException (message : string)
| NotFoundException (message : string)
| BadRequestException (message : string)
| ConflictException (message : string)
| UnauthorizedException (message : string)
| Error (message : string)
| PrismaClientKnownRequestError (code : string)
| PrismaClientValidationError (message : string)
| AuthApiError (message : string)
| Outage (what : string).

Definition isConflict (e : Exn) : bool :=
  match e with ConflictException _ => true | _ => false end.
Definition isNotFound (e : Exn) : bool :=
  match e with NotFoundException _ => true | _ => false end.

(* ===================================================================== *)
(** ** Rows of the relational store *)
(* ===================================================================== *)

(** The Prisma schema is not part of the sources at hand; each record has
    the columns the services read or write.  Dates are milliseconds since
    the epoch. *)

Record Account := { acc_id : string; acc_name : string }.

Record User := {
  usr_id : string;
  usr_supabaseId : string;
  usr_email : string;
  usr_role : Role;
  usr_accountId : string;
  usr_createdAt : Z }.

Record Project := {
  prj_id : string;
  prj_name : string;
  prj_description : option string;
  prj_ownerId : string;
  prj_accountId : string;
  prj_createdAt : Z;
  prj_deletedAt : option Z }.

Record ProjectMember := { pm_projectId : string; pm_userId : string }.

Record Evaluation := {
  ev_id : string;
  ev_title : string;
  ev_description : option string;
  ev_instructions : option string;
  ev_status : EvaluationStatus.t;
  ev_projectId : string;
  ev_createdById : string;
  ev_accountId : string }.

Record EvaluationQuestion := {
  q_id : string;
  q_evaluationId : string;
  q_text : string;
  q_required : bool;
  q_order : Z }.

Record EvaluationParticipant := {
  ep_evaluationId : string;
  ep_userId : string;
  ep_status : ParticipantStatus.t;
  ep_joinedAt : Z;
  ep_completedAt : option Z;
  ep_rejectedAt : option Z }.

(** [answer: boolean | string | number] *)
Inductive Answer := AnsBoolean (b : bool) | AnsString (s : string) | AnsNumber (n : Z).

Record EvaluationResponse := {
  rsp_questionId : string;
  rsp_userId : string;
  rsp_answer : Answer;
  rsp_submittedAt : Z }.

Record Invitation := {
  inv_id : string;
  inv_email : string;
  inv_token : string;
  inv_role : Role;
  inv_accountId : string;
  inv_invitedById : string;
  inv_status : InvitationStatus.t;
  inv_expiresAt : Z;
  inv_acceptedAt : option Z }.

Record DB := {
  accounts : list Account;
  users : list User;
  projects : list Project;
  projectMembers : list ProjectMember;
  evaluations : list Evaluation;
  questions : list EvaluationQuestion;
  participants : list EvaluationParticipant;
  responses : list EvaluationResponse;
  invitations : list Invitation }.

Definition set_accounts l d :=
  {| accounts := l; users := users d; projects := projects d;
     projectMembers := projectMembers d; evaluations := evaluations d;
     questions := questions d; participants := participants d;
     responses := responses d; invitations := invitations d |}.
Definition set_users l d :=
  {| accounts := accounts d; users := l; projects := projects d;
     projectMembers := projectMembers d; evaluations := evaluations d;
     questions := questions d; participants := participants d;
     responses := responses d; invitations := invitations d |}.
Definition set_projects l d :=
  {| accounts := accounts d; users := users d; projects := l;
     projectMembers := projectMembers d; evaluations := evaluations d;
     questions := questions d; participants := participants d;
     responses := responses d; invitations := invitations d |}.
Definition set_projectMembers l d :=
  {| accounts := accounts d; users := users d; projects := projects d;
     projectMembers := l; evaluations := evaluations d;
     questions := questions d; participants := participants d;
     responses := responses d; invitations := invitations d |}.
Definition set_evaluations l d :=
  {| accounts := accounts d; users := users d; projects := projects d;
     projectMembers := projectMembers d; evaluations := l;
     questions := questions d; participants := participants d;
     responses := responses d; invitations := invitations d |}.
Definition set_participants l d :=
  {| accounts := accounts d; users := users d; projects := projects d;
     projectMembers := projectMembers d; evaluations := evaluations d;
     questions := questions d; participants := l;
     responses := responses d; invitations := invitations d |}.
Definition set_responses l d :=
  {| accounts := accounts d; users := users d; projects := projects d;
     projectMembers := projectMembers d; evaluations := evaluations d;
     questions := questions d; participants := participants d;
     responses := l; invitations := invitations d |}.
Definition set_invitations l d :=
  {| accounts := accounts d; users := users d; projects := projects d;
     projectMembers := projectMembers d; evaluations := evaluations d;
     questions := questions d; participants := participants d;
     responses := responses d; invitations := l |}.

(** A user record of the external identity provider. *)
Record SupabaseUser := {
  su_id : string;
  su_email : string;
  su_role : Role;
  su_accountId : string }.

(* ===================================================================== *)
(** ** The world and the monad of service calls *)
(* ===================================================================== *)

(** [faults] schedules the outcome of the coming calls to a collaborator
    (a Prisma query, a call of the identity provider): [Some e] makes the
    next call fail with [e] before it has any effect, [None] lets it run;
    an empty schedule lets every call run. *)
Record World := {
  db : DB;
  idp : list SupabaseUser;
  clock : Z;
  entropy : nat -> string;
  drawn : nat;
  faults : list (option Exn) }.

Definition with_db d w :=
  {| db := d; idp := idp w; clock := clock w; entropy := entropy w;
     drawn := drawn w; faults := faults w |}.
Definition with_idp i w :=
  {| db := db w; idp := i; clock := clock w; entropy := entropy w;
     drawn := drawn w; faults := faults w |}.
Definition with_clock t w :=
  {| db := db w; idp := idp w; clock := t; entropy := entropy w;
     drawn := drawn w; faults := faults w |}.
Definition with_drawn n w :=
  {| db := db w; idp := idp w; clock := clock w; entropy := entropy w;
     drawn := n; faults := faults w |}.
Definition with_faults f w :=
  {| db := db w; idp := idp w; clock := clock w; entropy := entropy w;
     drawn := drawn w; faults := f |}.

Definition M (A : Type) : Type := World -> World * (Exn + A).

Definition ret {A} (a : A) : M A := fun w => (w, inr a).
Definition throw {A} (e : Exn) : M A := fun w => (w, inl e).
Definition bind {A B} (m : M A) (f : A -> M B) : M B :=
  fun w => match m w with
           | (w', inr a) => f a w'
           | (w', inl e) => (w', inl e)
           end.

Declare Scope svc_scope.
Delimit Scope svc_scope with svc.
Notation "x <- m ;; k" := (bind m (fun x => k))
  (at level 61, m at next level, right associativity) : svc_scope.
Notation "m ;; k" := (bind m (fun _ => k))
  (at level 61, right associativity) : svc_scope.
Local Open Scope svc_scope.

(** [try { m } catch (error) { h error }] *)
Definition try_catch {A} (m : M A) (h : Exn -> M A) : M A :=
  fun w => match m w with
           | (w', inl e) => h e w'
           | r => r
           end.

(** [prisma.$transaction(async (tx) => m)]: when [m] throws, the store is
    put back as it was; nothing else of the world is. *)
Definition transaction {A} (m : M A) : M A :=
  fun w => match m w with
           | (w', inl e) => (with_db (db w) w', inl e)
           | r => r
           end.

(** A call to a collaborator, subject to the failure schedule. *)
Definition extcall {A} (body : M A) : M A :=
  fun w => match faults w with
           | Some e :: fs => (with_faults fs w, inl e)
           | None :: fs => body (with_faults fs w)
           | [] => body w
           end.

(** [new Date()] / [Date.now()] *)
Definition newDate : M Z := fun w => (w, inr (clock w)).

(** [randomUUID()], and the UUID a column default generates. *)
Definition randomUUID : M string :=
  fun w => (with_drawn (S (drawn w)) w, inr (entropy w (drawn w))).

(* ===================================================================== *)
(** ** The Prisma delegates *)
(* ===================================================================== *)

Record Table (T : Type) := {
  rows : DB -> list T;
  with_rows : list T -> DB -> DB }.

Definition account_tb := {| rows := accounts; with_rows := set_accounts |}.
Definition user_tb := {| rows := users; with_rows := set_users |}.
Definition project_tb := {| rows := projects; with_rows := set_projects |}.
Definition projectMember_tb :=
  {| rows := projectMembers; with_rows := set_projectMembers |}.
Definition evaluation_tb :=
  {| rows := evaluations; with_rows := set_evaluations |}.
Definition evaluationParticipant_tb :=
  {| rows := participants; with_rows := set_participants |}.
Definition evaluationResponse_tb :=
  {| rows := responses; with_rows := set_responses |}.
Definition invitation_tb :=
  {| rows := invitations; with_rows := set_invitations |}.

Section Delegate.
Context {T : Type} (tb : Table T).

(** [findFirst({ where })]: the first row the filter accepts.  Without an
    [orderBy] the database decides which of several matching rows comes
    first; the list of the rows of a table stands for the order in which
    the database returns them (here: a row is appended when inserted and
    keeps its place when updated).  Where several rows can match and the
    outcome depends on the one returned, the properties below say so, or
    hold for every order of the rows. *)
Definition findFirst (where_ : T -> bool) : M (option T) :=
  extcall (fun w => (w, inr (find where_ (rows tb (db w))))).

(** [findUnique({ where })] on the columns of a unique key. *)
Definition findUnique (where_ : T -> bool) : M (option T) :=
  findFirst where_.

(** [create({ data })]: [clash] tells whether a stored row holds a value
    of a unique key of the new one. *)
Definition create (clash : T -> T -> bool) (row : T) : M T :=
  extcall (fun w =>
    if existsb (clash row) (rows tb (db w))
    then (w, inl (PrismaClientKnownRequestError "P2002"))
    else (with_db (with_rows tb (rows tb (db w) ++ [row]) (db w)) w, inr row)).

(** [createMany({ data })]; returns the number of rows written. *)
Definition createMany (data : list T) : M nat :=
  extcall (fun w =>
    (with_db (with_rows tb (rows tb (db w) ++ data) (db w)) w,
     inr (length data))).

(** [update({ where, data })] on a unique key: fails with P2025 when no
    row matches. *)
Definition update (where_ : T -> bool) (data : T -> T) : M T :=
  extcall (fun w =>
    match find where_ (rows tb (db w)) with
    | None => (w, inl (PrismaClientKnownRequestError "P2025"))
    | Some r =>
        (with_db (with_rows tb
                    (map (fun x => if where_ x then data x else x)
                         (rows tb (db w))) (db w)) w,
         inr (data r))
    end).

(** [delete({ where })] on a unique key: fails with P2025 when no row
    matches. *)
Definition delete (where_ : T -> bool) : M T :=
  extcall (fun w =>
    match find where_ (rows tb (db w)) with
    | None => (w, inl (PrismaClientKnownRequestError "P2025"))
    | Some r =>
        (with_db (with_rows tb
                    (filter (fun x => negb (where_ x)) (rows tb (db w)))
                    (db w)) w,
         inr r)
    end).

(** [deleteMany({ where })] *)
Definition deleteMany (where_ : T -> bool) : M nat :=
  extcall (fun w =>
    (with_db (with_rows tb
                (filter (fun x => negb (where_ x)) (rows tb (db w)))
                (db w)) w,
     inr (length (filter where_ (rows tb (db w)))))).
End Delegate.

(* ===================================================================== *)
(** ** common/interfaces: the tenant context *)
(* ===================================================================== *)

Record TenantContext := {
  userId : string;
  supabaseId : string;
  email : string;
  role : Role;
  tenantId : string }.

(** The user the JWT strategy resolves a token to ([request.user]). *)
Record AuthenticatedUser := {
  au_id : string;
  au_supabaseId : string;
  au_email : string;
  au_role : Role;
  au_accountId : string }.

(** [toTenantContext] of the controllers. *)
Definition toTenantContext (user : AuthenticatedUser) : TenantContext :=
  {| userId := au_id user;
     supabaseId := au_supabaseId user;
     email := au_email user;
     role := au_role user;
     tenantId := au_accountId user |}.

(** JavaScript truthiness of an optional date. *)
Definition isSet {A} (o : option A) : bool :=
  match o with Some _ => true | None => false end.

(** [Array.prototype.includes] on strings. *)
Definition includes (l : list string) (x : string) : bool :=
  existsb (String.eqb x) l.

(* ===================================================================== *)
(** ** evaluations/evaluation.service.ts *)
(* ===================================================================== *)

Module EvaluationService.

Record SubmitResponseDto := { questionId : string; answer : Answer }.
Record SubmitFeedbackDto := { responses_ : list SubmitResponseDto }.

Record UpdateEvaluationDto := {
  upd_title : option string;
  upd_description : option string;
  upd_instructions : option string;
  upd_status : option EvaluationStatus.t }.

(** The compound unique key [evaluationId_userId]. *)
Definition evaluationId_userId (evaluationId uid : string)
    (p : EvaluationParticipant) : bool :=
  (ep_evaluationId p =? evaluationId) && (ep_userId p =? uid).

(** Modelled from the spec: the schema that declares the participation
    table is missing; the spec gives it the composite key (evaluation id,
    user id), a status that starts as Pending and a join date. *)
Definition evaluationParticipant_create (evaluationId uid : string)
    : M EvaluationParticipant :=
  fun w =>
    create evaluationParticipant_tb
      (fun new old => evaluationId_userId (ep_evaluationId new) (ep_userId new) old)
      {| ep_evaluationId := evaluationId;
         ep_userId := uid;
         ep_status := ParticipantStatus.PENDING;
         ep_joinedAt := clock w;
         ep_completedAt := None;
         ep_rejectedAt := None |} w.

(** [where: { id: evaluationId, status: EvaluationStatus.ACTIVE }] *)
Definition activeWithId (evaluationId : string) (e : Evaluation) : bool :=
  (ev_id e =? evaluationId)
  && EvaluationStatus.eqb (ev_status e) EvaluationStatus.ACTIVE.

(** [where: { id: evaluationId, accountId: context.tenantId }] *)
Definition inTenantWithId (context : TenantContext) (evaluationId : string)
    (e : Evaluation) : bool :=
  (ev_id e =? evaluationId) && (ev_accountId e =? tenantId context).

(** [findFirst({ where, include: { questions: true } })] *)
Definition evaluation_findFirst_include_questions
    (where_ : Evaluation -> bool)
    : M (option (Evaluation * list EvaluationQuestion)) :=
  extcall (fun w =>
    (w, inr (option_map
               (fun e => (e, filter (fun q => q_evaluationId q =? ev_id e)
                                    (questions (db w))))
               (find where_ (evaluations (db w)))))).

Definition checkFounderPermission (context : TenantContext)
    (action : string) : M unit :=
  if negb (Role_eqb (role context) FOUNDER)
  then throw (ForbiddenException ("Only FOUNDERs can " ++ action))
  else ret tt.

Definition joinEvaluation (context : TenantContext) (evaluationId : string)
    : M unit :=
  if negb (Role_eqb (role context) TESTER)
  then throw (ForbiddenException "Only TESTERs can join evaluations")
  else
    evaluation <- findFirst evaluation_tb (activeWithId evaluationId) ;;
    match evaluation with
    | None => throw (NotFoundException "Active evaluation not found")
    | Some _ =>
        existing <- findUnique evaluationParticipant_tb
                      (evaluationId_userId evaluationId (userId context)) ;;
        match existing with
        | Some _ => throw (BadRequestException "Already joined this evaluation")
        | None =>
            evaluationParticipant_create evaluationId (userId context) ;;
            ret tt
        end
    end.

(** The row a successful join writes, and the world it leaves. *)
Definition pendingRow (context : TenantContext) (evaluationId : string)
    (w : World) : EvaluationParticipant :=
  {| ep_evaluationId := evaluationId;
     ep_userId := userId context;
     ep_status := ParticipantStatus.PENDING;
     ep_joinedAt := clock w;
     ep_completedAt := None;
     ep_rejectedAt := None |}.

Definition joined (context : TenantContext) (evaluationId : string)
    (w : World) : World :=
  with_db (set_participants
             (participants (db w) ++ [pendingRow context evaluationId w])
             (db w)) w.

(** The loop over [data.responses] that checks each question id. *)
Fixpoint validateQuestionIds (questionIds : list string)
    (rs : list SubmitResponseDto) : M unit :=
  match rs with
  | [] => ret tt
  | response :: rest =>
      if negb (includes questionIds (questionId response))
      then throw (BadRequestException
                    ("Question " ++ questionId response
                     ++ " does not belong to this evaluation"))
      else validateQuestionIds questionIds rest
  end.

(** The rows [createMany] receives; the submission date is the column
    default. *)
Definition responseRows (context : TenantContext) (now : Z)
    (rs : list SubmitResponseDto) : list EvaluationResponse :=
  map (fun r => {| rsp_questionId := questionId r;
                   rsp_userId := userId context;
                   rsp_answer := answer r;
                   rsp_submittedAt := now |}) rs.

Definition markCompleted (now : Z) (p : EvaluationParticipant)
    : EvaluationParticipant :=
  {| ep_evaluationId := ep_evaluationId p;
     ep_userId := ep_userId p;
     ep_status := ParticipantStatus.ACCEPTED;
     ep_joinedAt := ep_joinedAt p;
     ep_completedAt := Some now;
     ep_rejectedAt := ep_rejectedAt p |}.

Definition submitFeedback (context : TenantContext) (evaluationId : string)
    (data : SubmitFeedbackDto) : M unit :=
  if negb (Role_eqb (role context) TESTER)
  then throw (ForbiddenException "Only TESTERs can submit feedback")
  else
    participation <- findUnique evaluationParticipant_tb
                       (evaluationId_userId evaluationId (userId context)) ;;
    match participation with
    | None => throw (ForbiddenException "You must join this evaluation first")
    | Some participation =>
        if isSet (ep_completedAt participation)
        then throw (BadRequestException
                      "You have already submitted feedback for this evaluation")
        else
          evaluation <- evaluation_findFirst_include_questions
                          (activeWithId evaluationId) ;;
          match evaluation with
          | None => throw (NotFoundException "Active evaluation not found")
          | Some (_, qs) =>
              let questionIds := map q_id qs in
              validateQuestionIds questionIds (responses_ data) ;;
              transaction (
                submittedAt <- newDate ;;
                createMany evaluationResponse_tb
                  (responseRows context submittedAt (responses_ data)) ;;
                now <- newDate ;;
                update evaluationParticipant_tb
                  (evaluationId_userId evaluationId (userId context))
                  (markCompleted now) ;;
                ret tt)
          end
    end.

Definition applyUpdate (data : UpdateEvaluationDto) (e : Evaluation)
    : Evaluation :=
  {| ev_id := ev_id e;
     ev_title := match upd_title data with Some t => t | None => ev_title e end;
     ev_description :=
       match upd_description data with Some t => Some t | None => ev_description e end;
     ev_instructions :=
       match upd_instructions data with Some t => Some t | None => ev_instructions e end;
     ev_status := match upd_status data with Some s => s | None => ev_status e end;
     ev_projectId := ev_projectId e;
     ev_createdById := ev_createdById e;
     ev_accountId := ev_accountId e |}.

(** A tenant-filtered sibling of [joinEvaluation]; the questions that the
    answer includes are left out. *)
Definition updateEvaluation (context : TenantContext) (evaluationId : string)
    (data : UpdateEvaluationDto) : M Evaluation :=
  checkFounderPermission context "update evaluations" ;;
  evaluation <- findFirst evaluation_tb (inTenantWithId context evaluationId) ;;
  match evaluation with
  | None => throw (NotFoundException "Evaluation not found")
  | Some _ =>
      update evaluation_tb (fun e => ev_id e =? evaluationId) (applyUpdate data)
  end.

End EvaluationService.

(* ===================================================================== *)
(** ** supabase/supabase.service.ts *)
(* ===================================================================== *)

Module SupabaseService.

(** [auth.admin.createUser]: the provider refuses an e-mail address it
    already knows and otherwise registers the user under a new id, with
    the role and the account id as metadata.  The error of the provider
    is thrown on. *)
Definition signUp (email_ password : string) (role_ : Role)
    (accountId : string) : M SupabaseUser :=
  extcall (fun w =>
    if existsb (fun u => su_email u =? email_) (idp w)
    then (w, inl (AuthApiError "A user with this email address has already been registered"))
    else
      let user := {| su_id := entropy w (drawn w);
                     su_email := email_;
                     su_role := role_;
                     su_accountId := accountId |} in
      (with_drawn (S (drawn w)) (with_idp (idp w ++ [user]) w), inr user)).

End SupabaseService.

(** [user.create]: the id is generated; the id, the e-mail address and the
    id at the provider are unique keys ([findUnique] is called on them). *)
Definition user_create (supabaseId_ email_ : string) (role_ : Role)
    (accountId : string) : M User :=
  id <- randomUUID ;;
  createdAt <- newDate ;;
  create user_tb
    (fun new old => (usr_id old =? usr_id new)
                    || (usr_email old =? usr_email new)
                    || (usr_supabaseId old =? usr_supabaseId new))
    {| usr_id := id;
       usr_supabaseId := supabaseId_;
       usr_email := email_;
       usr_role := role_;
       usr_accountId := accountId;
       usr_createdAt := createdAt |}.

(* ===================================================================== *)
(** ** invitations/invitation.service.ts *)
(* ===================================================================== *)

Module InvitationService.
Section WithConfig.

(** [configService.get('APP_URL') || 'http://localhost:3000'] *)
Variable appUrl : string.

(** [expirationMinutes = 60] *)
Definition expirationMinutes : Z := 60.

Record SendInviteDto := {
  si_email : string;
  si_role : option Role  (* 'TESTER' | 'MEMBER' *) }.

Record AcceptInviteDto := { ai_token : string; ai_password : string }.

Record InviteSummary := {
  is_id : string;
  is_email : string;
  is_role : Role;
  is_expiresAt : Z;
  is_inviteLink : string }.

Record SendInviteResult := {
  sir_message : string;
  sir_invitation : InviteSummary }.

Record TokenInfo := {
  ti_valid : bool;
  ti_email : string;
  ti_role : Role;
  ti_organization : string;
  ti_invitedBy : string;
  ti_expiresAt : Z }.

Record AcceptResult := { ar_message : string; ar_user : User }.

Definition checkFounderPermission (context : TenantContext) : M unit :=
  if negb (Role_eqb (role context) FOUNDER)
  then throw (ForbiddenException "Only FOUNDERs can manage invitations")
  else ret tt.

Definition setStatus (s : InvitationStatus.t) (i : Invitation) : Invitation :=
  {| inv_id := inv_id i; inv_email := inv_email i; inv_token := inv_token i;
     inv_role := inv_role i; inv_accountId := inv_accountId i;
     inv_invitedById := inv_invitedById i; inv_status := s;
     inv_expiresAt := inv_expiresAt i; inv_acceptedAt := inv_acceptedAt i |}.

Definition setAccepted (now : Z) (i : Invitation) : Invitation :=
  {| inv_id := inv_id i; inv_email := inv_email i; inv_token := inv_token i;
     inv_role := inv_role i; inv_accountId := inv_accountId i;
     inv_invitedById := inv_invitedById i;
     inv_status := InvitationStatus.ACCEPTED;
     inv_expiresAt := inv_expiresAt i; inv_acceptedAt := Some now |}.

Definition renew (token : string) (expiresAt : Z) (i : Invitation)
    : Invitation :=
  {| inv_id := inv_id i; inv_email := inv_email i; inv_token := token;
     inv_role := inv_role i; inv_accountId := inv_accountId i;
     inv_invitedById := inv_invitedById i;
     inv_status := InvitationStatus.PENDING;
     inv_expiresAt := expiresAt; inv_acceptedAt := inv_acceptedAt i |}.

Definition hasId (id : string) (i : Invitation) : bool := inv_id i =? id.
Definition hasToken (token : string) (i : Invitation) : bool :=
  inv_token i =? token.

(** [where: { email, accountId: context.tenantId, status: PENDING }] *)
Definition pendingFor (email_ : string) (context : TenantContext)
    (i : Invitation) : bool :=
  (inv_email i =? email_) && (inv_accountId i =? tenantId context)
  && InvitationStatus.eqb (inv_status i) InvitationStatus.PENDING.

(** Modelled from the spec: the schema that declares the invitation table
    is missing; the spec makes the token unique and Pending the first
    status.  The id is a generated primary key. *)
Definition invitation_create (email_ token : string) (role_ : Role)
    (accountId invitedById : string) (expiresAt : Z) : M Invitation :=
  id <- randomUUID ;;
  create invitation_tb
    (fun new old => (inv_id old =? inv_id new)
                    || (inv_token old =? inv_token new))
    {| inv_id := id; inv_email := email_; inv_token := token;
       inv_role := role_; inv_accountId := accountId;
       inv_invitedById := invitedById;
       inv_status := InvitationStatus.PENDING;
       inv_expiresAt := expiresAt; inv_acceptedAt := None |}.

Definition sendInvite (context : TenantContext) (data : SendInviteDto)
    : M SendInviteResult :=
  checkFounderPermission context ;;
  existingUser <- findFirst user_tb
                    (fun u => (usr_email u =? si_email data)
                              && (usr_accountId u =? tenantId context)) ;;
  if isSet existingUser
  then throw (ConflictException
                "User with this email already exists in your organization")
  else
    existingInvite <- findFirst invitation_tb
                        (pendingFor (si_email data) context) ;;
    match existingInvite with
     | Some existingInvite =>
         now <- newDate ;;
         if (inv_expiresAt existingInvite >? now)%Z
         then throw (ConflictException
                "An active invitation already exists for this email. Please wait for it to expire or revoke it.")
         else
           update invitation_tb (hasId (inv_id existingInvite))
                  (setStatus InvitationStatus.EXPIRED) ;;
           ret tt
     | None => ret tt
     end ;;
    token <- randomUUID ;;
    now <- newDate ;;
    let expiresAt := (now + expirationMinutes * 60 * 1000)%Z in
    invitation <- invitation_create (si_email data) token
                    (match si_role data with
                     | Some TESTER => TESTER
                     | _ => MEMBER
                     end)
                    (tenantId context) (userId context) expiresAt ;;
    let inviteLink := (appUrl ++ "/register?token=" ++ token)%string in
    ret {| sir_message := "Invitation sent successfully";
           sir_invitation :=
             {| is_id := inv_id invitation;
                is_email := inv_email invitation;
                is_role := inv_role invitation;
                is_expiresAt := inv_expiresAt invitation;
                is_inviteLink := inviteLink |} |}.

(** [findUnique({ where: { token }, include: { account, invitedBy } })]:
    the invitation with the related account and inviting user
    ([acceptInvitation] includes the account only and reads neither). *)
Definition invitation_findUnique_include (token : string)
    : M (option (Invitation * option Account * option User)) :=
  extcall (fun w =>
    (w, inr (option_map
               (fun i => (i,
                          find (fun a => acc_id a =? inv_accountId i)
                               (accounts (db w)),
                          find (fun u => usr_id u =? inv_invitedById i)
                               (users (db w))))
               (find (hasToken token) (invitations (db w)))))).

Definition alreadyBeen (i : Invitation) : Exn :=
  BadRequestException
    ("Invitation has already been "
     ++ InvitationStatus.toLowerCase (inv_status i)).

Definition validateToken (token : string) : M TokenInfo :=
  found <- invitation_findUnique_include token ;;
  match found with
  | None => throw (NotFoundException "Invalid invitation token")
  | Some (invitation, account, invitedBy) =>
      if negb (InvitationStatus.eqb (inv_status invitation)
                 InvitationStatus.PENDING)
      then throw (alreadyBeen invitation)
      else
        now <- newDate ;;
        if (inv_expiresAt invitation <? now)%Z
        then
          update invitation_tb (hasId (inv_id invitation))
                 (setStatus InvitationStatus.EXPIRED) ;;
          throw (BadRequestException "Invitation has expired")
        else
          match account, invitedBy with
          | Some account, Some invitedBy =>
              ret {| ti_valid := true;
                     ti_email := inv_email invitation;
                     ti_role := inv_role invitation;
                     ti_organization := acc_name account;
                     ti_invitedBy := usr_email invitedBy;
                     ti_expiresAt := inv_expiresAt invitation |}
          | _, _ =>
              throw (Error "TypeError: Cannot read properties of null")
          end
  end.

Definition acceptInvitation (data : AcceptInviteDto) : M AcceptResult :=
  found <- invitation_findUnique_include (ai_token data) ;;
  match found with
  | None => throw (NotFoundException "Invalid invitation token")
  | Some (invitation, _, _) =>
      if negb (InvitationStatus.eqb (inv_status invitation)
                 InvitationStatus.PENDING)
      then throw (alreadyBeen invitation)
      else
        now <- newDate ;;
        if (inv_expiresAt invitation <? now)%Z
        then
          update invitation_tb (hasId (inv_id invitation))
                 (setStatus InvitationStatus.EXPIRED) ;;
          throw (BadRequestException "Invitation has expired")
        else
          existingUser <- findUnique user_tb
                            (fun u => usr_email u =? inv_email invitation) ;;
          if isSet existingUser
          then throw (ConflictException "User with this email already exists")
          else
            supabaseUser <- SupabaseService.signUp (inv_email invitation)
                              (ai_password data) (inv_role invitation)
                              (inv_accountId invitation) ;;
            user <- transaction (
                      newUser <- user_create (su_id supabaseUser)
                                   (inv_email invitation)
                                   (inv_role invitation)
                                   (inv_accountId invitation) ;;
                      acceptedAt <- newDate ;;
                      update invitation_tb (hasId (inv_id invitation))
                             (setAccepted acceptedAt) ;;
                      ret newUser) ;;
            ret {| ar_message := "Account created successfully";
                   ar_user := user |}
  end.

Definition revokeInvitation (context : TenantContext) (invitationId : string)
    : M string :=
  checkFounderPermission context ;;
  invitation <- findFirst invitation_tb
                  (fun i => (inv_id i =? invitationId)
                            && (inv_accountId i =? tenantId context)
                            && InvitationStatus.eqb (inv_status i)
                                 InvitationStatus.PENDING) ;;
  match invitation with
  | None => throw (NotFoundException "Pending invitation not found")
  | Some _ =>
      update invitation_tb (hasId invitationId)
             (setStatus InvitationStatus.REVOKED) ;;
      ret "Invitation revoked successfully"
  end.

Definition resendInvitation (context : TenantContext) (invitationId : string)
    : M string :=
  checkFounderPermission context ;;
  invitation <- findFirst invitation_tb
                  (fun i => (inv_id i =? invitationId)
                            && (inv_accountId i =? tenantId context)) ;;
  match invitation with
  | None => throw (NotFoundException "Invitation not found")
  | Some _ =>
      token <- randomUUID ;;
      now <- newDate ;;
      let expiresAt := (now + expirationMinutes * 60 * 1000)%Z in
      update invitation_tb (hasId invitationId) (renew token expiresAt) ;;
      ret (appUrl ++ "/register?token=" ++ token)%string
  end.

End WithConfig.
End InvitationService.

(* ===================================================================== *)
(** ** auth/auth.service.ts *)
(* ===================================================================== *)

Module AuthService.

Record SignupDto := {
  sd_email : string;
  sd_password : string;
  sd_role : Role;
  sd_accountName : option string }.

Record SignupResult := { sr_message : string; sr_user : User }.

(** Truthiness of an optional string: [undefined] and [''] are falsy. *)
Definition truthy (s : option string) : bool :=
  match s with
  | None => false
  | Some s => negb (s =? "")
  end.

(** [accountName || `${email}'s Account`] *)
Definition accountNameOr (accountName : option string) (email_ : string)
    : string :=
  match accountName with
  | Some n => if n =? "" then email_ ++ "'s Account" else n
  | None => email_ ++ "'s Account"
  end.

(** [account.create({ data: { name } })]; the id is generated. *)
Definition account_create (name : string) : M Account :=
  id <- randomUUID ;;
  create account_tb (fun new old => acc_id old =? acc_id new)
         {| acc_id := id; acc_name := name |}.

(** The body of the [try] block: the external identity, then the local
    user row. *)
Definition register (signupDto : SignupDto) (account : Account)
    : M SignupResult :=
  supabaseUser <- SupabaseService.signUp (sd_email signupDto)
                    (sd_password signupDto) (sd_role signupDto)
                    (acc_id account) ;;
  user <- user_create (su_id supabaseUser) (sd_email signupDto)
            (sd_role signupDto) (acc_id account) ;;
  ret {| sr_message := "User registered successfully"; sr_user := user |}.

(** The [catch (error)] block. *)
Definition cleanup (account : Account) (error : Exn) : M SignupResult :=
  delete account_tb (fun a => acc_id a =? acc_id account) ;;
  throw error.

(** What [signup] does before the [try] block. *)
Definition openAccount (signupDto : SignupDto) : M Account :=
  if Role_eqb (sd_role signupDto) FOUNDER
     && negb (truthy (sd_accountName signupDto))
  then throw (BadRequestException "Account name is required for founders")
  else
    existingUser <- findUnique user_tb
                      (fun u => usr_email u =? sd_email signupDto) ;;
    if isSet existingUser
    then throw (ConflictException "User with this email already exists")
    else
      account_create
        (accountNameOr (sd_accountName signupDto) (sd_email signupDto)).

Definition signup (signupDto : SignupDto) : M SignupResult :=
  account <- openAccount signupDto ;;
  try_catch (register signupDto account) (cleanup account).

(** [supabaseService.signIn] answers with the session of the provider;
    what the provider does with the credentials is not this repository's. *)
Record Session := {
  access_token : string;
  refresh_token : string;
  expires_at : Z }.

Record LoginDto := { ld_email : string; ld_password : string }.

Record LoginResult := {
  lr_message : string;
  lr_user : User;
  lr_accessToken : string;
  lr_refreshToken : string;
  lr_expiresAt : Z }.

Section Login.
(** [this.supabaseService.signIn] *)
Variable signIn : string -> string -> M Session.

Definition login (loginDto : LoginDto) : M LoginResult :=
  try_catch
    (session <- signIn (ld_email loginDto) (ld_password loginDto) ;;
     user <- findUnique user_tb (fun u => usr_email u =? ld_email loginDto) ;;
     match user with
     | None => throw (UnauthorizedException "User not found in database")
     | Some user =>
         ret {| lr_message := "Login successful";
                lr_user := user;
                lr_accessToken := access_token session;
                lr_refreshToken := refresh_token session;
                lr_expiresAt := expires_at session |}
     end)
    (fun error =>
       match error with
       | UnauthorizedException _ => throw error
       | _ => throw (UnauthorizedException "Invalid credentials")
       end).
End Login.

(** [findFirst({ where: { id, accountId }, select: { ..., account } })] *)
Definition user_findFirst_with_account (where_ : User -> bool)
    : M (option (User * option Account)) :=
  extcall (fun w =>
    (w, inr (option_map
               (fun u => (u, find (fun a => acc_id a =? usr_accountId u)
                                  (accounts (db w))))
               (find where_ (users (db w)))))).

Definition getProfile (uid accountId : string)
    : M (User * option Account) :=
  user <- user_findFirst_with_account
            (fun u => (usr_id u =? uid) && (usr_accountId u =? accountId)) ;;
  match user with
  | None => throw (UnauthorizedException "User not found or access denied")
  | Some user => ret user
  end.

End AuthService.

(* ===================================================================== *)
(** ** auth/guards: MemberWriteBlockGuard *)
(* ===================================================================== *)

Module MemberWriteBlockGuard.

(** The part of the HTTP request the guard reads: [request.user] is
    absent on a request that was not authenticated. *)
Record Request := {
  user : option AuthenticatedUser;
  method : string }.

Definition writeMethods : list string := ["POST"; "PUT"; "PATCH"; "DELETE"].

Definition canActivate (request : Request) : Exn + bool :=
  match user request with
  | Some u =>
      if negb (Role_eqb (au_role u) MEMBER) then inr true
      else if includes writeMethods (method request)
           then inl (ForbiddenException
                       "MEMBER role is not authorized to perform write operations")
           else inr true
  | None => inr true
  end.

(** A guard as the framework sees it, and the way the framework runs the
    guards of a route before its handler: a guard that throws ends the
    request with its exception, one that answers [false] ends it with
    the framework's own Forbidden. *)
Definition Guard := Request -> Exn + bool.

Fixpoint runGuards (guards : list Guard) (request : Request) : option Exn :=
  match guards with
  | [] => None
  | g :: rest =>
      match g request with
      | inl e => Some e
      | inr false => Some (ForbiddenException "Forbidden resource")
      | inr true => runGuards rest request
      end
  end.

Definition dispatch {A} (guards : list Guard) (handler : Request -> M A)
    (request : Request) : M A :=
  match runGuards guards request with
  | Some e => throw e
  | None => handler request
  end.

End MemberWriteBlockGuard.

(* ===================================================================== *)
(** ** common/services: BaseService *)
(* ===================================================================== *)

(** Stable insertion sort: [orderBy] of a query. *)
Fixpoint insertBy {T} (le : T -> T -> bool) (x : T) (l : list T) : list T :=
  match l with
  | [] => [x]
  | y :: t => if le x y then x :: l else y :: insertBy le x t
  end.

Definition sortBy {T} (le : T -> T -> bool) (l : list T) : list T :=
  fold_right (insertBy le) [] l.

(** A JavaScript number as a caller may pass it for [skip] or [take]: the
    controllers pass what [parseInt] gives, an integer, possibly negative,
    or [NaN]. *)
Inductive Num :=
| NaN
| Int (z : Z).

(** [skip + take < total] *)
Definition sumBelow (skip take : Num) (total : nat) : bool :=
  match skip, take with
  | Int s, Int t => (s + t <? Z.of_nat total)%Z
  | _, _ => false
  end.

Definition notAnInteger : Exn :=
  PrismaClientValidationError "Invalid value provided. Expected Int.".

Definition negativeSkip : Exn :=
  PrismaClientValidationError
    "Invalid value for skip argument: Value can only be positive.".

(** The window that [skip] and [take] cut out of the ordered rows of a
    query, as the Prisma client documents it: [take] rows after the first
    [skip]; a negative [take] counts from the end of the ordered rows; a
    negative [skip], and a [skip] or [take] that is no integer, makes the
    client refuse the query. *)
Definition window {T} (skip take : Num) (l : list T) : Exn + list T :=
  match skip, take with
  | Int s, Int t =>
      if (s <? 0)%Z then inl negativeSkip
      else if (0 <=? t)%Z
      then inr (firstn (Z.to_nat t) (skipn (Z.to_nat s) l))
      else inr (rev (firstn (Z.to_nat (- t)) (skipn (Z.to_nat s) (rev l))))
  | _, _ => inl notAnInteger
  end.

Section RelationalQueries.
Context {T : Type} (tb : Table T).

(** Queries whose filter looks at related rows (a [some] filter on a
    relation), hence at the store. *)
Definition findFirstRel (where_ : DB -> T -> bool) : M (option T) :=
  extcall (fun w => (w, inr (find (where_ (db w)) (rows tb (db w))))).

(** [findMany({ where, skip, take, orderBy })] *)
Definition findMany (where_ : DB -> T -> bool) (orderBy : T -> T -> bool)
    (skip take : Num) : M (list T) :=
  extcall (fun w =>
    (w, window skip take
          (sortBy orderBy (filter (where_ (db w)) (rows tb (db w)))))).

(** [findMany({ where, orderBy })], without a page. *)
Definition findManyAll (where_ : DB -> T -> bool) (orderBy : T -> T -> bool)
    : M (list T) :=
  extcall (fun w =>
    (w, inr (sortBy orderBy (filter (where_ (db w)) (rows tb (db w)))))).

(** [count({ where })] *)
Definition countRel (where_ : DB -> T -> bool) : M nat :=
  extcall (fun w =>
    (w, inr (length (filter (where_ (db w)) (rows tb (db w)))))).
End RelationalQueries.

(** [interface PaginationOptions { skip?: number; take?: number;
    orderBy? }] *)
Record PaginationOptions (T : Type) := {
  po_skip : option Num;
  po_take : option Num;
  po_orderBy : option (T -> T -> bool) }.

Record Meta := {
  total : nat;
  meta_skip : Num;
  meta_take : Num;
  hasMore : bool }.

Record PaginatedResponse (A : Type) := { data : list A; meta : Meta }.

(** [keyof PermissionConfig] *)
Inductive Action := findAll_ | findOne_ | create_ | update_ | delete_.

Definition Action_toString (a : Action) : string :=
  match a with
  | findAll_ => "findAll" | findOne_ => "findOne" | create_ => "create"
  | update_ => "update" | delete_ => "delete"
  end.

Definition Role_toString (r : Role) : string :=
  match r with
  | FOUNDER => "FOUNDER" | TESTER => "TESTER" | MEMBER => "MEMBER"
  end.

(** An optional property of an object literal: the key may be missing, or
    set, and then possibly to [undefined]. *)
Inductive Key (A : Type) :=
| Missing
| Given (value : option A).
Arguments Missing {A}.
Arguments Given {A} value.

(** [interface PermissionConfig { findAll?: Role[]; ... }] *)
Record PermissionConfig := {
  perm_findAll : Key (list Role);
  perm_findOne : Key (list Role);
  perm_create : Key (list Role);
  perm_update : Key (list Role);
  perm_delete : Key (list Role) }.

Definition DEFAULT_PERMISSIONS : PermissionConfig :=
  {| perm_findAll := Given (Some [FOUNDER; TESTER]);
     perm_findOne := Given (Some [FOUNDER; TESTER]);
     perm_create := Given (Some [FOUNDER; TESTER]);
     perm_update := Given (Some [FOUNDER; TESTER]);
     perm_delete := Given (Some [FOUNDER; TESTER]) |}.

(** One key of [{ ...a, ...b }]: a key that [b] has wins, also when its
    value is [undefined]. *)
Definition spread {A} (a b : Key A) : Key A :=
  match b with
  | Given v => Given v
  | Missing => a
  end.

(** [{ ...DEFAULT_PERMISSIONS, ...permissions }] *)
Definition mergePermissions (permissions : PermissionConfig) : PermissionConfig :=
  {| perm_findAll := spread (perm_findAll DEFAULT_PERMISSIONS) (perm_findAll permissions);
     perm_findOne := spread (perm_findOne DEFAULT_PERMISSIONS) (perm_findOne permissions);
     perm_create := spread (perm_create DEFAULT_PERMISSIONS) (perm_create permissions);
     perm_update := spread (perm_update DEFAULT_PERMISSIONS) (perm_update permissions);
     perm_delete := spread (perm_delete DEFAULT_PERMISSIONS) (perm_delete permissions) |}.

(** [object[key]]: [undefined] for a missing key. *)
Definition valueOf {A} (k : Key A) : option A :=
  match k with
  | Given v => v
  | Missing => None
  end.

Definition keyOf (p : PermissionConfig) (a : Action) : Key (list Role) :=
  match a with
  | findAll_ => perm_findAll p | findOne_ => perm_findOne p
  | create_ => perm_create p | update_ => perm_update p
  | delete_ => perm_delete p
  end.

(** [this.permissions[action]] *)
Definition allowedRoles (p : PermissionConfig) (a : Action) : option (list Role) :=
  valueOf (keyOf p a).

(** What [BaseService<T, ...>] asks of the Prisma model [T]. *)
Class TenantModel (T : Type) := {
  delegate : Table T;
  id_of : T -> string;
  accountId_of : T -> string;
  createdAt_of : T -> Z }.

#[export] Instance Project_model : TenantModel Project :=
  {| delegate := project_tb; id_of := prj_id;
     accountId_of := prj_accountId; createdAt_of := prj_createdAt |}.

Module BaseService.
Section Service.
Context {T : Type} `{TenantModel T}.
Variable modelName : string.
(** The constructor argument [permissions]. *)
Variable custom : PermissionConfig.

Definition permissions : PermissionConfig := mergePermissions custom.

Definition checkPermission (context : TenantContext) (action : Action)
    : M unit :=
  match allowedRoles permissions action with
  | Some roles =>
      if existsb (Role_eqb (role context)) roles then ret tt
      else throw (ForbiddenException
                    ("Role " ++ Role_toString (role context)
                     ++ " is not authorized to " ++ Action_toString action
                     ++ " " ++ modelName))
  | None =>
      throw (ForbiddenException
               ("Role " ++ Role_toString (role context)
                ++ " is not authorized to " ++ Action_toString action
                ++ " " ++ modelName))
  end.

Definition buildTenantWhere (context : TenantContext) (r : T) : bool :=
  accountId_of r =? tenantId context.

(** [{ createdAt: 'desc' }] *)
Definition createdAtDesc (a b : T) : bool :=
  (createdAt_of b <=? createdAt_of a)%Z.

Definition skipOr (options : PaginationOptions T) : Num :=
  match po_skip options with Some n => n | None => Int 0 end.
Definition takeOr (options : PaginationOptions T) : Num :=
  match po_take options with Some n => n | None => Int 20 end.
Definition orderByOr (options : PaginationOptions T) : T -> T -> bool :=
  match po_orderBy options with Some o => o | None => createdAtDesc end.

Definition findAll (context : TenantContext) (options : PaginationOptions T)
    : M (PaginatedResponse T) :=
  checkPermission context findAll_ ;;
  let skip := skipOr options in
  let take := takeOr options in
  let where_ := fun (_ : DB) => buildTenantWhere context in
  rows_ <- findMany delegate where_ (orderByOr options) skip take ;;
  total_ <- countRel delegate where_ ;;
  ret {| data := rows_;
         meta := {| total := total_; meta_skip := skip; meta_take := take;
                    hasMore := sumBelow skip take total_ |} |}.

Definition findOne (context : TenantContext) (id : string) : M T :=
  checkPermission context findOne_ ;;
  record <- findFirst delegate
              (fun r => (id_of r =? id) && buildTenantWhere context r) ;;
  match record with
  | None => throw (NotFoundException
                     (modelName ++ " with ID " ++ id ++ " not found"))
  | Some record => ret record
  end.

(** [this.findOne] as the class at hand resolves it (a subclass may
    override it), and the write of the [deletedAt] column, which
    [softDelete] requires of the model. *)
Variable R : Type.
Variable thisFindOne : TenantContext -> string -> M R.
Variable setDeletedAt : Z -> T -> T.

Definition softDelete (context : TenantContext) (id : string) : M T :=
  checkPermission context delete_ ;;
  thisFindOne context id ;;
  now <- newDate ;;
  update delegate (fun r => id_of r =? id) (setDeletedAt now).

Definition delete (context : TenantContext) (id : string) : M T :=
  checkPermission context delete_ ;;
  thisFindOne context id ;;
  delete delegate (fun r => id_of r =? id).

End Service.
End BaseService.

(* ===================================================================== *)
(** ** projects/project.service.ts *)
(* ===================================================================== *)

Module ProjectService.

Definition modelName : string := "project".

(** The permissions handed to [super(...)]. *)
Definition custom : PermissionConfig :=
  {| perm_create := Given (Some [FOUNDER]);
     perm_update := Given (Some [FOUNDER]);
     perm_delete := Given (Some [FOUNDER]);
     perm_findAll := Given (Some [FOUNDER; TESTER; MEMBER]);
     perm_findOne := Given (Some [FOUNDER; TESTER; MEMBER]) |}.

Definition checkPermission := BaseService.checkPermission modelName custom.
Definition buildTenantWhere := @BaseService.buildTenantWhere Project _.

(** [members: { some: { userId: context.userId } }] *)
Definition isMemberOf (d : DB) (uid : string) (p : Project) : bool :=
  existsb (fun m => (pm_projectId m =? prj_id p) && (pm_userId m =? uid))
          (projectMembers d).

Definition buildRoleScopedWhere (context : TenantContext) (d : DB)
    (p : Project) : bool :=
  let baseWhere := buildTenantWhere context p
                   && negb (isSet (prj_deletedAt p)) in
  if Role_eqb (role context) MEMBER
  then baseWhere && isMemberOf d (userId context) p
  else baseWhere.

(** [include: { owner: { select: { id, email } } }] *)
Definition ownerOf (d : DB) (p : Project) : option (string * string) :=
  option_map (fun u => (usr_id u, usr_email u))
             (find (fun u => usr_id u =? prj_ownerId p) (users d)).

(** [include: { members: { include: { user: { select: ... } } } }] *)
Definition membersOf (d : DB) (p : Project)
    : list (ProjectMember * option (string * string * Role)) :=
  map (fun m =>
         (m, option_map (fun u => (usr_id u, usr_email u, usr_role u))
                        (find (fun u => usr_id u =? pm_userId m) (users d))))
      (filter (fun m => pm_projectId m =? prj_id p) (projectMembers d)).

Record ProjectWithOwner := {
  pwo_project : Project;
  pwo_owner : option (string * string) }.

Record ProjectDetails := {
  pd_project : Project;
  pd_owner : option (string * string);
  pd_members : list (ProjectMember * option (string * string * Role)) }.

Definition project_findMany_include_owner (where_ : DB -> Project -> bool)
    (orderBy : Project -> Project -> bool) (skip take : Num)
    : M (list ProjectWithOwner) :=
  fun w =>
    bind (findMany project_tb where_ orderBy skip take)
         (fun ps => ret (map (fun p => {| pwo_project := p;
                                          pwo_owner := ownerOf (db w) p |}) ps))
         w.

Definition project_findFirst_include (where_ : DB -> Project -> bool)
    : M (option ProjectDetails) :=
  fun w =>
    bind (findFirstRel project_tb where_)
         (fun o => ret (option_map
                          (fun p => {| pd_project := p;
                                       pd_owner := ownerOf (db w) p;
                                       pd_members := membersOf (db w) p |}) o))
         w.

Definition findAll (context : TenantContext)
    (options : PaginationOptions Project)
    : M (PaginatedResponse ProjectWithOwner) :=
  checkPermission context findAll_ ;;
  let skip := BaseService.skipOr options in
  let take := BaseService.takeOr options in
  let where_ := buildRoleScopedWhere context in
  rows_ <- project_findMany_include_owner where_
             (BaseService.orderByOr options) skip take ;;
  total_ <- countRel project_tb where_ ;;
  ret {| data := rows_;
         meta := {| total := total_; meta_skip := skip; meta_take := take;
                    hasMore := sumBelow skip take total_ |} |}.

Definition findOne (context : TenantContext) (id : string)
    : M ProjectDetails :=
  checkPermission context findOne_ ;;
  record <- project_findFirst_include
              (fun d p => (prj_id p =? id) && buildRoleScopedWhere context d p) ;;
  match record with
  | None => throw (Error ("Project with ID " ++ id
                          ++ " not found or access denied"))
  | Some record => ret record
  end.

(** Modelled from the spec: the schema that declares the membership table
    is missing; the spec describes a many-to-many edge between projects
    and users and states no constraint on it. *)
Definition projectMember_create (projectId uid : string) : M ProjectMember :=
  create projectMember_tb (fun _ _ => false)
         {| pm_projectId := projectId; pm_userId := uid |}.

Definition addMember (context : TenantContext) (projectId uid : string)
    : M unit :=
  if negb (Role_eqb (role context) FOUNDER)
  then throw (Error "Only FOUNDERs can add project members")
  else
    project <- findFirst project_tb
                 (fun p => (prj_id p =? projectId)
                           && buildTenantWhere context p) ;;
    match project with
    | None => throw (Error "Project not found")
    | Some _ =>
        projectMember_create projectId uid ;;
        ret tt
    end.

Definition removeMember (context : TenantContext) (projectId uid : string)
    : M unit :=
  if negb (Role_eqb (role context) FOUNDER)
  then throw (Error "Only FOUNDERs can remove project members")
  else
    deleteMany projectMember_tb
      (fun m => (pm_projectId m =? projectId) && (pm_userId m =? uid)) ;;
    ret tt.

Definition setDeletedAt (now : Z) (p : Project) : Project :=
  {| prj_id := prj_id p; prj_name := prj_name p;
     prj_description := prj_description p; prj_ownerId := prj_ownerId p;
     prj_accountId := prj_accountId p; prj_createdAt := prj_createdAt p;
     prj_deletedAt := Some now |}.

(** [softDelete] is inherited; its [this.findOne] is the override above. *)
Definition softDelete : TenantContext -> string -> M Project :=
  @BaseService.softDelete Project _ modelName custom ProjectDetails findOne
    setDeletedAt.

Definition findMyProjects (context : TenantContext) : M (list Project) :=
  checkPermission context findAll_ ;;
  findManyAll project_tb
    (fun _ p => buildTenantWhere context p
                && (prj_ownerId p =? userId context)
                && negb (isSet (prj_deletedAt p)))
    (@BaseService.createdAtDesc Project _).

Record CreateProjectDto := {
  cp_name : string;
  cp_description : option string }.

(** [model.create({ data: { ...data, accountId, ownerId } })]; the id and
    the creation date are column defaults, the deletion date is empty. *)
Definition project_create (data : CreateProjectDto)
    (accountId ownerId : string) : M Project :=
  id <- randomUUID ;;
  createdAt <- newDate ;;
  create project_tb (fun new old => prj_id old =? prj_id new)
         {| prj_id := id; prj_name := cp_name data;
            prj_description := cp_description data;
            prj_ownerId := ownerId; prj_accountId := accountId;
            prj_createdAt := createdAt; prj_deletedAt := None |}.

Definition create (context : TenantContext) (data : CreateProjectDto)
    : M Project :=
  checkPermission context create_ ;;
  project_create data (tenantId context) (userId context).

End ProjectService.

(* ===================================================================== *)
(** ** Vocabulary of the properties, and sample worlds *)
(* ===================================================================== *)

(** An Active evaluation with this id is stored. *)
Definition activeEvaluation (d : DB) (evaluationId : string) : Prop :=
  exists ev, In ev (evaluations d) /\ ev_id ev = evaluationId
             /\ ev_status ev = EvaluationStatus.ACTIVE.

(** A participation row for the pair (evaluation, user) is stored. *)
Definition hasJoined (d : DB) (evaluationId uid : string) : Prop :=
  exists p, In p (participants d) /\ ep_evaluationId p = evaluationId
            /\ ep_userId p = uid.

(** The participation row the lookup on the compound key returns. *)
Definition participationOf (d : DB) (evaluationId uid : string)
    : option EvaluationParticipant :=
  find (EvaluationService.evaluationId_userId evaluationId uid)
       (participants d).

(** The ids of the questions of an evaluation. *)
Definition questionIdsOf (d : DB) (evaluationId : string) : list string :=
  map q_id (filter (fun q => q_evaluationId q =? evaluationId) (questions d)).

(** The world a complete submission leaves: every answer appended, the
    participation of the pair completed now and Accepted. *)
Definition submitted (context : TenantContext) (evaluationId : string)
    (data : EvaluationService.SubmitFeedbackDto) (w : World) : World :=
  with_db
    (set_participants
       (map (fun p =>
               if EvaluationService.evaluationId_userId evaluationId
                    (userId context) p
               then EvaluationService.markCompleted (clock w) p else p)
            (participants (db w)))
       (set_responses
          (responses (db w)
           ++ EvaluationService.responseRows context (clock w)
                (EvaluationService.responses_ data))
          (db w)))
    w.




(** The exception of the write block. *)
Definition forbidden : Exn :=
  ForbiddenException "MEMBER role is not authorized to perform write operations".

(** A request of an authenticated MEMBER with a write verb. *)
Definition memberWrite (request : MemberWriteBlockGuard.Request) : Prop :=
  (exists u, MemberWriteBlockGuard.user request = Some u /\ au_role u = MEMBER)
  /\ In (MemberWriteBlockGuard.method request) ["POST"; "PUT"; "PATCH"; "DELETE"].

(** The invitation the lookup by token returns. *)
Definition invitationOf (d : DB) (token : string) : option Invitation :=
  find (InvitationService.hasToken token) (invitations d).

(** The world after the invitation with this id was marked Expired. *)
Definition lapsed (id : string) (w : World) : World :=
  with_db
    (set_invitations
       (map (fun i => if InvitationService.hasId id i
                      then InvitationService.setStatus InvitationStatus.EXPIRED i
                      else i)
            (invitations (db w)))
       (db w))
    w.

(** The two conflicts of [sendInvite]. *)
Definition userConflict : Exn :=
  ConflictException "User with this email already exists in your organization".

Definition inviteConflict : Exn :=
  ConflictException
    "An active invitation already exists for this email. Please wait for it to expire or revoke it.".

(** What [sendInvite] answers with. *)
Definition receipt (url : string) (i : Invitation)
    : InvitationService.SendInviteResult :=
  {| InvitationService.sir_message := "Invitation sent successfully";
     InvitationService.sir_invitation :=
       {| InvitationService.is_id := inv_id i;
          InvitationService.is_email := inv_email i;
          InvitationService.is_role := inv_role i;
          InvitationService.is_expiresAt := inv_expiresAt i;
          InvitationService.is_inviteLink :=
            (url ++ "/register?token=" ++ inv_token i)%string |} |}.

(** A user with this e-mail address exists in the caller's tenant. *)
Definition userInTenant (d : DB) (email_ : string) (context : TenantContext)
    : Prop :=
  exists u, In u (users d) /\ usr_email u = email_
            /\ usr_accountId u = tenantId context.

(** An active invitation for the address in the caller's tenant: Pending
    and not yet due. *)
Definition activeInvitation (email_ : string) (context : TenantContext)
    (now : Z) (i : Invitation) : Prop :=
  inv_email i = email_ /\ inv_accountId i = tenantId context
  /\ inv_status i = InvitationStatus.PENDING /\ (now < inv_expiresAt i)%Z.

(** Two active invitations for the address in the caller's tenant are
    stored. *)
Definition twoActive (email_ : string) (context : TenantContext) (w : World)
    : Prop :=
  exists i j, In i (invitations (db w)) /\ In j (invitations (db w))
              /\ inv_id i <> inv_id j
              /\ activeInvitation email_ context (clock w) i
              /\ activeInvitation email_ context (clock w) j.

(** The world with the invitations listed as given. *)
Definition listing (invs : list Invitation) (w : World) : World :=
  with_db (set_invitations invs (db w)) w.

(** The Pending invitation the lookup of [sendInvite] returns. *)
Definition firstPending (d : DB) (email_ : string) (context : TenantContext)
    : option Invitation :=
  find (InvitationService.pendingFor email_ context) (invitations d).

(** The invitation [sendInvite] writes: the token is the next random UUID,
    the id the one after, the expiry sixty minutes from now. *)
Definition issued (context : TenantContext)
    (data : InvitationService.SendInviteDto) (w : World) : Invitation :=
  {| inv_id := entropy w (S (drawn w));
     inv_email := InvitationService.si_email data;
     inv_token := entropy w (drawn w);
     inv_role := match InvitationService.si_role data with
                 | Some TESTER => TESTER
                 | _ => MEMBER
                 end;
     inv_accountId := tenantId context;
     inv_invitedById := userId context;
     inv_status := InvitationStatus.PENDING;
     inv_expiresAt := (clock w + 3600000)%Z;
     inv_acceptedAt := None |}.

(** The world after a successful [sendInvite]: a Pending invitation found
    past its expiry is marked Expired, the new one is appended. *)
Definition sent (context : TenantContext)
    (data : InvitationService.SendInviteDto) (w : World) : World :=
  let w0 := match firstPending (db w) (InvitationService.si_email data) context with
            | Some old => lapsed (inv_id old) w
            | None => w
            end in
  with_db (set_invitations (invitations (db w0) ++ [issued context data w])
                           (db w0))
          (with_drawn (S (S (drawn w))) w0).

(** The caller holds a membership row of the project. *)
Definition memberOf (d : DB) (uid : string) (p : Project) : Prop :=
  exists m, In m (projectMembers d) /\ pm_projectId m = prj_id p
            /\ pm_userId m = uid.

(** The projects a caller may see: of the caller's tenant, not
    soft-deleted and, for a MEMBER, with a membership row of the caller. *)
Definition visible (context : TenantContext) (d : DB) (p : Project) : Prop :=
  prj_accountId p = tenantId context
  /\ prj_deletedAt p = None
  /\ (role context = MEMBER -> memberOf d (userId context) p).

(** The role may perform the action in a service constructed with these
    custom permissions: it is in the list the custom table sets for the
    action, or the table has no key for the action and the role is a
    FOUNDER or a TESTER (the default); a key set to [undefined] permits
    nobody. *)
Definition permitted (custom : PermissionConfig) (a : Action) (r : Role)
    : Prop :=
  match keyOf custom a with
  | Given (Some roles) => In r roles
  | Given None => False
  | Missing => r = FOUNDER \/ r = TESTER
  end.

(** No custom permission (an object without keys, or no argument at all):
    the defaults apply. *)
Definition noCustom : PermissionConfig :=
  {| perm_findAll := Missing; perm_findOne := Missing; perm_create := Missing;
     perm_update := Missing; perm_delete := Missing |}.

(** A custom table that sets the [findOne] key to [undefined]. *)
Definition findOneUndefined : PermissionConfig :=
  {| perm_findAll := Missing; perm_findOne := Given None;
     perm_create := Missing; perm_update := Missing; perm_delete := Missing |}.

(** The failure scheduled for the next call to a collaborator, if any. *)
Definition nextFault (w : World) : option Exn :=
  match faults w with
  | Some e :: _ => Some e
  | _ => None
  end.

(** The world after one more membership row. *)
Definition withMember (projectId uid : string) (w : World) : World :=
  with_db (set_projectMembers
             (projectMembers (db w)
              ++ [{| pm_projectId := projectId; pm_userId := uid |}])
             (db w)) w.

Module Sample.

Definition uuids (n : nat) : string :=
  match n with
  | 0 => "uuid-0" | 1 => "uuid-1" | 2 => "uuid-2" | 3 => "uuid-3"
  | 4 => "uuid-4" | 5 => "uuid-5" | 6 => "uuid-6" | 7 => "uuid-7"
  | _ => "uuid-n"
  end.

Definition emptyDB : DB :=
  {| accounts := []; users := []; projects := []; projectMembers := [];
     evaluations := []; questions := []; participants := [];
     responses := []; invitations := [] |}.

Definition world (d : DB) (now : Z) : World :=
  {| db := d; idp := []; clock := now; entropy := uuids; drawn := 0;
     faults := [] |}.

(** Two tenants: acme (a founder, a tester, a member) and globex (a
    founder and a tester). *)
Definition acme : Account := {| acc_id := "acme"; acc_name := "Acme" |}.
Definition globex : Account := {| acc_id := "globex"; acc_name := "Globex" |}.

Definition mkUser (id email_ : string) (r : Role) (acc : string) : User :=
  {| usr_id := id; usr_supabaseId := "sb-" ++ id; usr_email := email_;
     usr_role := r; usr_accountId := acc; usr_createdAt := 0 |}.

Definition ada := mkUser "u-ada" "ada@acme.test" FOUNDER "acme".
Definition tom := mkUser "u-tom" "tom@acme.test" TESTER "acme".
Definition mia := mkUser "u-mia" "mia@acme.test" MEMBER "acme".
Definition gus := mkUser "u-gus" "gus@globex.test" FOUNDER "globex".
Definition tess := mkUser "u-tess" "tess@globex.test" TESTER "globex".

Definition contextOf (u : User) : TenantContext :=
  {| userId := usr_id u; supabaseId := usr_supabaseId u;
     email := usr_email u; role := usr_role u;
     tenantId := usr_accountId u |}.

Definition survey : Evaluation :=
  {| ev_id := "ev-1"; ev_title := "Onboarding Survey";
     ev_description := None; ev_instructions := None;
     ev_status := EvaluationStatus.ACTIVE; ev_projectId := "p-1";
     ev_createdById := "u-ada"; ev_accountId := "acme" |}.

Definition draft : Evaluation :=
  {| ev_id := "ev-2"; ev_title := "Draft";
     ev_description := None; ev_instructions := None;
     ev_status := EvaluationStatus.DRAFT; ev_projectId := "p-1";
     ev_createdById := "u-ada"; ev_accountId := "acme" |}.

Definition q1 : EvaluationQuestion :=
  {| q_id := "q-1"; q_evaluationId := "ev-1"; q_text := "Liked it?";
     q_required := true; q_order := 0 |}.
Definition q2 : EvaluationQuestion :=
  {| q_id := "q-2"; q_evaluationId := "ev-1"; q_text := "Score 1-5";
     q_required := true; q_order := 1 |}.

Definition p1 : Project :=
  {| prj_id := "p-1"; prj_name := "Rocket"; prj_description := None;
     prj_ownerId := "u-ada"; prj_accountId := "acme";
     prj_createdAt := 10; prj_deletedAt := None |}.
Definition p2 : Project :=
  {| prj_id := "p-2"; prj_name := "Skates"; prj_description := None;
     prj_ownerId := "u-ada"; prj_accountId := "acme";
     prj_createdAt := 20; prj_deletedAt := None |}.
Definition p3 : Project :=
  {| prj_id := "p-3"; prj_name := "Anvil"; prj_description := None;
     prj_ownerId := "u-gus"; prj_accountId := "globex";
     prj_createdAt := 30; prj_deletedAt := None |}.

Definition baseDB : DB :=
  {| accounts := [acme; globex];
     users := [ada; tom; mia; gus; tess];
     projects := [p1; p2; p3];
     projectMembers := [{| pm_projectId := "p-1"; pm_userId := "u-mia" |}];
     evaluations := [survey; draft];
     questions := [q1; q2];
     participants := [];
     responses := [];
     invitations := [] |}.

(** tom has joined the survey at time 50. *)
Definition tomJoined : DB :=
  set_participants
    [{| ep_evaluationId := "ev-1"; ep_userId := "u-tom";
        ep_status := ParticipantStatus.PENDING; ep_joinedAt := 50;
        ep_completedAt := None; ep_rejectedAt := None |}]
    baseDB.

Definition goodFeedback : EvaluationService.SubmitFeedbackDto :=
  {| EvaluationService.responses_ :=
       [{| EvaluationService.questionId := "q-1";
           EvaluationService.answer := AnsBoolean true |};
        {| EvaluationService.questionId := "q-2";
           EvaluationService.answer := AnsNumber 4 |}] |}.


Definition asUser (u : User) : AuthenticatedUser :=
  {| au_id := usr_id u; au_supabaseId := usr_supabaseId u;
     au_email := usr_email u; au_role := usr_role u;
     au_accountId := usr_accountId u |}.

(** A handler that would add mia to project p-2. *)
Definition addMia (_ : MemberWriteBlockGuard.Request) : M unit :=
  ProjectService.projectMember_create "p-2" "u-mia" ;; ret tt.

(** An invitation of acme for new@x.test, due at 3600000. *)
Definition invite : Invitation :=
  {| inv_id := "i-1"; inv_email := "new@x.test"; inv_token := "tok-1";
     inv_role := TESTER; inv_accountId := "acme"; inv_invitedById := "u-ada";
     inv_status := InvitationStatus.PENDING; inv_expiresAt := 3600000;
     inv_acceptedAt := None |}.

Definition invitedDB : DB := set_invitations [invite] baseDB.

Definition appUrl : string := "http://localhost:3000".

Definition newcomer : InvitationService.SendInviteDto :=
  {| InvitationService.si_email := "new@x.test";
     InvitationService.si_role := Some TESTER |}.

(** ada invites new@x.test at 0 and again at 3700000, when the first
    invitation has expired; she then resends the first invitation, and at
    7000000 the second one.  The world is looked at when the clock shows
    8000000. *)
Definition twoPending : World :=
  let w1 := fst (InvitationService.sendInvite appUrl (contextOf ada) newcomer
                   (world baseDB 0)) in
  let w2 := fst (InvitationService.sendInvite appUrl (contextOf ada) newcomer
                   (with_clock 3700000 w1)) in
  let w3 := fst (InvitationService.resendInvitation appUrl (contextOf ada)
                   "uuid-1" w2) in
  let w4 := fst (InvitationService.resendInvitation appUrl (contextOf ada)
                   "uuid-3" (with_clock 7000000 w3)) in
  with_clock 8000000 w4.

(** [findAll] called without options. *)
Definition firstPage : PaginationOptions Project :=
  {| po_skip := None; po_take := None; po_orderBy := None |}.

Definition founderDto : AuthService.SignupDto :=
  {| AuthService.sd_email := "zoe@initech.test";
     AuthService.sd_password := "hunter22";
     AuthService.sd_role := FOUNDER;
     AuthService.sd_accountName := Some "Initech" |}.

(** The identity provider already knows zoe's address. *)
Definition zoeKnown : World :=
  with_idp [{| su_id := "sb-zoe"; su_email := "zoe@initech.test";
               su_role := FOUNDER; su_accountId := "old" |}]
           (world baseDB 0).

(** The provider fails on the sign-up and the store fails on the call
    after it. *)
Definition twoFailures : World :=
  with_faults [None; None; Some (AuthApiError "rate limit");
               Some (Outage "database")]
              (world baseDB 0).

End Sample.

(* ===================================================================== *)
(** ** auth/strategies/jwt.strategy.ts *)
(* ===================================================================== *)

Module JwtStrategy.

(** The claim of the verified token that [validate] reads. *)
Record JwtPayload := { sub : string }.

Definition validate (payload : JwtPayload) : M AuthenticatedUser :=
  let supabaseId_ := sub payload in
  user <- findUnique user_tb (fun u => usr_supabaseId u =? supabaseId_) ;;
  match user with
  | None => throw (UnauthorizedException "User not found in database")
  | Some user =>
      ret {| au_id := usr_id user;
             au_supabaseId := usr_supabaseId user;
             au_email := usr_email user;
             au_role := usr_role user;
             au_accountId := usr_accountId user |}
  end.

End JwtStrategy.

(* ===================================================================== *)
(** ** evaluations/evaluation.service.ts: the reading operations *)
(* ===================================================================== *)

Module EvaluationQueries.

(** [{ order: 'asc' }] *)
Definition orderAsc (a b : EvaluationQuestion) : bool :=
  (q_order a <=? q_order b)%Z.

(** [{ joinedAt: 'desc' }] *)
Definition joinedAtDesc (a b : EvaluationParticipant) : bool :=
  (ep_joinedAt b <=? ep_joinedAt a)%Z.

(** The questions of an evaluation, by ascending order. *)
Definition questionsOf (d : DB) (evaluationId : string)
    : list EvaluationQuestion :=
  sortBy orderAsc
         (filter (fun q => q_evaluationId q =? evaluationId) (questions d)).

(** [project: { select: { id, name } }] *)
Definition projectOf (d : DB) (e : Evaluation) : option (string * string) :=
  option_map (fun p => (prj_id p, prj_name p))
             (find (fun p => prj_id p =? ev_projectId e) (projects d)).

(** [_count: { select: { participants: true } }] *)
Definition participantCount (d : DB) (e : Evaluation) : nat :=
  length (filter (fun p => ep_evaluationId p =? ev_id e) (participants d)).

(** [_count: { select: { questions: true } }] *)
Definition questionCount (d : DB) (e : Evaluation) : nat :=
  length (filter (fun q => q_evaluationId q =? ev_id e) (questions d)).

(** What [findFirst] with the [include] of [getEvaluationDetails] gives. *)
Record EvaluationView := {
  view_evaluation : Evaluation;
  view_questions : list EvaluationQuestion;
  view_project : option (string * string);
  view_participants : nat }.

Record ResponseView := {
  rv_userId : string;
  rv_email : string;
  rv_answer : Answer;
  rv_submittedAt : Z }.

(** An entry of the response summary (the type of the question is a column
    the question rows here do not carry). *)
Record QuestionSummary := {
  qs_questionId : string;
  qs_text : string;
  qs_responseCount : nat;
  qs_responses : list ResponseView }.

(** The two shapes of the answer of [getEvaluationDetails]. *)
Inductive Details :=
| WithSummary (view : EvaluationView) (responseSummary : list QuestionSummary)
| WithParticipation (view : EvaluationView) (hasJoined isCompleted : bool).

Definition evaluation_findFirst_details (where_ : Evaluation -> bool)
    : M (option EvaluationView) :=
  extcall (fun w =>
    (w, inr (option_map
               (fun e => {| view_evaluation := e;
                            view_questions := questionsOf (db w) (ev_id e);
                            view_project := projectOf (db w) e;
                            view_participants := participantCount (db w) e |})
               (find where_ (evaluations (db w)))))).

(** The responses to a question, each with the user who gave it (absent
    when the user row is missing). *)
Definition responsesTo (d : DB) (q : EvaluationQuestion)
    : list (EvaluationResponse * option User) :=
  map (fun r => (r, find (fun u => usr_id u =? rsp_userId r) (users d)))
      (filter (fun r => rsp_questionId r =? q_id q) (responses d)).

(** [findMany({ where: { evaluationId }, include: { responses: { include:
    { user } } }, orderBy: { order: 'asc' } })] *)
Definition question_findMany_with_responses (evaluationId : string)
    : M (list (EvaluationQuestion * list (EvaluationResponse * option User))) :=
  extcall (fun w =>
    (w, inr (map (fun q => (q, responsesTo (db w) q))
                 (questionsOf (db w) evaluationId)))).

(** [xs.map(f)] where [f] may hit a missing relation. *)
Fixpoint mapOrNull {A B} (f : A -> option B) (l : list A) : option (list B) :=
  match l with
  | [] => Some []
  | a :: t =>
      match f a, mapOrNull f t with
      | Some b, Some bs => Some (b :: bs)
      | _, _ => None
      end
  end.

Definition toResponseView (ru : EvaluationResponse * option User)
    : option ResponseView :=
  match ru with
  | (r, Some u) => Some {| rv_userId := usr_id u; rv_email := usr_email u;
                           rv_answer := rsp_answer r;
                           rv_submittedAt := rsp_submittedAt r |}
  | (_, None) => None
  end.

Definition toQuestionSummary
    (qr : EvaluationQuestion * list (EvaluationResponse * option User))
    : option QuestionSummary :=
  let (q, rs) := qr in
  option_map (fun views => {| qs_questionId := q_id q;
                              qs_text := q_text q;
                              qs_responseCount := length rs;
                              qs_responses := views |})
             (mapOrNull toResponseView rs).

Definition getResponseSummary (evaluationId : string)
    : M (list QuestionSummary) :=
  qs <- question_findMany_with_responses evaluationId ;;
  match mapOrNull toQuestionSummary qs with
  | Some summary => ret summary
  | None => throw (Error "TypeError: Cannot read properties of null")
  end.

Definition getEvaluationDetails (context : TenantContext)
    (evaluationId : string) : M Details :=
  evaluation <- evaluation_findFirst_details
                  (EvaluationService.inTenantWithId context evaluationId) ;;
  match evaluation with
  | None => throw (NotFoundException "Evaluation not found")
  | Some evaluation =>
      if Role_eqb (role context) TESTER
         && negb (EvaluationStatus.eqb (ev_status (view_evaluation evaluation))
                    EvaluationStatus.ACTIVE)
      then throw (ForbiddenException
                    "This evaluation is not available for testing")
      else if Role_eqb (role context) FOUNDER
      then
        responseSummary <- getResponseSummary evaluationId ;;
        ret (WithSummary evaluation responseSummary)
      else
        participation <- findUnique evaluationParticipant_tb
                           (EvaluationService.evaluationId_userId evaluationId
                              (userId context)) ;;
        ret (WithParticipation evaluation
               (isSet participation)
               (match participation with
                | Some p => isSet (ep_completedAt p)
                | None => false
                end))
  end.

(** An entry of the listing of [findTesterEvaluations]. *)
Record TesterItem := {
  item_id : string;
  item_title : string;
  item_description : option string;
  item_status : EvaluationStatus.t;
  item_project : option (string * string);
  item_questionCount : nat;
  item_participationStatus : ParticipantStatus.t;
  item_joinedAt : Z;
  item_completedAt : option Z;
  item_rejectedAt : option Z }.

Record Counts := { pending : nat; accepted : nat; rejected : nat }.

Record TesterListing := {
  listing_data : list TesterItem;
  listing_meta : Meta;
  listing_counts : Counts }.

(** [participationWhere]: the user's rows, of the given status if any. *)
Definition participationWhere (context : TenantContext)
    (statusFilter : option ParticipantStatus.t)
    (p : EvaluationParticipant) : bool :=
  (ep_userId p =? userId context)
  && match statusFilter with
     | Some s => ParticipantStatus.eqb (ep_status p) s
     | None => true
     end.

(** [findMany({ where, skip, take, orderBy, include: { evaluation: {
    include: { project, _count } } } })]: each row with its evaluation
    (absent when the evaluation row is missing), the project of that and
    the number of its questions. *)
Definition participant_findMany_with_evaluation
    (where_ : EvaluationParticipant -> bool) (skip take : Num)
    : M (list (EvaluationParticipant
               * option (Evaluation * option (string * string) * nat))) :=
  extcall (fun w =>
    (w, match window skip take
                (sortBy joinedAtDesc (filter where_ (participants (db w)))) with
        | inl e => inl e
        | inr page =>
            inr (map (fun p =>
                        (p, option_map
                              (fun e => (e, projectOf (db w) e,
                                         questionCount (db w) e))
                              (find (fun e => ev_id e =? ep_evaluationId p)
                                    (evaluations (db w)))))
                     page)
        end)).

Definition participant_count (where_ : EvaluationParticipant -> bool)
    : M nat :=
  extcall (fun w =>
    (w, inr (length (filter where_ (participants (db w)))))).

Definition toTesterItem
    (pe : EvaluationParticipant
          * option (Evaluation * option (string * string) * nat))
    : option TesterItem :=
  match pe with
  | (p, Some (e, project, questions_)) =>
      Some {| item_id := ev_id e;
              item_title := ev_title e;
              item_description := ev_description e;
              item_status := ev_status e;
              item_project := project;
              item_questionCount := questions_;
              item_participationStatus := ep_status p;
              item_joinedAt := ep_joinedAt p;
              item_completedAt := ep_completedAt p;
              item_rejectedAt := ep_rejectedAt p |}
  | (_, None) => None
  end.

Definition findTesterEvaluations (context : TenantContext)
    (statusFilter : option ParticipantStatus.t)
    (options : PaginationOptions EvaluationParticipant) : M TesterListing :=
  if negb (Role_eqb (role context) TESTER)
  then throw (ForbiddenException "This endpoint is for TESTERs only")
  else
    let skip := match po_skip options with Some n => n | None => Int 0 end in
    let take := match po_take options with Some n => n | None => Int 20 end in
    participations <- participant_findMany_with_evaluation
                        (participationWhere context statusFilter) skip take ;;
    total_ <- participant_count (participationWhere context statusFilter) ;;
    pendingCount <- participant_count
                      (participationWhere context (Some ParticipantStatus.PENDING)) ;;
    acceptedCount <- participant_count
                       (participationWhere context (Some ParticipantStatus.ACCEPTED)) ;;
    rejectedCount <- participant_count
                       (participationWhere context (Some ParticipantStatus.REJECTED)) ;;
    match mapOrNull toTesterItem participations with
    | None => throw (Error "TypeError: Cannot read properties of null")
    | Some items =>
        ret {| listing_data := items;
               listing_meta := {| total := total_; meta_skip := skip;
                                  meta_take := take;
                                  hasMore := sumBelow skip take total_ |};
               listing_counts := {| pending := pendingCount;
                                    accepted := acceptedCount;
                                    rejected := rejectedCount |} |}
    end.

End EvaluationQueries.

(* ===================================================================== *)
(** ** Vocabulary of the further properties *)
(* ===================================================================== *)

(** The world after the invitations with this id were given a status. *)
Definition marked (s : InvitationStatus.t) (id : string) (w : World) : World :=
  with_db
    (set_invitations
       (map (fun i => if InvitationService.hasId id i
                      then InvitationService.setStatus s i else i)
            (invitations (db w)))
       (db w))
    w.

(** The world after [resendInvitation]: the invitations with this id carry
    the next random UUID as token, are due sixty minutes from now and are
    Pending. *)
Definition renewed (id : string) (w : World) : World :=
  with_db
    (set_invitations
       (map (fun i => if InvitationService.hasId id i
                      then InvitationService.renew (entropy w (drawn w))
                             (clock w + 3600000)%Z i
                      else i)
            (invitations (db w)))
       (db w))
    (with_drawn (S (drawn w)) w).

(** The identity and the user row that accepting an invitation creates:
    the provider draws the next UUID, the user row the one after. *)
Definition identityFor (inv : Invitation) (w : World) : SupabaseUser :=
  {| su_id := entropy w (drawn w); su_email := inv_email inv;
     su_role := inv_role inv; su_accountId := inv_accountId inv |}.

Definition userFor (inv : Invitation) (w : World) : User :=
  {| usr_id := entropy w (S (drawn w));
     usr_supabaseId := entropy w (drawn w);
     usr_email := inv_email inv;
     usr_role := inv_role inv;
     usr_accountId := inv_accountId inv;
     usr_createdAt := clock w |}.

(** An invitation accepted at [now]: Accepted, with the acceptance date,
    and otherwise as before. *)
Definition acceptedAs (now : Z) (i0 i1 : Invitation) : Prop :=
  inv_status i1 = InvitationStatus.ACCEPTED
  /\ inv_acceptedAt i1 = Some now
  /\ inv_id i1 = inv_id i0 /\ inv_email i1 = inv_email i0
  /\ inv_token i1 = inv_token i0 /\ inv_role i1 = inv_role i0
  /\ inv_accountId i1 = inv_accountId i0
  /\ inv_invitedById i1 = inv_invitedById i0
  /\ inv_expiresAt i1 = inv_expiresAt i0.

(** An invitation marked Expired, and otherwise as before. *)
Definition expiredAs (i0 i1 : Invitation) : Prop :=
  inv_status i1 = InvitationStatus.EXPIRED
  /\ inv_acceptedAt i1 = inv_acceptedAt i0
  /\ inv_id i1 = inv_id i0 /\ inv_email i1 = inv_email i0
  /\ inv_token i1 = inv_token i0 /\ inv_role i1 = inv_role i0
  /\ inv_accountId i1 = inv_accountId i0
  /\ inv_invitedById i1 = inv_invitedById i0
  /\ inv_expiresAt i1 = inv_expiresAt i0.

(** The invitations [after] are the invitations [before], those of this id
    changed as [change] says and every other one untouched. *)
Definition onlyChanged (id : string) (change : Invitation -> Invitation -> Prop)
    (before after : list Invitation) : Prop :=
  Forall2 (fun i0 i1 => (inv_id i0 = id -> change i0 i1)
                        /\ (inv_id i0 <> id -> i1 = i0))
          before after.

(** The invitations after the one with this id was accepted now. *)
Definition acceptedRows (id : string) (w : World) : list Invitation :=
  map (fun i => if InvitationService.hasId id i
                then InvitationService.setAccepted (clock w) i else i)
      (invitations (db w)).

(** The world after a successful [acceptInvitation]. *)
Definition welcomed (inv : Invitation) (w : World) : World :=
  with_db
    (set_invitations (acceptedRows (inv_id inv) w)
       (set_users (users (db w) ++ [userFor inv w]) (db w)))
    (with_drawn (S (S (drawn w)))
       (with_idp (idp w ++ [identityFor inv w]) w)).

(** What a successful [signup] creates: the account under the next random
    UUID, the identity under the one after, the user row under the third. *)
Definition openedAccount (dto : AuthService.SignupDto) (w : World) : Account :=
  {| acc_id := entropy w (drawn w);
     acc_name := AuthService.accountNameOr (AuthService.sd_accountName dto)
                   (AuthService.sd_email dto) |}.

Definition signedUpUser (dto : AuthService.SignupDto) (w : World) : User :=
  {| usr_id := entropy w (S (S (drawn w)));
     usr_supabaseId := entropy w (S (drawn w));
     usr_email := AuthService.sd_email dto;
     usr_role := AuthService.sd_role dto;
     usr_accountId := entropy w (drawn w);
     usr_createdAt := clock w |}.

Definition signedUp (dto : AuthService.SignupDto) (w : World) : World :=
  with_db
    (set_users (users (db w) ++ [signedUpUser dto w])
       (set_accounts (accounts (db w) ++ [openedAccount dto w]) (db w)))
    (with_drawn (S (S (S (drawn w))))
       (with_idp (idp w ++ [{| su_id := entropy w (S (drawn w));
                               su_email := AuthService.sd_email dto;
                               su_role := AuthService.sd_role dto;
                               su_accountId := entropy w (drawn w) |}])
          w)).

(** A provider that accepts one password per address. *)
Definition demoSignIn (email_ password : string) : M AuthService.Session :=
  extcall (fun w =>
    if (password =? "hunter22")
    then (w, inr {| AuthService.access_token := ("at-" ++ email_)%string;
                    AuthService.refresh_token := ("rt-" ++ email_)%string;
                    AuthService.expires_at := (clock w + 3600)%Z |})
    else (w, inl (AuthApiError "Invalid login credentials"))).

(** The project [ProjectService.create] writes, and the world after. *)
Definition projectFor (context : TenantContext)
    (data : ProjectService.CreateProjectDto) (w : World) : Project :=
  {| prj_id := entropy w (drawn w);
     prj_name := ProjectService.cp_name data;
     prj_description := ProjectService.cp_description data;
     prj_ownerId := userId context;
     prj_accountId := tenantId context;
     prj_createdAt := clock w;
     prj_deletedAt := None |}.

Definition withProject (p : Project) (w : World) : World :=
  with_db (set_projects (projects (db w) ++ [p]) (db w))
          (with_drawn (S (drawn w)) w).

(** The world without the membership rows of a pair. *)
Definition withoutMember (projectId uid : string) (w : World) : World :=
  with_db (set_projectMembers
             (filter (fun m => negb ((pm_projectId m =? projectId)
                                     && (pm_userId m =? uid)))
                     (projectMembers (db w)))
             (db w)) w.

(** The world after the projects of this id were soft-deleted now. *)
Definition softDeleted (id : string) (w : World) : World :=
  with_db (set_projects
             (map (fun p => if prj_id p =? id
                            then ProjectService.setDeletedAt (clock w) p
                            else p)
                  (projects (db w)))
             (db w)) w.

(** [delete] of a service that inherits [findOne] from [BaseService]. *)
Definition inheritedDelete {T : Type} `{TenantModel T} (modelName : string)
    (custom : PermissionConfig) : TenantContext -> string -> M T :=
  BaseService.delete modelName custom (BaseService.findOne modelName custom).

(** The world after the rows of this id were deleted. *)
Definition rowsDeleted {T : Type} `{TenantModel T} (id : string) (w : World)
    : World :=
  with_db (with_rows delegate
             (filter (fun r => negb (id_of r =? id)) (rows delegate (db w)))
             (db w)) w.

(** An evaluation updated with these data: every field the data give has
    the value given, every other field is as before; the id, the tenant,
    the project and the creator are never given. *)
Definition updatedAs (data : EvaluationService.UpdateEvaluationDto)
    (e0 e1 : Evaluation) : Prop :=
  (forall t, EvaluationService.upd_title data = Some t -> ev_title e1 = t)
  /\ (EvaluationService.upd_title data = None -> ev_title e1 = ev_title e0)
  /\ (forall t, EvaluationService.upd_description data = Some t ->
                ev_description e1 = Some t)
  /\ (EvaluationService.upd_description data = None ->
      ev_description e1 = ev_description e0)
  /\ (forall t, EvaluationService.upd_instructions data = Some t ->
                ev_instructions e1 = Some t)
  /\ (EvaluationService.upd_instructions data = None ->
      ev_instructions e1 = ev_instructions e0)
  /\ (forall st, EvaluationService.upd_status data = Some st ->
                 ev_status e1 = st)
  /\ (EvaluationService.upd_status data = None -> ev_status e1 = ev_status e0)
  /\ ev_id e1 = ev_id e0 /\ ev_accountId e1 = ev_accountId e0
  /\ ev_projectId e1 = ev_projectId e0
  /\ ev_createdById e1 = ev_createdById e0.

(** The world after the evaluations of this id were updated. *)
Definition updated (data : EvaluationService.UpdateEvaluationDto)
    (id : string) (w : World) : World :=
  with_db (set_evaluations
             (map (fun e => if ev_id e =? id
                            then EvaluationService.applyUpdate data e else e)
                  (evaluations (db w)))
             (db w)) w.

(** An update that sets the status and nothing else. *)
Definition statusOnly (s : EvaluationStatus.t)
    : EvaluationService.UpdateEvaluationDto :=
  {| EvaluationService.upd_title := None;
     EvaluationService.upd_description := None;
     EvaluationService.upd_instructions := None;
     EvaluationService.upd_status := Some s |}.

(** The view of a stored evaluation: its questions by ascending order, its
    project and the number of its participants. *)
Definition viewOf (d : DB) (e : Evaluation) : EvaluationQueries.EvaluationView :=
  {| EvaluationQueries.view_evaluation := e;
     EvaluationQueries.view_questions :=
       EvaluationQueries.questionsOf d (ev_id e);
     EvaluationQueries.view_project := EvaluationQueries.projectOf d e;
     EvaluationQueries.view_participants :=
       EvaluationQueries.participantCount d e |}.

(** Every stored response was given by a stored user. *)
Definition respondentsStored (d : DB) : Prop :=
  forall r, In r (responses d) ->
            exists u, In u (users d) /\ usr_id u = rsp_userId r.

(** Every participation of this user is in a stored evaluation. *)
Definition participationsStored (d : DB) (uid : string) : Prop :=
  forall p, In p (participants d) -> ep_userId p = uid ->
            exists e, In e (evaluations d) /\ ev_id e = ep_evaluationId p.

(** A participation with its evaluation, as the listing query includes
    it. *)
Definition withEvaluation (d : DB) (p : EvaluationParticipant)
    : EvaluationParticipant
      * option (Evaluation * option (string * string) * nat) :=
  (p, option_map (fun e => (e, EvaluationQueries.projectOf d e,
                            EvaluationQueries.questionCount d e))
                 (find (fun e => ev_id e =? ep_evaluationId p)
                       (evaluations d))).

(** Case analysis on the failure schedule at the next call. *)
Ltac fault_cases :=
  match goal with
  | |- context [match ?f with [] => _ | _ :: _ => _ end] =>
      is_var f; destruct f as [|[?|] ?]
  end.

(* ===================================================================== *)
(** * Properties *)
(* ===================================================================== *)

Unset Implicit Arguments.

(** ** Decidable equalities and list search *)

Lemma Role_eqb_eq a b : Role_eqb a b = true <-> a = b.
Proof. destruct a, b; simpl; split; congruence. Qed.

Lemma Role_eqb_refl a : Role_eqb a a = true.
Proof. now destruct a. Qed.

Lemma EvaluationStatus_eqb_eq a b : EvaluationStatus.eqb a b = true <-> a = b.
Proof. destruct a, b; simpl; split; congruence. Qed.

Lemma InvitationStatus_eqb_eq a b : InvitationStatus.eqb a b = true <-> a = b.
Proof. destruct a, b; simpl; split; congruence. Qed.

Lemma find_found {A} (f : A -> bool) l x :
  In x l -> f x = true -> exists y, find f l = Some y.
Proof.
  induction l as [|a l IH]; simpl; [tauto|].
  intros [->|Hin] Hf.
  - rewrite Hf. eauto.
  - destruct (f a); eauto.
Qed.

Lemma find_absent {A} (f : A -> bool) l :
  (forall x, In x l -> f x = false) -> find f l = None.
Proof.
  induction l as [|a l IH]; simpl; intros Hall; [reflexivity|].
  rewrite (Hall a (or_introl eq_refl)). apply IH. intros; apply Hall; now right.
Qed.

Lemma find_app_l {A} (f : A -> bool) l l' x :
  find f l = Some x -> find f (l ++ l') = Some x.
Proof.
  induction l as [|a l IH]; simpl; [discriminate|].
  destruct (f a); auto.
Qed.

Lemma find_app_r {A} (f : A -> bool) l l' :
  find f l = None -> find f (l ++ l') = find f l'.
Proof.
  induction l as [|a l IH]; simpl; [reflexivity|].
  destruct (f a); [discriminate|auto].
Qed.

Lemma existsb_find_none {A} (f : A -> bool) l :
  find f l = None -> existsb f l = false.
Proof.
  induction l as [|a l IH]; simpl; [reflexivity|].
  destruct (f a); [discriminate|auto].
Qed.

(** ** Stepping through a service call *)


Lemma extcall_calm {A} (body : M A) w :
  faults w = [] -> extcall body w = body w.
Proof. unfold extcall. now intros ->. Qed.

Lemma bind_ok {A B} (m : M A) (f : A -> M B) w w' a :
  m w = (w', inr a) -> bind m f w = f a w'.
Proof. unfold bind. now intros ->. Qed.

Lemma bind_err {A B} (m : M A) (f : A -> M B) w w' e :
  m w = (w', inl e) -> bind m f w = (w', inl e).
Proof. unfold bind. now intros ->. Qed.

Lemma findFirst_calm {T} (tb : Table T) p w :
  faults w = [] -> findFirst tb p w = (w, inr (find p (rows tb (db w)))).
Proof. intros Hc. unfold findFirst. now rewrite extcall_calm. Qed.

Lemma findUnique_calm {T} (tb : Table T) p w :
  faults w = [] -> findUnique tb p w = (w, inr (find p (rows tb (db w)))).
Proof. apply findFirst_calm. Qed.

Lemma create_calm {T} (tb : Table T) clash row w :
  faults w = [] ->
  existsb (clash row) (rows tb (db w)) = false ->
  create tb clash row w
  = (with_db (with_rows tb (rows tb (db w) ++ [row]) (db w)) w, inr row).
Proof.
  intros Hc Hu. unfold create. rewrite extcall_calm by assumption.
  now rewrite Hu.
Qed.

Lemma update_calm {T} (tb : Table T) p f w r :
  faults w = [] ->
  find p (rows tb (db w)) = Some r ->
  update tb p f w
  = (with_db (with_rows tb (map (fun x => if p x then f x else x)
                                (rows tb (db w))) (db w)) w,
     inr (f r)).
Proof.
  intros Hc Hf. unfold update. rewrite extcall_calm by assumption.
  now rewrite Hf.
Qed.

(* ===================================================================== *)
(** ** Joining an evaluation *)
(* ===================================================================== *)

Section JoinFacts.
Import EvaluationService Sample.

Lemma key_refl evaluationId uid p :
  ep_evaluationId p = evaluationId -> ep_userId p = uid ->
  evaluationId_userId evaluationId uid p = true.
Proof.
  intros <- <-. unfold evaluationId_userId. now rewrite !String.eqb_refl.
Qed.

Lemma join_fresh context evaluationId w ev :
  faults w = [] -> role context = TESTER ->
  find (activeWithId evaluationId) (evaluations (db w)) = Some ev ->
  find (evaluationId_userId evaluationId (userId context))
       (participants (db w)) = None ->
  joinEvaluation context evaluationId w
  = (joined context evaluationId w, inr tt).
Proof.
  intros Hc Hr Hev Hnone. unfold joinEvaluation. rewrite Hr. simpl.
  rewrite (bind_ok _ _ _ _ _ (findFirst_calm evaluation_tb _ w Hc)).
  simpl. rewrite Hev.
  rewrite (bind_ok _ _ _ _ _ (findUnique_calm evaluationParticipant_tb _ w Hc)).
  simpl. rewrite Hnone.
  unfold evaluationParticipant_create.
  erewrite bind_ok; [reflexivity|].
  rewrite create_calm; [reflexivity|assumption|].
  simpl. now apply existsb_find_none.
Qed.

Lemma join_again context evaluationId w ev p :
  faults w = [] -> role context = TESTER ->
  find (activeWithId evaluationId) (evaluations (db w)) = Some ev ->
  find (evaluationId_userId evaluationId (userId context))
       (participants (db w)) = Some p ->
  joinEvaluation context evaluationId w
  = (w, inl (BadRequestException "Already joined this evaluation")).
Proof.
  intros Hc Hr Hev Hp. unfold joinEvaluation. rewrite Hr. simpl.
  rewrite (bind_ok _ _ _ _ _ (findFirst_calm evaluation_tb _ w Hc)).
  simpl. rewrite Hev.
  rewrite (bind_ok _ _ _ _ _ (findUnique_calm evaluationParticipant_tb _ w Hc)).
  simpl. now rewrite Hp.
Qed.

Lemma join_inactive context evaluationId w :
  faults w = [] -> role context = TESTER ->
  find (activeWithId evaluationId) (evaluations (db w)) = None ->
  joinEvaluation context evaluationId w
  = (w, inl (NotFoundException "Active evaluation not found")).
Proof.
  intros Hc Hr Hev. unfold joinEvaluation. rewrite Hr. simpl.
  rewrite (bind_ok _ _ _ _ _ (findFirst_calm evaluation_tb _ w Hc)).
  simpl. now rewrite Hev.
Qed.



Lemma activeEvaluation_find d evaluationId :
  activeEvaluation d evaluationId ->
  exists ev, find (activeWithId evaluationId) (evaluations d) = Some ev.
Proof.
  intros (ev & Hin & Hid & Hst).
  apply (find_found _ _ ev Hin). unfold activeWithId.
  rewrite Hid, Hst, String.eqb_refl. reflexivity.
Qed.

Lemma not_activeEvaluation_find d evaluationId :
  ~ activeEvaluation d evaluationId ->
  find (activeWithId evaluationId) (evaluations d) = None.
Proof.
  intros Hno. destruct (find _ _) as [ev|] eqn:Hf; [|reflexivity].
  exfalso. apply Hno. apply find_some in Hf as [Hin Hp].
  unfold activeWithId in Hp. apply andb_true_iff in Hp as [Hid Hst].
  exists ev. repeat split; trivial.
  - now apply String.eqb_eq.
  - now apply EvaluationStatus_eqb_eq.
Qed.

Lemma not_hasJoined_find d evaluationId uid :
  ~ hasJoined d evaluationId uid ->
  find (evaluationId_userId evaluationId uid) (participants d) = None.
Proof.
  intros Hno. destruct (find _ _) as [p|] eqn:Hf; [|reflexivity].
  exfalso. apply Hno. apply find_some in Hf as [Hin Hp].
  unfold evaluationId_userId in Hp. apply andb_true_iff in Hp as [Hid Hu].
  exists p. repeat split; trivial; now apply String.eqb_eq.
Qed.

(** C4, as the code has it.  For a tester with no failing collaborator:
    without an Active evaluation of that id the join fails with NotFound;
    with one, and no participation row for the pair yet, the join appends
    one Pending row, and a later join of the same pair, at any time, fails
    with BadRequest ("Already joined this evaluation") and writes
    nothing. *)
Theorem joinEvaluation_once_then_refused context evaluationId w :
  faults w = [] -> role context = TESTER ->
  (~ activeEvaluation (db w) evaluationId ->
   joinEvaluation context evaluationId w
   = (w, inl (NotFoundException "Active evaluation not found")))
  /\
  (activeEvaluation (db w) evaluationId ->
   ~ hasJoined (db w) evaluationId (userId context) ->
   let w1 := joined context evaluationId w in
   joinEvaluation context evaluationId w = (w1, inr tt)
   /\ participants (db w1)
      = participants (db w) ++ [pendingRow context evaluationId w]
   /\ ep_status (pendingRow context evaluationId w) = ParticipantStatus.PENDING
   /\ forall t,
        joinEvaluation context evaluationId (with_clock t w1)
        = (with_clock t w1,
           inl (BadRequestException "Already joined this evaluation"))).
Proof.
  intros Hc Hr. split.
  - intros Hno. apply join_inactive; trivial.
    now apply not_activeEvaluation_find.
  - intros Hact Hnew w1.
    destruct (activeEvaluation_find _ _ Hact) as [ev Hev].
    pose proof (not_hasJoined_find _ _ _ Hnew) as Hnone.
    split; [now apply join_fresh with ev|].
    split; [reflexivity|]. split; [reflexivity|].
    intros t.
    apply join_again with (ev := ev) (p := pendingRow context evaluationId w);
      trivial.
    simpl. rewrite find_app_r by assumption.
    simpl. rewrite key_refl; reflexivity.
Qed.

(** Witness: tom of acme joins the Active survey; the draft is not found. *)
Lemma joinEvaluation_once_then_refused_witness :
  joinEvaluation (contextOf tom) "ev-2" (world baseDB 100)
  = (world baseDB 100, inl (NotFoundException "Active evaluation not found"))
  /\ (let w1 := joined (contextOf tom) "ev-1" (world baseDB 100) in
      joinEvaluation (contextOf tom) "ev-1" (world baseDB 100) = (w1, inr tt)
      /\ joinEvaluation (contextOf tom) "ev-1" (with_clock 200 w1)
         = (with_clock 200 w1,
            inl (BadRequestException "Already joined this evaluation"))).
Proof.
  split.
  - apply (joinEvaluation_once_then_refused (contextOf tom) "ev-2"
             (world baseDB 100) eq_refl eq_refl).
    intros (ev & Hin & Hid & Hst). simpl in Hin.
    destruct Hin as [<-|[<-|[]]]; discriminate.
  - assert (Hact : activeEvaluation (db (world baseDB 100)) "ev-1").
    { exists survey. simpl. auto. }
    assert (Hnew : ~ hasJoined (db (world baseDB 100)) "ev-1"
                     (userId (contextOf tom))).
    { intros (p & [] & _). }
    destruct (proj2 (joinEvaluation_once_then_refused (contextOf tom) "ev-1"
                       (world baseDB 100) eq_refl eq_refl) Hact Hnew)
      as (H1 & _ & _ & H2).
    split; [exact H1 | exact (H2 200%Z)].
Defined.

(** C4 as stated fails: the second join is refused with BadRequest, which
    is not a Conflict. *)
Lemma second_join_is_not_a_conflict :
  let w1 := fst (joinEvaluation (contextOf tom) "ev-1" (world baseDB 100)) in
  snd (joinEvaluation (contextOf tom) "ev-1" (world baseDB 100)) = inr tt
  /\ snd (joinEvaluation (contextOf tom) "ev-1" w1)
     = inl (BadRequestException "Already joined this evaluation")
  /\ ~ (exists e, snd (joinEvaluation (contextOf tom) "ev-1" w1) = inl e
                  /\ isConflict e = true).
Proof.
  split; [reflexivity|]. split; [reflexivity|].
  intros (e & He & Hconf). vm_compute in He.
  injection He as <-. discriminate.
Qed.

End JoinFacts.

(* ===================================================================== *)
(** ** Tenant isolation of the evaluation service *)
(* ===================================================================== *)

Section IsolationFacts.
Import EvaluationService Sample.

(** C1 at a failing input.  tess is a tester of globex; the survey "ev-1"
    belongs to acme.  Her join finds it and writes a participation row, and
    her feedback is stored against acme's question, while the
    tenant-filtered sibling [updateEvaluation], called by the founder of
    globex, does not find the evaluation. *)
Theorem joinEvaluation_crosses_tenants :
  let w0 := world baseDB 100 in
  let feedback := {| responses_ := [{| questionId := "q-1";
                                       answer := AnsBoolean true |}] |} in
  let w1 := fst (joinEvaluation (contextOf tess) "ev-1" w0) in
  let w2 := fst (submitFeedback (contextOf tess) "ev-1" feedback w1) in
  ev_accountId survey <> tenantId (contextOf tess)
  /\ snd (joinEvaluation (contextOf tess) "ev-1" w0) = inr tt
  /\ participants (db w1) = [pendingRow (contextOf tess) "ev-1" w0]
  /\ snd (submitFeedback (contextOf tess) "ev-1" feedback w1) = inr tt
  /\ responses (db w2)
     = [{| rsp_questionId := "q-1"; rsp_userId := "u-tess";
           rsp_answer := AnsBoolean true; rsp_submittedAt := 100 |}]
  /\ updateEvaluation (contextOf gus) "ev-1"
       {| upd_title := Some "Taken over"; upd_description := None;
          upd_instructions := None; upd_status := None |} w0
     = (w0, inl (NotFoundException "Evaluation not found")).
Proof.
  repeat split; try reflexivity. discriminate.
Qed.

End IsolationFacts.

(* ===================================================================== *)
(** ** Submitting feedback *)
(* ===================================================================== *)

Section FeedbackFacts.
Import EvaluationService Sample.

Lemma includes_In l x : includes l x = true <-> In x l.
Proof.
  unfold includes. rewrite existsb_exists. split.
  - intros (y & Hin & Heq). apply String.eqb_eq in Heq. now subst.
  - intros Hin. exists x. split; [assumption|apply String.eqb_refl].
Qed.

Lemma validateQuestionIds_pass ids rs w :
  (forall r, In r rs -> In (questionId r) ids) ->
  validateQuestionIds ids rs w = (w, inr tt).
Proof.
  induction rs as [|r rs IH]; simpl; intros Hall; [reflexivity|].
  rewrite (proj2 (includes_In ids (questionId r))) by (apply Hall; now left).
  simpl. apply IH. intros; apply Hall; now right.
Qed.


(** A failing validation leaves the world as it was. *)
Lemma validateQuestionIds_pure ids rs w :
  fst (validateQuestionIds ids rs w) = w.
Proof.
  induction rs as [|r rs IH]; simpl; [reflexivity|].
  destruct (includes ids (questionId r)); simpl; auto.
Qed.

Lemma include_questions_calm evaluationId w ev :
  faults w = [] ->
  find (activeWithId evaluationId) (evaluations (db w)) = Some ev ->
  exists qs,
    evaluation_findFirst_include_questions (activeWithId evaluationId) w
    = (w, inr (Some (ev, qs)))
    /\ map q_id qs = questionIdsOf (db w) evaluationId.
Proof.
  intros Hc Hev. unfold evaluation_findFirst_include_questions.
  rewrite extcall_calm by assumption. rewrite Hev. simpl.
  eexists. split; [reflexivity|].
  apply find_some in Hev as [_ Hp]. unfold activeWithId in Hp.
  apply andb_true_iff in Hp as [Hid _]. apply String.eqb_eq in Hid.
  unfold questionIdsOf. now rewrite Hid.
Qed.

Lemma submit_complete context evaluationId data w p ev :
  faults w = [] -> role context = TESTER ->
  find (evaluationId_userId evaluationId (userId context))
       (participants (db w)) = Some p ->
  ep_completedAt p = None ->
  find (activeWithId evaluationId) (evaluations (db w)) = Some ev ->
  (forall r, In r (responses_ data) ->
             In (questionId r) (questionIdsOf (db w) evaluationId)) ->
  submitFeedback context evaluationId data w
  = (submitted context evaluationId data w, inr tt).
Proof.
  intros Hc Hr Hp Hopen Hev Hall. unfold submitFeedback. rewrite Hr. simpl.
  rewrite (bind_ok _ _ _ _ _ (findUnique_calm evaluationParticipant_tb _ w Hc)).
  simpl. rewrite Hp, Hopen. simpl.
  destruct (include_questions_calm _ _ _ Hc Hev) as (qs & Hq & Hids).
  rewrite (bind_ok _ _ _ _ _ Hq). rewrite Hids.
  rewrite (bind_ok _ _ _ _ _ (validateQuestionIds_pass _ _ w Hall)).
  unfold transaction, bind, newDate, createMany, update, extcall, ret.
  repeat (progress (simpl; rewrite ?Hc, ?Hp)). reflexivity.
Qed.




Lemma find_map_update {A} (p : A -> bool) (f : A -> A) l :
  (forall x, p (f x) = p x) ->
  find p (map (fun x => if p x then f x else x) l) = option_map f (find p l).
Proof.
  intros Hkeep. induction l as [|a l IH]; simpl; [reflexivity|].
  destruct (p a) eqn:Hpa.
  - now rewrite Hkeep, Hpa.
  - now rewrite Hpa.
Qed.





(** With the update of the participation failing after the answers were
    written, the answers are not kept; the error is the one of the failed
    step. *)
Example submitFeedback_rolls_back :
  let w := with_faults [None; None; None; Some (Outage "database")]
             (world tomJoined 100) in
  snd (submitFeedback (contextOf tom) "ev-1" goodFeedback w)
  = inl (Outage "database")
  /\ db (fst (submitFeedback (contextOf tom) "ev-1" goodFeedback w))
     = tomJoined.
Proof. split; reflexivity. Qed.

End FeedbackFacts.

(* ===================================================================== *)
(** ** The write block for members *)
(* ===================================================================== *)

Section GuardFacts.
Import MemberWriteBlockGuard Sample.

Lemma canActivate_blocked request :
  memberWrite request -> canActivate request = inl forbidden.
Proof.
  intros [(u & Hu & Hr) Hm]. unfold canActivate. rewrite Hu, Hr.
  now rewrite (proj2 (includes_In writeMethods (method request)) Hm).
Qed.

Lemma canActivate_free request :
  ~ memberWrite request -> canActivate request = inr true.
Proof.
  intros Hno. unfold canActivate.
  destruct (user request) as [u|] eqn:Hu; [|reflexivity].
  destruct (Role_eqb (au_role u) MEMBER) eqn:Hr; [|reflexivity].
  destruct (includes writeMethods (method request)) eqn:Hm; [|reflexivity].
  exfalso. apply Hno. split.
  - exists u. split; [assumption|now apply Role_eqb_eq].
  - now apply includes_In.
Qed.

Lemma runGuards_passed (before rest : list Guard) request :
  Forall (fun g : Guard => g request = inr true) before ->
  runGuards (before ++ rest) request = runGuards rest request.
Proof.
  induction 1 as [|g gs Hg _ IH]; simpl; [reflexivity|]. now rewrite Hg.
Qed.

Lemma runGuards_stopped (before after : list Guard) request :
  memberWrite request ->
  exists e, runGuards (before ++ canActivate :: after) request = Some e.
Proof.
  intros Hb. induction before as [|g gs IH]; simpl.
  - rewrite canActivate_blocked by assumption. eauto.
  - destruct (g request) as [e|[|]]; eauto.
Qed.

(** C3.  The guard throws Forbidden exactly on the requests of an
    authenticated MEMBER whose method is POST, PUT, PATCH or DELETE, and
    lets every other request pass.  Installed among the guards of a route
    it keeps the handler from running on such a request, whatever the
    route's handler and other guards are: the request ends with an
    exception and the world is untouched; when the guards before it let
    the request pass, the exception is its Forbidden. *)
Theorem memberWriteBlockGuard_blocks_member_writes request :
  (memberWrite request -> canActivate request = inl forbidden)
  /\ (~ memberWrite request -> canActivate request = inr true)
  /\ (memberWrite request ->
      forall A (before after : list Guard) (handler : Request -> M A) w,
        (exists e, dispatch (before ++ canActivate :: after) handler request w
                   = (w, inl e))
        /\ (Forall (fun g : Guard => g request = inr true) before ->
            dispatch (before ++ canActivate :: after) handler request w
            = (w, inl forbidden)))
  /\ (~ memberWrite request ->
      forall A (handler : Request -> M A) w,
        dispatch [canActivate] handler request w = handler request w).
Proof.
  split; [apply canActivate_blocked|].
  split; [apply canActivate_free|].
  split.
  - intros Hb A before after handler w. split.
    + destruct (runGuards_stopped before after request Hb) as [e He].
      exists e. unfold dispatch. now rewrite He.
    + intros Hpass. unfold dispatch.
      rewrite runGuards_passed by assumption. simpl.
      now rewrite canActivate_blocked.
  - intros Hfree A handler w. unfold dispatch. simpl.
    now rewrite canActivate_free.
Qed.

(** Witness: mia, a MEMBER, is stopped on POST before the handler writes;
    her GET and tom's POST go through to the handler. *)
Lemma memberWriteBlockGuard_blocks_member_writes_witness :
  dispatch [canActivate] addMia
    {| user := Some (asUser mia); method := "POST" |} (world baseDB 0)
  = (world baseDB 0, inl forbidden)
  /\ canActivate {| user := Some (asUser mia); method := "GET" |} = inr true
  /\ dispatch [canActivate] addMia
       {| user := Some (asUser tom); method := "POST" |} (world baseDB 0)
     = addMia {| user := Some (asUser tom); method := "POST" |} (world baseDB 0).
Proof.
  split; [|split].
  - apply (proj1 (proj2 (proj2 (memberWriteBlockGuard_blocks_member_writes
             {| user := Some (asUser mia); method := "POST" |}))))
      with (before := []) (after := []).
    + split; [exists (asUser mia); split; reflexivity|simpl; auto].
    + constructor.
  - apply (proj1 (proj2 (memberWriteBlockGuard_blocks_member_writes
             {| user := Some (asUser mia); method := "GET" |}))).
    intros [_ Hm]. simpl in Hm.
    destruct Hm as [H|[H|[H|[H|[]]]]]; discriminate.
  - apply (proj2 (proj2 (proj2 (memberWriteBlockGuard_blocks_member_writes
             {| user := Some (asUser tom); method := "POST" |})))).
    intros [(u & Hu & Hr) _]. simpl in Hu. injection Hu as <-. discriminate.
Defined.

End GuardFacts.

(* ===================================================================== *)
(** ** Invitations past their expiry *)
(* ===================================================================== *)

Section ExpiryFacts.
Import InvitationService Sample.

Lemma include_calm token w :
  faults w = [] ->
  invitation_findUnique_include token w
  = (w, inr (option_map
               (fun i => (i,
                          find (fun a => acc_id a =? inv_accountId i)
                               (accounts (db w)),
                          find (fun u => usr_id u =? inv_invitedById i)
                               (users (db w))))
               (invitationOf (db w) token))).
Proof.
  intros Hc. unfold invitation_findUnique_include.
  now rewrite extcall_calm.
Qed.

Lemma hasId_own inv : hasId (inv_id inv) inv = true.
Proof. apply String.eqb_refl. Qed.

Lemma lapse_calm w inv :
  faults w = [] ->
  In inv (invitations (db w)) ->
  exists r,
    update invitation_tb (hasId (inv_id inv))
           (setStatus InvitationStatus.EXPIRED) w
    = (lapsed (inv_id inv) w, inr r).
Proof.
  intros Hc Hin.
  destruct (find_found (hasId (inv_id inv)) _ inv Hin (hasId_own inv))
    as [r Hr].
  exists (setStatus InvitationStatus.EXPIRED r).
  now rewrite (update_calm invitation_tb _ _ w r Hc Hr).
Qed.

Lemma invitationOf_lapsed w token inv :
  invitationOf (db w) token = Some inv ->
  invitationOf (db (lapsed (inv_id inv) w)) token
  = Some (setStatus InvitationStatus.EXPIRED inv).
Proof.
  unfold invitationOf, lapsed. simpl. intros Hf.
  assert (Hgen : forall l,
             find (hasToken token) l = Some inv ->
             find (hasToken token)
                  (map (fun i => if hasId (inv_id inv) i
                                 then setStatus InvitationStatus.EXPIRED i
                                 else i) l)
             = Some (setStatus InvitationStatus.EXPIRED inv)).
  { induction l as [|a l IH]; simpl; [discriminate|].
    destruct (hasToken token a) eqn:Ha.
    - intros [= ->]. rewrite hasId_own. simpl.
      unfold hasToken in *. simpl. now rewrite Ha.
    - intros Hl. destruct (hasId (inv_id inv) a); simpl;
        unfold hasToken in *; simpl; rewrite Ha; auto. }
  now apply Hgen.
Qed.

Lemma validateToken_lapses token w inv :
  faults w = [] ->
  invitationOf (db w) token = Some inv ->
  inv_status inv = InvitationStatus.PENDING ->
  (inv_expiresAt inv < clock w)%Z ->
  validateToken token w
  = (lapsed (inv_id inv) w, inl (BadRequestException "Invitation has expired")).
Proof.
  intros Hc Hf Hst Hexp. unfold validateToken.
  rewrite (bind_ok _ _ _ _ _ (include_calm token w Hc)). rewrite Hf. simpl.
  rewrite Hst. simpl. unfold bind at 1, newDate at 1.
  rewrite (proj2 (Z.ltb_lt _ _) Hexp).
  destruct (lapse_calm w inv Hc) as [r Hr].
  { apply (find_some _ _ Hf). }
  now rewrite (bind_ok _ _ _ _ _ Hr).
Qed.

Lemma acceptInvitation_lapses data w inv :
  faults w = [] ->
  invitationOf (db w) (ai_token data) = Some inv ->
  inv_status inv = InvitationStatus.PENDING ->
  (inv_expiresAt inv < clock w)%Z ->
  acceptInvitation data w
  = (lapsed (inv_id inv) w, inl (BadRequestException "Invitation has expired")).
Proof.
  intros Hc Hf Hst Hexp. unfold acceptInvitation.
  rewrite (bind_ok _ _ _ _ _ (include_calm _ w Hc)). rewrite Hf. simpl.
  rewrite Hst. simpl. unfold bind at 1, newDate at 1.
  rewrite (proj2 (Z.ltb_lt _ _) Hexp).
  destruct (lapse_calm w inv Hc) as [r Hr].
  { apply (find_some _ _ Hf). }
  now rewrite (bind_ok _ _ _ _ _ Hr).
Qed.

Lemma acceptInvitation_settled data w inv :
  faults w = [] ->
  invitationOf (db w) (ai_token data) = Some inv ->
  inv_status inv <> InvitationStatus.PENDING ->
  acceptInvitation data w = (w, inl (alreadyBeen inv)).
Proof.
  intros Hc Hf Hst. unfold acceptInvitation.
  rewrite (bind_ok _ _ _ _ _ (include_calm _ w Hc)). rewrite Hf. simpl.
  destruct (InvitationStatus.eqb (inv_status inv) InvitationStatus.PENDING)
    eqn:Heq; [|reflexivity].
  apply InvitationStatus_eqb_eq in Heq. contradiction.
Qed.

(** C5.  With no failing collaborator, reading a Pending invitation whose
    expiry lies before the current time, through [validateToken] or through
    [acceptInvitation], marks it Expired and fails with "Invitation has
    expired"; from then on, at any time and with any password,
    [acceptInvitation] with the same token fails with "Invitation has
    already been expired" and changes nothing. *)
Theorem expired_invitation_lapses_on_read token password w inv :
  faults w = [] ->
  invitationOf (db w) token = Some inv ->
  inv_status inv = InvitationStatus.PENDING ->
  (inv_expiresAt inv < clock w)%Z ->
  let w1 := lapsed (inv_id inv) w in
  validateToken token w
  = (w1, inl (BadRequestException "Invitation has expired"))
  /\ acceptInvitation {| ai_token := token; ai_password := password |} w
     = (w1, inl (BadRequestException "Invitation has expired"))
  /\ option_map inv_status (invitationOf (db w1) token)
     = Some InvitationStatus.EXPIRED
  /\ forall t password',
       acceptInvitation {| ai_token := token; ai_password := password' |}
         (with_clock t w1)
       = (with_clock t w1,
          inl (BadRequestException "Invitation has already been expired")).
Proof.
  intros Hc Hf Hst Hexp w1.
  pose proof (invitationOf_lapsed w token inv Hf) as Hf1.
  split; [now apply validateToken_lapses|].
  split; [now apply (acceptInvitation_lapses
                       {| ai_token := token; ai_password := password |})|].
  split; [fold w1 in Hf1; now rewrite Hf1|].
  intros t password'.
  apply (acceptInvitation_settled
           {| ai_token := token; ai_password := password' |}
           (with_clock t w1) (setStatus InvitationStatus.EXPIRED inv));
    trivial; discriminate.
Qed.

(** Witness: the invitation due at 3600000 is read at 3600001. *)
Lemma expired_invitation_lapses_on_read_witness :
  let w := world invitedDB 3600001 in
  validateToken "tok-1" w
  = (lapsed "i-1" w, inl (BadRequestException "Invitation has expired"))
  /\ acceptInvitation {| ai_token := "tok-1"; ai_password := "secret" |}
       (with_clock 3600002 (lapsed "i-1" w))
     = (with_clock 3600002 (lapsed "i-1" w),
        inl (BadRequestException "Invitation has already been expired")).
Proof.
  intros w.
  destruct (expired_invitation_lapses_on_read "tok-1" "secret" w invite
              eq_refl eq_refl eq_refl eq_refl) as (H1 & _ & _ & H2).
  split; [exact H1|exact (H2 3600002%Z "secret")].
Defined.

End ExpiryFacts.

(* ===================================================================== *)
(** ** Sending an invitation *)
(* ===================================================================== *)

Section SendFacts.
Import InvitationService Sample.
Variable url : string.

Lemma userInTenant_find d email_ context :
  userInTenant d email_ context ->
  exists u, find (fun u => (usr_email u =? email_)
                           && (usr_accountId u =? tenantId context))
                 (users d) = Some u.
Proof.
  intros (u & Hin & He & Ha). apply (find_found _ _ u Hin).
  now rewrite He, Ha, !String.eqb_refl.
Qed.

Lemma not_userInTenant_find d email_ context :
  ~ userInTenant d email_ context ->
  find (fun u => (usr_email u =? email_)
                 && (usr_accountId u =? tenantId context))
       (users d) = None.
Proof.
  intros Hno. destruct (find _ _) as [u|] eqn:Hf; [|reflexivity].
  exfalso. apply Hno. apply find_some in Hf as [Hin Hp].
  apply andb_true_iff in Hp as [He Ha].
  exists u. repeat split; trivial; now apply String.eqb_eq.
Qed.

Lemma sendInvite_not_founder context data w :
  role context <> FOUNDER ->
  sendInvite url context data w
  = (w, inl (ForbiddenException "Only FOUNDERs can manage invitations")).
Proof.
  intros Hr. unfold sendInvite, InvitationService.checkFounderPermission.
  destruct (Role_eqb (role context) FOUNDER) eqn:Heq; [|reflexivity].
  apply Role_eqb_eq in Heq. contradiction.
Qed.

Lemma sendInvite_known_user context data w :
  faults w = [] -> role context = FOUNDER ->
  userInTenant (db w) (si_email data) context ->
  sendInvite url context data w = (w, inl userConflict).
Proof.
  intros Hc Hr Hu. unfold sendInvite, InvitationService.checkFounderPermission.
  rewrite Hr. simpl. unfold bind at 1, ret at 1.
  rewrite (bind_ok _ _ _ _ _ (findFirst_calm user_tb _ w Hc)).
  destruct (userInTenant_find _ _ _ Hu) as [u Hf]. simpl. now rewrite Hf.
Qed.

Lemma sendInvite_blocked context data w old :
  faults w = [] -> role context = FOUNDER ->
  ~ userInTenant (db w) (si_email data) context ->
  firstPending (db w) (si_email data) context = Some old ->
  (clock w < inv_expiresAt old)%Z ->
  sendInvite url context data w = (w, inl inviteConflict).
Proof.
  intros Hc Hr Hu Hold Hlive.
  unfold sendInvite, InvitationService.checkFounderPermission.
  rewrite Hr. simpl. unfold bind at 1, ret at 1.
  rewrite (bind_ok _ _ _ _ _ (findFirst_calm user_tb _ w Hc)).
  simpl. rewrite (not_userInTenant_find _ _ _ Hu). simpl.
  rewrite (bind_ok _ _ _ _ _ (findFirst_calm invitation_tb _ w Hc)).
  unfold firstPending in Hold. simpl. rewrite Hold.
  unfold bind at 1. unfold bind at 1, newDate at 1.
  now rewrite (proj2 (Z.gtb_lt _ _) Hlive).
Qed.

Lemma clash_lapsed row id l :
  existsb (fun old => (inv_id old =? inv_id row)
                      || (inv_token old =? inv_token row))
          (map (fun i => if hasId id i
                         then setStatus InvitationStatus.EXPIRED i else i) l)
  = existsb (fun old => (inv_id old =? inv_id row)
                        || (inv_token old =? inv_token row)) l.
Proof.
  induction l as [|a l IH]; simpl; [reflexivity|].
  rewrite IH. now destruct (hasId id a).
Qed.

Lemma no_clash row l :
  (forall i, In i l -> inv_id i <> inv_id row /\ inv_token i <> inv_token row) ->
  existsb (fun old => (inv_id old =? inv_id row)
                      || (inv_token old =? inv_token row)) l = false.
Proof.
  induction l as [|a l IH]; simpl; intros Hall; [reflexivity|].
  destruct (Hall a (or_introl eq_refl)) as [Hi Ht].
  rewrite (proj2 (String.eqb_neq _ _) Hi), (proj2 (String.eqb_neq _ _) Ht).
  simpl. apply IH. intros; apply Hall; now right.
Qed.

Lemma sendInvite_issues context data w :
  faults w = [] -> role context = FOUNDER ->
  ~ userInTenant (db w) (si_email data) context ->
  (forall old, firstPending (db w) (si_email data) context = Some old ->
               (inv_expiresAt old <= clock w)%Z) ->
  (forall i, In i (invitations (db w)) ->
             inv_id i <> inv_id (issued context data w)
             /\ inv_token i <> inv_token (issued context data w)) ->
  sendInvite url context data w
  = (sent context data w, inr (receipt url (issued context data w))).
Proof.
  intros Hc Hr Hu Hold Hfree.
  pose proof (no_clash (issued context data w) _ Hfree) as Hnc.
  unfold sendInvite, InvitationService.checkFounderPermission.
  rewrite Hr. simpl. unfold bind at 1, ret at 1.
  rewrite (bind_ok _ _ _ _ _ (findFirst_calm user_tb _ w Hc)).
  simpl. rewrite (not_userInTenant_find _ _ _ Hu). simpl.
  rewrite (bind_ok _ _ _ _ _ (findFirst_calm invitation_tb _ w Hc)).
  unfold sent. simpl. fold (firstPending (db w) (si_email data) context).
  destruct (firstPending (db w) (si_email data) context) as [old|] eqn:Hfp.
  - assert (Hdue : (inv_expiresAt old >? clock w)%Z = false).
    { rewrite Z.gtb_ltb. apply Z.ltb_ge. now apply Hold. }
    destruct (lapse_calm w old Hc) as [r Hl].
    { apply (find_some _ _ Hfp). }
    unfold bind at 1. unfold bind at 1. unfold newDate at 1. rewrite Hdue.
    unfold bind at 1. rewrite Hl. unfold ret at 1.
    rewrite <- (clash_lapsed _ (inv_id old)) in Hnc.
    unfold bind, randomUUID, newDate, invitation_create, create, extcall, bind,
      randomUUID, ret. simpl. rewrite Hc. simpl in Hnc. rewrite Hnc.
    reflexivity.
  - unfold bind at 1. unfold ret at 1.
    unfold bind, randomUUID, newDate, invitation_create, create, extcall, bind,
      randomUUID, ret. simpl. rewrite Hc. simpl in Hnc. rewrite Hnc.
    reflexivity.
Qed.

(** What [sendInvite] does, by the one invitation its lookup returns.
    Only a FOUNDER may send.  With no failing collaborator, a founder's
    [sendInvite] fails with Conflict when a user with the address exists
    in the tenant, and fails with Conflict when the Pending invitation the
    lookup returns for the address and tenant is not yet due.  When there
    is none, or the one returned is due, and the drawn token and generated
    id are new, the returned one is marked Expired and a Pending
    invitation is appended, with the drawn token and an expiry sixty
    minutes after the current time. *)
Theorem sendInvite_conflicts_or_issues context data w :
  (role context <> FOUNDER ->
   sendInvite url context data w
   = (w, inl (ForbiddenException "Only FOUNDERs can manage invitations")))
  /\
  (faults w = [] -> role context = FOUNDER ->
   (userInTenant (db w) (si_email data) context ->
    sendInvite url context data w = (w, inl userConflict))
   /\
   (~ userInTenant (db w) (si_email data) context ->
    forall old,
      firstPending (db w) (si_email data) context = Some old ->
      (clock w < inv_expiresAt old)%Z ->
      sendInvite url context data w = (w, inl inviteConflict))
   /\
   (~ userInTenant (db w) (si_email data) context ->
    (forall old, firstPending (db w) (si_email data) context = Some old ->
                 (inv_expiresAt old <= clock w)%Z) ->
    (forall i, In i (invitations (db w)) ->
               inv_id i <> inv_id (issued context data w)
               /\ inv_token i <> inv_token (issued context data w)) ->
    let w' := sent context data w in
    let new := issued context data w in
    sendInvite url context data w = (w', inr (receipt url new))
    /\ (exists before, invitations (db w') = before ++ [new]
                       /\ length before = length (invitations (db w)))
    /\ inv_token new = entropy w (drawn w)
    /\ inv_expiresAt new = (clock w + 60 * 60 * 1000)%Z
    /\ inv_status new = InvitationStatus.PENDING
    /\ (forall old, firstPending (db w) (si_email data) context = Some old ->
                    In (setStatus InvitationStatus.EXPIRED old)
                       (invitations (db w'))))).
Proof.
  split; [apply sendInvite_not_founder|].
  intros Hc Hr.
  split; [now apply sendInvite_known_user|].
  split; [intros Hu old Hold Hlive; now apply sendInvite_blocked with old|].
  intros Hu Hdue Hfree w' new.
  split; [now apply sendInvite_issues|].
  split; [|split; [reflexivity|split; [reflexivity|split; [reflexivity|]]]].
  - unfold w', sent.
    destruct (firstPending (db w) (si_email data) context) as [old|];
      simpl; eexists; (split; [reflexivity|]);
      [apply length_map|reflexivity].
  - intros old Hold. unfold w', sent. rewrite Hold. simpl.
    apply in_or_app. left.
    apply find_some in Hold as [Hin _].
    apply (in_map (fun i => if hasId (inv_id old) i
                            then setStatus InvitationStatus.EXPIRED i
                            else i)) in Hin.
    now rewrite hasId_own in Hin.
Qed.

End SendFacts.

Section SendExamples.
Import InvitationService Sample.

(** Witness: ada invites an address that tom holds, then the address of
    the invitation of [invitedDB], before and after that one is due. *)
Lemma sendInvite_conflicts_or_issues_witness :
  sendInvite appUrl (contextOf ada)
    {| si_email := "tom@acme.test"; si_role := None |} (world baseDB 0)
  = (world baseDB 0, inl userConflict)
  /\ sendInvite appUrl (contextOf ada) newcomer (world invitedDB 100)
     = (world invitedDB 100, inl inviteConflict)
  /\ sendInvite appUrl (contextOf ada) newcomer (world invitedDB 3600001)
     = (sent (contextOf ada) newcomer (world invitedDB 3600001),
        inr (receipt appUrl
               (issued (contextOf ada) newcomer (world invitedDB 3600001)))).
Proof.
  assert (Hnew : forall d, users d = users baseDB ->
                           ~ userInTenant d "new@x.test" (contextOf ada)).
  { intros d Hd (u & Hin & He & _). rewrite Hd in Hin. simpl in Hin.
    destruct Hin as [<-|[<-|[<-|[<-|[<-|[]]]]]]; discriminate. }
  split; [|split].
  - apply (proj2 (sendInvite_conflicts_or_issues appUrl (contextOf ada)
             {| si_email := "tom@acme.test"; si_role := None |}
             (world baseDB 0)) eq_refl eq_refl).
    exists tom. simpl. auto.
  - apply (proj1 (proj2 (proj2 (sendInvite_conflicts_or_issues appUrl
             (contextOf ada) newcomer (world invitedDB 100))
             eq_refl eq_refl))) with invite.
    + now apply Hnew.
    + reflexivity.
    + reflexivity.
  - apply (proj2 (proj2 (proj2 (sendInvite_conflicts_or_issues appUrl
             (contextOf ada) newcomer (world invitedDB 3600001))
             eq_refl eq_refl))).
    + now apply Hnew.
    + intros old [= <-]. simpl. lia.
    + simpl. intros i [<-|[]]. split; discriminate.
Defined.

(** C6 at a failing input: [sendInvite] issues an invitation beside an
    active one.  In [twoPending], which ada reaches by sending and
    resending, no user holds the address and an invitation for the address
    and tenant is Pending and not yet due; [sendInvite] must refuse with
    the Conflict.
    It succeeds, and two invitations for the address and tenant are then
    Pending and not yet due: its lookup returned another Pending
    invitation of the address, one that was due.  In whichever order the
    store lists the two invitations, the call either refuses with the
    Conflict or leaves two active invitations; listed the other way
    round, it refuses. *)
Theorem sendInvite_issues_beside_an_active_invitation :
  faults twoPending = []
  /\ ~ userInTenant (db twoPending) (si_email newcomer) (contextOf ada)
  /\ (exists i, In i (invitations (db twoPending))
                /\ activeInvitation (si_email newcomer) (contextOf ada)
                     (clock twoPending) i)
  /\ (exists w' r,
        sendInvite appUrl (contextOf ada) newcomer twoPending = (w', inr r)
        /\ twoActive (si_email newcomer) (contextOf ada) w')
  /\ (forall invs, Permutation invs (invitations (db twoPending)) ->
        sendInvite appUrl (contextOf ada) newcomer (listing invs twoPending)
        = (listing invs twoPending, inl inviteConflict)
        \/ exists w' r,
             sendInvite appUrl (contextOf ada) newcomer
               (listing invs twoPending) = (w', inr r)
             /\ twoActive (si_email newcomer) (contextOf ada) w')
  /\ sendInvite appUrl (contextOf ada) newcomer
       (listing (rev (invitations (db twoPending))) twoPending)
     = (listing (rev (invitations (db twoPending))) twoPending,
        inl inviteConflict).
Proof.
  assert (Hissued : exists w' r,
            sendInvite appUrl (contextOf ada) newcomer twoPending = (w', inr r)
            /\ twoActive (si_email newcomer) (contextOf ada) w').
  { eexists. eexists. split; [vm_compute; reflexivity|].
    eexists. eexists.
    split; [right; left; reflexivity|].
    split; [right; right; left; reflexivity|].
    split; [vm_compute; discriminate|].
    split; vm_compute; auto. }
  assert (Hrev : sendInvite appUrl (contextOf ada) newcomer
                   (listing (rev (invitations (db twoPending))) twoPending)
                 = (listing (rev (invitations (db twoPending))) twoPending,
                    inl inviteConflict)).
  { vm_compute. reflexivity. }
  assert (Hl : exists a b,
            invitations (db twoPending) = [a; b]
            /\ activeInvitation (si_email newcomer) (contextOf ada)
                 (clock twoPending) b).
  { eexists. eexists. split; [vm_compute; reflexivity|]. vm_compute. auto. }
  destruct Hl as (a & b & Hl & Hactive).
  split; [vm_compute; reflexivity|]. split; [|split; [|split; [|split]]].
  - intros (u & Hin & He & _). vm_compute in Hin.
    destruct Hin as [<-|[<-|[<-|[<-|[<-|[]]]]]]; discriminate.
  - exists b. split; [rewrite Hl; right; left; reflexivity|exact Hactive].
  - exact Hissued.
  - intros invs Hperm.
    rewrite Hl in Hperm. apply Permutation_sym in Hperm.
    apply Permutation_length_2_inv in Hperm as [-> | ->].
    + right. rewrite <- Hl.
      replace (listing (invitations (db twoPending)) twoPending)
        with twoPending by (vm_compute; reflexivity).
      exact Hissued.
    + left. change [b; a] with (rev [a; b]). rewrite <- Hl. exact Hrev.
  - exact Hrev.
Qed.

(** Witness: the two invitations of [twoPending] listed the other way
    round. *)
Lemma sendInvite_issues_beside_an_active_invitation_witness :
  Permutation (rev (invitations (db twoPending)))
              (invitations (db twoPending))
  /\ (sendInvite appUrl (contextOf ada) newcomer
        (listing (rev (invitations (db twoPending))) twoPending)
      = (listing (rev (invitations (db twoPending))) twoPending,
         inl inviteConflict)
      \/ exists w' r,
           sendInvite appUrl (contextOf ada) newcomer
             (listing (rev (invitations (db twoPending))) twoPending)
           = (w', inr r)
           /\ twoActive (si_email newcomer) (contextOf ada) w').
Proof.
  assert (Hperm : Permutation (rev (invitations (db twoPending)))
                              (invitations (db twoPending))).
  { apply Permutation_sym, Permutation_rev. }
  split; [exact Hperm|].
  destruct sendInvite_issues_beside_an_active_invitation
    as (_ & _ & _ & _ & Hany & _).
  exact (Hany _ Hperm).
Defined.

End SendExamples.

(* ===================================================================== *)
(** ** Reading projects *)
(* ===================================================================== *)

Section SortFacts.
Context {T : Type} (le : T -> T -> bool).

Lemma In_insertBy x y l : In x (insertBy le y l) <-> x = y \/ In x l.
Proof.
  induction l as [|a l IH]; simpl; [intuition congruence|].
  destruct (le y a); simpl; [intuition congruence|].
  rewrite IH. intuition congruence.
Qed.

Lemma In_sortBy x l : In x (sortBy le l) <-> In x l.
Proof.
  induction l as [|a l IH]; simpl; [tauto|].
  rewrite In_insertBy, IH. intuition congruence.
Qed.

Lemma length_insertBy y l : length (insertBy le y l) = S (length l).
Proof.
  induction l as [|a l IH]; simpl; [reflexivity|].
  destruct (le y a); simpl; congruence.
Qed.

Lemma length_sortBy l : length (sortBy le l) = length l.
Proof.
  induction l as [|a l IH]; simpl; [reflexivity|].
  now rewrite length_insertBy, IH.
Qed.

End SortFacts.

Lemma In_page {T} (x : T) skip take l :
  In x (firstn take (skipn skip l)) -> In x l.
Proof.
  intros Hin.
  assert (Hfirst : forall n (k : list T), In x (firstn n k) -> In x k).
  { induction n as [|n IH]; intros [|a k]; simpl; try tauto.
    intros [->|Hk]; auto. }
  apply Hfirst in Hin. revert l Hin.
  induction skip as [|n IH]; intros [|a l]; simpl; auto.
Qed.

Lemma window_natural {T} s t (l : list T) :
  window (Int (Z.of_nat s)) (Int (Z.of_nat t)) l
  = inr (firstn t (skipn s l)).
Proof.
  unfold window.
  rewrite (proj2 (Z.ltb_ge _ _) (Nat2Z.is_nonneg s)).
  rewrite (proj2 (Z.leb_le _ _) (Nat2Z.is_nonneg t)).
  now rewrite !Nat2Z.id.
Qed.

Lemma window_In {T} skip take (l page : list T) x :
  window skip take l = inr page -> In x page -> In x l.
Proof.
  unfold window. destruct skip as [|s]; [discriminate|].
  destruct take as [|t]; [discriminate|].
  destruct (s <? 0)%Z; [discriminate|].
  destruct (0 <=? t)%Z; intros Heq; injection Heq as <-; intros Hin.
  - now apply In_page in Hin.
  - apply in_rev in Hin. apply In_page in Hin. now apply in_rev.
Qed.



Section PermissionFacts.
Variable modelName : string.
Variable custom : PermissionConfig.

Lemma permitted_allowed action r :
  permitted custom action r
  <-> exists roles, allowedRoles (mergePermissions custom) action = Some roles
                    /\ In r roles.
Proof.
  assert (Hkey : allowedRoles (mergePermissions custom) action
                 = valueOf (spread (Given (Some [FOUNDER; TESTER]))
                                   (keyOf custom action))).
  { now destruct action. }
  rewrite Hkey. unfold permitted.
  destruct (keyOf custom action) as [|[roles|]]; simpl.
  - split.
    + intros Hr. exists [FOUNDER; TESTER]. split; [reflexivity|].
      simpl. intuition.
    + intros (roles & Heq & Hin). injection Heq as <-. simpl in Hin.
      intuition.
  - split.
    + intros Hin. now exists roles.
    + intros (roles' & Heq & Hin). now injection Heq as <-.
  - split; [contradiction|]. now intros (roles & Heq & _).
Qed.

Lemma checkPermission_permitted context action w :
  permitted custom action (role context) ->
  BaseService.checkPermission modelName custom context action w = (w, inr tt).
Proof.
  intros Hperm. apply permitted_allowed in Hperm as (roles & Hroles & Hin).
  unfold BaseService.checkPermission.
  unfold BaseService.permissions. rewrite Hroles.
  assert (Hex : existsb (Role_eqb (role context)) roles = true).
  { apply existsb_exists. exists (role context). split; trivial.
    apply Role_eqb_refl. }
  now rewrite Hex.
Qed.

Lemma checkPermission_denied context action w :
  ~ permitted custom action (role context) ->
  BaseService.checkPermission modelName custom context action w
  = (w, inl (ForbiddenException
               ("Role " ++ Role_toString (role context)
                ++ " is not authorized to " ++ Action_toString action
                ++ " " ++ modelName))).
Proof.
  intros Hno. unfold BaseService.checkPermission, BaseService.permissions.
  destruct (allowedRoles (mergePermissions custom) action) as [roles|] eqn:Hroles;
    [|reflexivity].
  destruct (existsb (Role_eqb (role context)) roles) eqn:Hex; [|reflexivity].
  exfalso. apply Hno. apply permitted_allowed. exists roles. split; trivial.
  apply existsb_exists in Hex as (r & Hin & Heq).
  apply Role_eqb_eq in Heq. now subst.
Qed.

End PermissionFacts.

Lemma project_roles_permitted_to_read r a :
  a = findAll_ \/ a = findOne_ -> permitted ProjectService.custom a r.
Proof.
  intros [->| ->]; destruct r; unfold permitted; simpl; auto.
Qed.

Section BaseFindOne.
Context {T : Type} `{TenantModel T}.
Variable modelName : string.
Variable custom : PermissionConfig.

Lemma base_findOne_missing context id w :
  faults w = [] ->
  permitted custom findOne_ (role context) ->
  (forall r, In r (rows delegate (db w)) -> id_of r = id ->
             accountId_of r <> tenantId context) ->
  BaseService.findOne modelName custom context id w
  = (w, inl (NotFoundException (modelName ++ " with ID " ++ id ++ " not found"))).
Proof.
  intros Hc Hperm Hnone. unfold BaseService.findOne.
  rewrite (bind_ok _ _ _ _ _ (checkPermission_permitted _ _ _ _ w Hperm)).
  rewrite (bind_ok _ _ _ _ _ (findFirst_calm delegate _ w Hc)).
  rewrite find_absent; [reflexivity|].
  intros r Hin. unfold BaseService.buildTenantWhere.
  destruct (String.eqb_spec (id_of r) id) as [Hid|]; [|reflexivity].
  simpl. apply String.eqb_neq. now apply Hnone.
Qed.

Lemma base_findOne_present context id w r0 :
  faults w = [] ->
  permitted custom findOne_ (role context) ->
  In r0 (rows delegate (db w)) -> id_of r0 = id ->
  accountId_of r0 = tenantId context ->
  exists r, BaseService.findOne modelName custom context id w = (w, inr r)
            /\ In r (rows delegate (db w)) /\ id_of r = id
            /\ accountId_of r = tenantId context.
Proof.
  intros Hc Hperm Hin Hid Hacc. unfold BaseService.findOne.
  rewrite (bind_ok _ _ _ _ _ (checkPermission_permitted _ _ _ _ w Hperm)).
  rewrite (bind_ok _ _ _ _ _ (findFirst_calm delegate _ w Hc)).
  destruct (find_found
              (fun r => (id_of r =? id) && BaseService.buildTenantWhere context r)
              _ r0 Hin) as [r Hf].
  { unfold BaseService.buildTenantWhere. now rewrite Hid, Hacc, !String.eqb_refl. }
  rewrite Hf. exists r. split; [reflexivity|].
  apply find_some in Hf as [Hin' Hp]. apply andb_true_iff in Hp as [H1 H2].
  repeat split; trivial; now apply String.eqb_eq.
Qed.

Lemma base_findOne_denied context id w :
  ~ permitted custom findOne_ (role context) ->
  exists msg,
    BaseService.findOne modelName custom context id w
    = (w, inl (ForbiddenException msg)).
Proof.
  intros Hno. unfold BaseService.findOne. eexists.
  now rewrite (bind_err _ _ _ _ _ (checkPermission_denied _ _ _ _ w Hno)).
Qed.

End BaseFindOne.

Section ProjectFacts.
Import Sample.

Lemma isMemberOf_memberOf d uid p :
  ProjectService.isMemberOf d uid p = true <-> memberOf d uid p.
Proof.
  unfold ProjectService.isMemberOf, memberOf. rewrite existsb_exists.
  split; intros (m & Hin & Hm); exists m; split; trivial.
  - apply andb_true_iff in Hm as [H1 H2]. split; now apply String.eqb_eq.
  - destruct Hm as [-> ->]. now rewrite !String.eqb_refl.
Qed.

Lemma isSet_false {A} (o : option A) : negb (isSet o) = true <-> o = None.
Proof. destruct o; simpl; split; congruence. Qed.

Lemma scoped_visible context d p :
  ProjectService.buildRoleScopedWhere context d p = true
  <-> visible context d p.
Proof.
  unfold ProjectService.buildRoleScopedWhere, visible,
    ProjectService.buildTenantWhere, BaseService.buildTenantWhere. simpl.
  destruct (Role_eqb (role context) MEMBER) eqn:Hr.
  - apply Role_eqb_eq in Hr.
    rewrite !andb_true_iff, String.eqb_eq, isSet_false, isMemberOf_memberOf.
    tauto.
  - assert (Hne : role context <> MEMBER).
    { intros Heq. rewrite Heq in Hr. discriminate. }
    rewrite !andb_true_iff, String.eqb_eq, isSet_false. tauto.
Qed.

Lemma scoped_hidden context d p :
  ~ visible context d p ->
  ProjectService.buildRoleScopedWhere context d p = false.
Proof.
  intros Hno. destruct (ProjectService.buildRoleScopedWhere context d p) eqn:Hs;
    [|reflexivity].
  apply scoped_visible in Hs. contradiction.
Qed.

(** What [ProjectService.findAll] answers with when nothing fails: the
    window of the ordered visible projects, each with its owner, or the
    refusal of the window. *)
Lemma project_findAll_calm context options w :
  faults w = [] ->
  let matching := filter (ProjectService.buildRoleScopedWhere context (db w))
                         (projects (db w)) in
  ProjectService.findAll context options w
  = (w,
     match window (BaseService.skipOr options) (BaseService.takeOr options)
                  (sortBy (BaseService.orderByOr options) matching) with
     | inl e => inl e
     | inr page =>
         inr {| data :=
                  map (fun p => {| ProjectService.pwo_project := p;
                                   ProjectService.pwo_owner :=
                                     ProjectService.ownerOf (db w) p |})
                      page;
                meta := {| total := length matching;
                           meta_skip := BaseService.skipOr options;
                           meta_take := BaseService.takeOr options;
                           hasMore := sumBelow (BaseService.skipOr options)
                                               (BaseService.takeOr options)
                                               (length matching) |} |}
     end).
Proof.
  intros Hc matching. unfold ProjectService.findAll.
  unfold ProjectService.checkPermission.
  rewrite (bind_ok _ _ _ _ _
             (checkPermission_permitted _ _ context findAll_ w
                (project_roles_permitted_to_read _ _ (or_introl eq_refl)))).
  unfold ProjectService.project_findMany_include_owner, findMany, countRel,
    bind, extcall, ret. rewrite Hc. fold matching.
  destruct (window _ _ _) as [e|page]; [reflexivity|]. now rewrite Hc.
Qed.

(** Every project [ProjectService.findAll] answers with is stored and
    visible to the caller, and the total is the number of those. *)
Lemma project_findAll_sound context options w w' resp :
  faults w = [] ->
  ProjectService.findAll context options w = (w', inr resp) ->
  w' = w
  /\ (forall p, In p (map ProjectService.pwo_project (data resp)) ->
                In p (projects (db w)) /\ visible context (db w) p)
  /\ total (meta resp)
     = length (filter (ProjectService.buildRoleScopedWhere context (db w))
                      (projects (db w))).
Proof.
  intros Hc Hrun. rewrite project_findAll_calm in Hrun by assumption.
  destruct (window _ _ _) as [e|page] eqn:Hwin; [discriminate|].
  injection Hrun as <- <-. simpl. rewrite map_map. simpl. rewrite map_id.
  split; [reflexivity|]. split; [|reflexivity].
  intros p Hin. apply (window_In _ _ _ _ _ Hwin) in Hin.
  apply (proj1 (In_sortBy _ _ _)) in Hin.
  apply filter_In in Hin as [Hin Hs]. split; trivial.
  now apply scoped_visible.
Qed.

(** With a window of natural numbers [ProjectService.findAll] answers. *)
Lemma project_findAll_natural context options w s t :
  faults w = [] ->
  BaseService.skipOr options = Int (Z.of_nat s) ->
  BaseService.takeOr options = Int (Z.of_nat t) ->
  exists resp,
    ProjectService.findAll context options w = (w, inr resp)
    /\ map ProjectService.pwo_project (data resp)
       = firstn t
           (skipn s
              (sortBy (BaseService.orderByOr options)
                 (filter (ProjectService.buildRoleScopedWhere context (db w))
                         (projects (db w))))).
Proof.
  intros Hc Hs Ht. rewrite project_findAll_calm by assumption.
  rewrite Hs, Ht, window_natural. eexists. split; [reflexivity|].
  simpl. rewrite map_map. simpl. now rewrite map_id.
Qed.

Lemma project_findOne_calm context id w :
  faults w = [] ->
  ProjectService.findOne context id w
  = (w,
     match find (fun p => (prj_id p =? id)
                          && ProjectService.buildRoleScopedWhere context (db w) p)
                (projects (db w)) with
     | Some p => inr {| ProjectService.pd_project := p;
                        ProjectService.pd_owner := ProjectService.ownerOf (db w) p;
                        ProjectService.pd_members := ProjectService.membersOf (db w) p |}
     | None => inl (Error ("Project with ID " ++ id
                           ++ " not found or access denied"))
     end).
Proof.
  intros Hc. unfold ProjectService.findOne, ProjectService.checkPermission.
  rewrite (bind_ok _ _ _ _ _
             (checkPermission_permitted _ _ context findOne_ w
                (project_roles_permitted_to_read _ _ (or_intror eq_refl)))).
  unfold ProjectService.project_findFirst_include, findFirstRel,
    bind, extcall, ret. simpl. rewrite Hc.
  now destruct (find _ _).
Qed.

Lemma project_findOne_visible context id w p0 :
  faults w = [] ->
  In p0 (projects (db w)) -> prj_id p0 = id -> visible context (db w) p0 ->
  exists pd, ProjectService.findOne context id w = (w, inr pd)
             /\ In (ProjectService.pd_project pd) (projects (db w))
             /\ prj_id (ProjectService.pd_project pd) = id
             /\ visible context (db w) (ProjectService.pd_project pd).
Proof.
  intros Hc Hin Hid Hvis. rewrite project_findOne_calm by assumption.
  destruct (find_found
              (fun p => (prj_id p =? id)
                        && ProjectService.buildRoleScopedWhere context (db w) p)
              _ p0 Hin) as [p Hf].
  { rewrite Hid, String.eqb_refl. now apply scoped_visible. }
  rewrite Hf. eexists. split; [reflexivity|]. simpl.
  apply find_some in Hf as [Hin' Hp]. apply andb_true_iff in Hp as [H1 H2].
  split; [exact Hin'|].
  split; [now apply String.eqb_eq|now apply scoped_visible].
Qed.

Lemma project_findOne_hidden context id w :
  faults w = [] ->
  (forall p, In p (projects (db w)) -> prj_id p = id ->
             ~ visible context (db w) p) ->
  exists e, ProjectService.findOne context id w = (w, inl e).
Proof.
  intros Hc Hno. rewrite project_findOne_calm by assumption.
  rewrite find_absent; [eauto|].
  intros p Hin. destruct (String.eqb_spec (prj_id p) id) as [Hid|]; [|reflexivity].
  simpl. apply scoped_hidden. now apply Hno.
Qed.

(** C8.  With no failing collaborator, [findAll] answers with a page of
    the visible projects and their number, and [findOne] returns a project
    of the given id exactly when a visible one exists.  For a MEMBER the
    visible projects are those of the tenant that are not soft-deleted and
    have a membership row of the caller; for a FOUNDER or TESTER, all those
    of the tenant that are not soft-deleted.  Whatever [skip] and [take]
    are (a negative number and NaN included), an answer of [findAll] holds
    visible projects only; with natural numbers for both it does answer,
    and a page that starts at 0 and is at least as long as the total holds
    every visible project. *)
Theorem project_reads_are_role_scoped context w :
  faults w = [] ->
  (role context = MEMBER ->
   forall p, visible context (db w) p
             <-> prj_accountId p = tenantId context /\ prj_deletedAt p = None
                 /\ memberOf (db w) (userId context) p)
  /\
  (role context <> MEMBER ->
   forall p, visible context (db w) p
             <-> prj_accountId p = tenantId context /\ prj_deletedAt p = None)
  /\
  (forall options,
     (forall w' resp,
        ProjectService.findAll context options w = (w', inr resp) ->
        w' = w
        /\ (forall p, In p (map ProjectService.pwo_project (data resp)) ->
                      In p (projects (db w)) /\ visible context (db w) p)
        /\ total (meta resp)
           = length (filter (ProjectService.buildRoleScopedWhere context (db w))
                            (projects (db w))))
     /\
     (forall s t,
        BaseService.skipOr options = Int (Z.of_nat s) ->
        BaseService.takeOr options = Int (Z.of_nat t) ->
        exists resp,
          ProjectService.findAll context options w = (w, inr resp)
          /\ (forall p, In p (map ProjectService.pwo_project (data resp)) ->
                        In p (projects (db w)) /\ visible context (db w) p)
          /\ total (meta resp)
             = length (filter (ProjectService.buildRoleScopedWhere context
                                 (db w))
                              (projects (db w)))
          /\ (s = 0 -> total (meta resp) <= t ->
              forall p, In p (projects (db w)) -> visible context (db w) p ->
                        In p (map ProjectService.pwo_project (data resp)))))
  /\
  (forall id,
     ((forall p, In p (projects (db w)) -> prj_id p = id ->
                 ~ visible context (db w) p) ->
      exists e, ProjectService.findOne context id w = (w, inl e))
     /\
     (forall p0, In p0 (projects (db w)) -> prj_id p0 = id ->
                 visible context (db w) p0 ->
      exists pd, ProjectService.findOne context id w = (w, inr pd)
                 /\ In (ProjectService.pd_project pd) (projects (db w))
                 /\ prj_id (ProjectService.pd_project pd) = id
                 /\ visible context (db w) (ProjectService.pd_project pd))).
Proof.
  intros Hc. split; [|split; [|split]].
  - intros Hr p. unfold visible. intuition.
  - intros Hr p. unfold visible. intuition.
  - intros options. split.
    + intros w' resp Hrun. now apply (project_findAll_sound context options).
    + intros s t Hs Ht.
      destruct (project_findAll_natural context options w s t Hc Hs Ht)
        as (resp & Hrun & Hdata).
      destruct (project_findAll_sound context options w w resp Hc Hrun)
        as (_ & Hsound & Htotal).
      exists resp. split; [exact Hrun|]. split; [exact Hsound|].
      split; [exact Htotal|].
      intros -> Htake p Hin Hvis. rewrite Hdata. simpl.
      rewrite firstn_all2 by (rewrite length_sortBy; lia).
      apply (proj2 (In_sortBy _ _ _)). apply filter_In. split; trivial.
      now apply scoped_visible.
  - intros id. split.
    + now apply project_findOne_hidden.
    + intros p0. now apply project_findOne_visible.
Qed.

(** Witness: of the two live projects of acme, mia, a MEMBER with one
    membership row, gets p-1 only; tom, a TESTER, gets both. *)
Lemma project_reads_are_role_scoped_witness :
  (exists resp,
     ProjectService.findAll (contextOf mia) firstPage (world baseDB 0)
     = (world baseDB 0, inr resp)
     /\ map ProjectService.pwo_project (data resp) = [p1])
  /\
  (exists resp,
     ProjectService.findAll (contextOf tom) firstPage (world baseDB 0)
     = (world baseDB 0, inr resp)
     /\ map ProjectService.pwo_project (data resp) = [p2; p1]).
Proof.
  split.
  - destruct (proj2 (proj1 (proj2 (proj2 (project_reads_are_role_scoped
                (contextOf mia) (world baseDB 0) eq_refl))) firstPage)
                0 20 eq_refl eq_refl)
      as (resp & Hrun & _).
    exists resp. split; [exact Hrun|].
    vm_compute in Hrun. injection Hrun as <-. reflexivity.
  - destruct (proj2 (proj1 (proj2 (proj2 (project_reads_are_role_scoped
                (contextOf tom) (world baseDB 0) eq_refl))) firstPage)
                0 20 eq_refl eq_refl)
      as (resp & Hrun & _).
    exists resp. split; [exact Hrun|].
    vm_compute in Hrun. injection Hrun as <-. reflexivity.
Defined.

End ProjectFacts.

Section GetByIdFacts.
Import Sample.

(** C7, as the code has it.  [BaseService.findOne] fails with Forbidden
    for a role that is not permitted to [findOne] (the custom table of the
    service sets the key to a list without the role, or to [undefined], or
    has no such key and the role is a MEMBER); for a permitted role and
    no failing collaborator it fails with NotFound when no record with the
    id belongs to the caller's tenant, and otherwise returns a record with
    that id of that tenant.  [ProjectService.findOne] returns a project of
    the id exactly when a visible one exists, and fails otherwise. *)
Theorem get_by_id_is_tenant_scoped :
  (forall (T : Type) (TM : TenantModel T) modelName custom context id w,
     (~ permitted custom findOne_ (role context) ->
      exists msg,
        BaseService.findOne modelName custom context id w
        = (w, inl (ForbiddenException msg)))
     /\
     (faults w = [] -> permitted custom findOne_ (role context) ->
      ((forall r, In r (rows delegate (db w)) -> id_of r = id ->
                  accountId_of r <> tenantId context) ->
       BaseService.findOne modelName custom context id w
       = (w, inl (NotFoundException
                    (modelName ++ " with ID " ++ id ++ " not found"))))
      /\
      (forall r0, In r0 (rows delegate (db w)) -> id_of r0 = id ->
                  accountId_of r0 = tenantId context ->
       exists r, BaseService.findOne modelName custom context id w = (w, inr r)
                 /\ In r (rows delegate (db w)) /\ id_of r = id
                 /\ accountId_of r = tenantId context)))
  /\
  (forall context id w,
     faults w = [] ->
     ((forall p, In p (projects (db w)) -> prj_id p = id ->
                 ~ visible context (db w) p) ->
      exists e, ProjectService.findOne context id w = (w, inl e))
     /\
     (forall p0, In p0 (projects (db w)) -> prj_id p0 = id ->
                 visible context (db w) p0 ->
      exists pd, ProjectService.findOne context id w = (w, inr pd)
                 /\ In (ProjectService.pd_project pd) (projects (db w))
                 /\ prj_id (ProjectService.pd_project pd) = id
                 /\ visible context (db w) (ProjectService.pd_project pd))).
Proof.
  split.
  - intros T TM modelName custom context id w. split.
    + now apply base_findOne_denied.
    + intros Hc Hperm. split.
      * now apply base_findOne_missing.
      * intros r0. now apply base_findOne_present.
  - intros context id w Hc. split.
    + now apply project_findOne_hidden.
    + intros p0. now apply project_findOne_visible.
Qed.

(** Witness: through the base service with the default permissions, tom
    (a TESTER of acme) gets p-1 and is told that globex's p-3 is not found;
    through the project service mia gets p-1. *)
Lemma get_by_id_is_tenant_scoped_witness :
  BaseService.findOne "project" noCustom (contextOf tom) "p-1" (world baseDB 0)
  = (world baseDB 0, inr p1)
  /\ BaseService.findOne "project" noCustom (contextOf tom) "p-3"
       (world baseDB 0)
     = (world baseDB 0, inl (NotFoundException "project with ID p-3 not found"))
  /\ (exists pd, ProjectService.findOne (contextOf mia) "p-1" (world baseDB 0)
                 = (world baseDB 0, inr pd)
                 /\ ProjectService.pd_project pd = p1).
Proof.
  assert (Hperm : permitted noCustom findOne_ (role (contextOf tom))).
  { unfold permitted. simpl. auto. }
  pose proof (proj2 (proj1 get_by_id_is_tenant_scoped Project Project_model
                       "project" noCustom (contextOf tom) "p-1"
                       (world baseDB 0)) eq_refl Hperm) as [_ Hhit].
  pose proof (proj2 (proj1 get_by_id_is_tenant_scoped Project Project_model
                       "project" noCustom (contextOf tom) "p-3"
                       (world baseDB 0)) eq_refl Hperm) as [Hmiss _].
  pose proof (proj2 (proj2 get_by_id_is_tenant_scoped (contextOf mia) "p-1"
                       (world baseDB 0) eq_refl)) as Hmia.
  split; [|split].
  - destruct (Hhit p1 (or_introl eq_refl) eq_refl eq_refl) as (r & Hrun & _).
    rewrite Hrun. vm_compute in Hrun. injection Hrun as <-. reflexivity.
  - apply Hmiss. simpl.
    intros r [<-|[<-|[<-|[]]]]; simpl; discriminate.
  - assert (Hvis : visible (contextOf mia) (db (world baseDB 0)) p1).
    { split; [reflexivity|split; [reflexivity|]]. intros _.
      eexists. split; [left; reflexivity|]. split; reflexivity. }
    destruct (Hmia p1 (or_introl eq_refl) eq_refl Hvis) as (pd & Hrun & _).
    exists pd. split; [exact Hrun|].
    vm_compute in Hrun. injection Hrun as <-. reflexivity.
Defined.

(** C7 as stated fails.  Project p-2 of acme is stored, yet mia, a MEMBER
    of acme with no membership row for it, does not get it from
    [ProjectService.findOne]; and the base service with the default
    permissions answers her Forbidden, not NotFound, for an id that is
    nowhere stored. *)
Lemma get_by_id_beyond_the_tenant_filter :
  (exists p, In p (projects baseDB) /\ prj_id p = "p-2"
             /\ prj_accountId p = tenantId (contextOf mia)
             /\ prj_deletedAt p = None)
  /\ (forall pd, snd (ProjectService.findOne (contextOf mia) "p-2"
                        (world baseDB 0)) <> inr pd)
  /\ (forall p, In p (projects baseDB) -> prj_id p <> "p-404")
  /\ (exists e, snd (BaseService.findOne "project" noCustom (contextOf mia)
                       "p-404" (world baseDB 0)) = inl e
                /\ isNotFound e = false).
Proof.
  split; [|split; [|split]].
  - exists p2. simpl. auto.
  - intros pd Hrun. vm_compute in Hrun. discriminate.
  - simpl. intros p [<-|[<-|[<-|[]]]]; discriminate.
  - eexists. split; [vm_compute; reflexivity|reflexivity].
Qed.

(** A custom table whose [findOne] key is set to [undefined] overrides the
    default: the base service then forbids [findOne] to every role. *)
Example base_findOne_key_undefined context id w :
  exists msg,
    BaseService.findOne "project" findOneUndefined context id w
    = (w, inl (ForbiddenException msg)).
Proof. apply base_findOne_denied. unfold permitted. simpl. tauto. Qed.

(** The exception [ProjectService.findOne] throws for a project that is
    not stored is the plain [Error]. *)
Example projectService_findOne_missing :
  ProjectService.findOne (contextOf tom) "p-404" (world baseDB 0)
  = (world baseDB 0,
     inl (Error "Project with ID p-404 not found or access denied")).
Proof. reflexivity. Qed.

End GetByIdFacts.

(* ===================================================================== *)
(** ** Adding a member to a project *)
(* ===================================================================== *)

Section MemberFacts.
Import Sample.

(** C10.  With no failing collaborator, a FOUNDER's [addMember] on a
    project of the founder's tenant appends the membership row (project id,
    user id) for whatever user id is given: the users table is not
    consulted. *)
Theorem addMember_takes_any_user context projectId uid w :
  faults w = [] -> role context = FOUNDER ->
  (exists p, In p (projects (db w)) /\ prj_id p = projectId
             /\ prj_accountId p = tenantId context) ->
  ProjectService.addMember context projectId uid w
  = (withMember projectId uid w, inr tt)
  /\ projectMembers (db (withMember projectId uid w))
     = projectMembers (db w)
       ++ [{| pm_projectId := projectId; pm_userId := uid |}]
  /\ users (db (withMember projectId uid w)) = users (db w).
Proof.
  intros Hc Hr (p & Hin & Hid & Hacc).
  split; [|split; reflexivity].
  unfold ProjectService.addMember. rewrite Hr. simpl.
  rewrite (bind_ok _ _ _ _ _ (findFirst_calm project_tb _ w Hc)).
  destruct (find_found
              (fun p => (prj_id p =? projectId)
                        && ProjectService.buildTenantWhere context p)
              _ p Hin) as [p' Hf].
  { unfold ProjectService.buildTenantWhere, BaseService.buildTenantWhere.
    simpl. now rewrite Hid, Hacc, !String.eqb_refl. }
  simpl in *. rewrite Hf.
  unfold ProjectService.projectMember_create.
  erewrite bind_ok; [reflexivity|].
  rewrite create_calm; trivial.
  simpl. induction (projectMembers (db w)); simpl; auto.
Qed.

(** Witness: ada, founder of acme, adds gus, a user of globex, and then a
    user id that is nowhere stored, to acme's project p-1. *)
Lemma addMember_takes_any_user_witness :
  usr_accountId gus <> tenantId (contextOf ada)
  /\ ProjectService.addMember (contextOf ada) "p-1" "u-gus" (world baseDB 0)
     = (withMember "p-1" "u-gus" (world baseDB 0), inr tt)
  /\ (forall u, In u (users baseDB) -> usr_id u <> "u-nobody")
  /\ ProjectService.addMember (contextOf ada) "p-1" "u-nobody" (world baseDB 0)
     = (withMember "p-1" "u-nobody" (world baseDB 0), inr tt).
Proof.
  assert (Hp : exists p, In p (projects (db (world baseDB 0)))
                         /\ prj_id p = "p-1"
                         /\ prj_accountId p = tenantId (contextOf ada)).
  { exists p1. simpl. auto. }
  split; [discriminate|]. split; [|split].
  - apply (addMember_takes_any_user (contextOf ada) "p-1" "u-gus"
             (world baseDB 0) eq_refl eq_refl Hp).
  - simpl. intros u [<-|[<-|[<-|[<-|[<-|[]]]]]]; discriminate.
  - apply (addMember_takes_any_user (contextOf ada) "p-1" "u-nobody"
             (world baseDB 0) eq_refl eq_refl Hp).
Defined.

End MemberFacts.

(* ===================================================================== *)
(** ** Signing up *)
(* ===================================================================== *)

Section SignupFacts.
Import AuthService Sample.

Lemma openAccount_created dto w w1 account :
  openAccount dto w = (w1, inr account) ->
  accounts (db w1) = accounts (db w) ++ [account]
  /\ existsb (fun a => acc_id a =? acc_id account) (accounts (db w)) = false.
Proof.
  destruct w as [d i c en n f]. unfold openAccount.
  destruct (Role_eqb (sd_role dto) FOUNDER && negb (truthy (sd_accountName dto)));
    [discriminate|].
  unfold bind, findUnique, findFirst, extcall. simpl.
  fault_cases; simpl; try discriminate.
  all: destruct (isSet (find _ (users d))); try discriminate.
  all: unfold account_create, bind, randomUUID, create, extcall; simpl.
  all: try fault_cases; simpl; try discriminate.
  all: destruct (existsb _ (accounts d)) eqn:Hclash; try discriminate.
  all: intros [= <- <-]; simpl; auto.
Qed.

Lemma register_keeps_accounts dto account w1 w2 r :
  register dto account w1 = (w2, r) ->
  accounts (db w2) = accounts (db w1).
Proof.
  destruct w1 as [d i c en n f].
  unfold register, bind, SupabaseService.signUp, user_create, bind, randomUUID,
    newDate, create, extcall, ret. simpl.
  fault_cases; simpl.
  all: try (intros [= <- _]; reflexivity).
  all: destruct (existsb _ i); simpl.
  all: try (intros [= <- _]; reflexivity).
  all: try fault_cases; simpl.
  all: try (intros [= <- _]; reflexivity).
  all: destruct (existsb _ (users d)); simpl.
  all: intros [= <- _]; reflexivity.
Qed.

Lemma filter_out_last account l :
  existsb (fun a => acc_id a =? acc_id account) l = false ->
  filter (fun a => negb (acc_id a =? acc_id account)) (l ++ [account]) = l.
Proof.
  induction l as [|a l IH]; simpl.
  - now rewrite String.eqb_refl.
  - intros Hno. apply orb_false_iff in Hno as [Ha Hl].
    rewrite Ha. simpl. now rewrite IH.
Qed.

Lemma find_last account l :
  exists a, find (fun a => acc_id a =? acc_id account) (l ++ [account]) = Some a.
Proof.
  apply find_found with account; [|apply String.eqb_refl].
  apply in_or_app. right. now left.
Qed.

(** C9, as the code has it.  Once the Account row is written, a failure
    [e] of the external sign-up or of the creation of the local user makes
    [signup] delete the row.  When the delete goes through, the accounts
    are those from before the call and [e] is what the caller gets; when
    the delete itself fails, the caller gets the failure of the delete and
    the Account row stays. *)
Theorem signup_compensates dto w w1 account w2 e :
  openAccount dto w = (w1, inr account) ->
  register dto account w1 = (w2, inl e) ->
  (nextFault w2 = None ->
   exists w3, signup dto w = (w3, inl e)
              /\ accounts (db w3) = accounts (db w))
  /\
  (forall e', nextFault w2 = Some e' ->
   exists w3, signup dto w = (w3, inl e')
              /\ In account (accounts (db w3))).
Proof.
  intros Hopen Hreg.
  destruct (openAccount_created _ _ _ _ Hopen) as [Hacc Hfresh].
  pose proof (register_keeps_accounts _ _ _ _ _ Hreg) as Hkeep.
  destruct (find_last account (accounts (db w))) as [a Hfind].
  unfold signup. rewrite (bind_ok _ _ _ _ _ Hopen).
  unfold try_catch. rewrite Hreg.
  unfold cleanup, bind, delete, extcall, throw, nextFault. simpl.
  rewrite Hkeep, Hacc, Hfind.
  split.
  - intros Hnone. destruct (faults w2) as [|[e'|] fs]; try discriminate;
      eexists; (split; [reflexivity|]); simpl;
      rewrite ?Hkeep, ?Hacc; now apply filter_out_last.
  - intros e' Hsome. destruct (faults w2) as [|[e''|] fs]; try discriminate.
    injection Hsome as ->. eexists. split; [reflexivity|]. simpl.
    rewrite ?Hkeep, ?Hacc. apply in_or_app. right. now left.
Qed.

(** Witness: the identity provider refuses zoe's address; the account that
    was opened for her is gone again and the refusal is what she gets. *)
Lemma signup_compensates_witness :
  exists w3,
    signup founderDto zoeKnown
    = (w3, inl (AuthApiError
                  "A user with this email address has already been registered"))
    /\ accounts (db w3) = accounts (db zoeKnown).
Proof.
  edestruct (signup_compensates founderDto zoeKnown) as [Hdeleted _];
    [vm_compute; reflexivity|vm_compute; reflexivity|].
  apply Hdeleted. reflexivity.
Defined.

(** C9 as stated fails.  The sign-up at the provider fails with "rate
    limit", the delete of the account then fails with an outage of the
    store: the caller gets the outage, not the failure that caused the
    cleanup, and the account stays. *)
Lemma signup_cleanup_failure_replaces_the_cause :
  exists w1 account w2,
    openAccount founderDto twoFailures = (w1, inr account)
    /\ register founderDto account w1 = (w2, inl (AuthApiError "rate limit"))
    /\ snd (signup founderDto twoFailures) = inl (Outage "database")
    /\ snd (signup founderDto twoFailures) <> inl (AuthApiError "rate limit")
    /\ In account (accounts (db (fst (signup founderDto twoFailures)))).
Proof.
  do 3 eexists. split; [reflexivity|]. split; [reflexivity|].
  split; [reflexivity|]. split; [discriminate|].
  vm_compute. auto.
Qed.

End SignupFacts.

(* ===================================================================== *)
(** * Further properties *)
(* ===================================================================== *)

(** ** The life of an invitation *)

Section InvitationLife.
Import InvitationService Sample.

Lemma invitationOf_mapped (g : Invitation -> Invitation) l token :
  (forall i, inv_token (g i) = inv_token i) ->
  find (hasToken token) (map g l) = option_map g (find (hasToken token) l).
Proof.
  intros Hkeep. induction l as [|a l IH]; simpl; [reflexivity|].
  unfold hasToken at 1. rewrite Hkeep. fold (hasToken token a).
  now destruct (hasToken token a).
Qed.

Lemma invitationOf_marked s w token inv :
  invitationOf (db w) token = Some inv ->
  invitationOf (db (marked s (inv_id inv) w)) token = Some (setStatus s inv).
Proof.
  unfold invitationOf, marked. simpl. intros Hf.
  rewrite (invitationOf_mapped
             (fun i => if hasId (inv_id inv) i then setStatus s i else i)).
  - rewrite Hf. simpl. now rewrite hasId_own.
  - intros i. now destruct (hasId (inv_id inv) i).
Qed.

Lemma mark_calm s w inv :
  faults w = [] ->
  In inv (invitations (db w)) ->
  exists r,
    update invitation_tb (hasId (inv_id inv)) (setStatus s) w
    = (marked s (inv_id inv) w, inr r).
Proof.
  intros Hc Hin.
  destruct (find_found (hasId (inv_id inv)) _ inv Hin (hasId_own inv))
    as [r Hr].
  exists (setStatus s r).
  now rewrite (update_calm invitation_tb _ _ w r Hc Hr).
Qed.

Lemma validateToken_settled token w inv :
  faults w = [] ->
  invitationOf (db w) token = Some inv ->
  inv_status inv <> InvitationStatus.PENDING ->
  validateToken token w = (w, inl (alreadyBeen inv)).
Proof.
  intros Hc Hf Hst. unfold validateToken.
  rewrite (bind_ok _ _ _ _ _ (include_calm _ w Hc)). rewrite Hf. simpl.
  destruct (InvitationStatus.eqb (inv_status inv) InvitationStatus.PENDING)
    eqn:Heq; [|reflexivity].
  apply InvitationStatus_eqb_eq in Heq. contradiction.
Qed.

Lemma revoke_calm context id w :
  faults w = [] -> role context = FOUNDER ->
  revokeInvitation context id w
  = match find (fun i => (inv_id i =? id)
                         && (inv_accountId i =? tenantId context)
                         && InvitationStatus.eqb (inv_status i)
                              InvitationStatus.PENDING)
               (invitations (db w)) with
    | Some _ => (marked InvitationStatus.REVOKED id w,
                 inr "Invitation revoked successfully")
    | None => (w, inl (NotFoundException "Pending invitation not found"))
    end.
Proof.
  intros Hc Hr. unfold revokeInvitation, InvitationService.checkFounderPermission.
  rewrite Hr. simpl. unfold bind at 1, ret at 1.
  rewrite (bind_ok _ _ _ _ _ (findFirst_calm invitation_tb _ w Hc)). simpl.
  destruct (find _ (invitations (db w))) as [i|] eqn:Hf; [|reflexivity].
  apply find_some in Hf as [Hin Hp].
  apply andb_true_iff in Hp as [Hp _]. apply andb_true_iff in Hp as [Hid _].
  apply String.eqb_eq in Hid. subst id.
  destruct (mark_calm InvitationStatus.REVOKED w i Hc Hin) as [r Hr'].
  now rewrite (bind_ok _ _ _ _ _ Hr').
Qed.

(** X1.  With no failing collaborator, a founder's [revokeInvitation] on a
    Pending invitation of the tenant marks it Revoked; from then on the
    token is refused by [validateToken] and [acceptInvitation] with "has
    already been revoked", and a second revoke finds no Pending invitation
    and changes nothing.  An id with no Pending invitation in the caller's
    tenant gets NotFound, the world unchanged. *)
Theorem revoke_ends_a_pending_invitation context token w inv :
  faults w = [] -> role context = FOUNDER ->
  invitationOf (db w) token = Some inv ->
  ((forall i, In i (invitations (db w)) -> inv_id i = inv_id inv ->
              inv_accountId i <> tenantId context
              \/ inv_status i <> InvitationStatus.PENDING) ->
   revokeInvitation context (inv_id inv) w
   = (w, inl (NotFoundException "Pending invitation not found")))
  /\
  (inv_accountId inv = tenantId context ->
   inv_status inv = InvitationStatus.PENDING ->
   let w1 := marked InvitationStatus.REVOKED (inv_id inv) w in
   revokeInvitation context (inv_id inv) w
   = (w1, inr "Invitation revoked successfully")
   /\ option_map inv_status (invitationOf (db w1) token)
      = Some InvitationStatus.REVOKED
   /\ (forall t,
         validateToken token (with_clock t w1)
         = (with_clock t w1,
            inl (BadRequestException "Invitation has already been revoked")))
   /\ (forall t password,
         acceptInvitation {| ai_token := token; ai_password := password |}
           (with_clock t w1)
         = (with_clock t w1,
            inl (BadRequestException "Invitation has already been revoked")))
   /\ revokeInvitation context (inv_id inv) w1
      = (w1, inl (NotFoundException "Pending invitation not found"))).
Proof.
  intros Hc Hr Hf. split.
  - intros Hnone. rewrite revoke_calm by assumption.
    rewrite find_absent; [reflexivity|].
    intros i Hin.
    destruct (String.eqb_spec (inv_id i) (inv_id inv)) as [Hid|]; [|reflexivity].
    simpl. destruct (Hnone i Hin Hid) as [Ht|Hs].
    + now rewrite (proj2 (String.eqb_neq _ _) Ht).
    + destruct (InvitationStatus.eqb (inv_status i) InvitationStatus.PENDING)
        eqn:Heq; [|apply andb_false_r].
      apply InvitationStatus_eqb_eq in Heq. contradiction.
  - intros Hacc Hst w1.
    pose proof (invitationOf_marked InvitationStatus.REVOKED w token inv Hf)
      as Hf1. fold w1 in Hf1.
    assert (Hin : In inv (invitations (db w))) by apply (find_some _ _ Hf).
    split; [|split; [|split; [|split]]].
    + rewrite revoke_calm by assumption.
      destruct (find_found
                  (fun i => (inv_id i =? inv_id inv)
                            && (inv_accountId i =? tenantId context)
                            && InvitationStatus.eqb (inv_status i)
                                 InvitationStatus.PENDING)
                  _ inv Hin) as [i Hi].
      { now rewrite Hacc, Hst, !String.eqb_refl. }
      now rewrite Hi.
    + now rewrite Hf1.
    + intros t.
      apply (validateToken_settled token (with_clock t w1)
               (setStatus InvitationStatus.REVOKED inv)); trivial; discriminate.
    + intros t password.
      apply (acceptInvitation_settled
               {| ai_token := token; ai_password := password |}
               (with_clock t w1) (setStatus InvitationStatus.REVOKED inv));
        trivial; discriminate.
    + rewrite revoke_calm by assumption.
      rewrite find_absent; [reflexivity|].
      intros i Hi. unfold w1, marked in Hi. simpl in Hi.
      apply in_map_iff in Hi as (j & <- & Hj).
      unfold hasId. destruct (String.eqb_spec (inv_id j) (inv_id inv)) as [Hid|Hid].
      * simpl. rewrite Hid, String.eqb_refl. simpl. apply andb_false_r.
      * now rewrite (proj2 (String.eqb_neq _ _) Hid).
Qed.

(** Witness: ada revokes the invitation of [invitedDB]. *)
Lemma revoke_ends_a_pending_invitation_witness :
  let w1 := marked InvitationStatus.REVOKED "i-1" (world invitedDB 100) in
  revokeInvitation (contextOf ada) "i-1" (world invitedDB 100)
  = (w1, inr "Invitation revoked successfully")
  /\ validateToken "tok-1" (with_clock 200 w1)
     = (with_clock 200 w1,
        inl (BadRequestException "Invitation has already been revoked")).
Proof.
  intros w1.
  destruct (proj2 (revoke_ends_a_pending_invitation (contextOf ada) "tok-1"
                     (world invitedDB 100) invite eq_refl eq_refl eq_refl)
              eq_refl eq_refl) as (H1 & _ & H2 & _).
  split; [exact H1|exact (H2 200%Z)].
Defined.

Section Resend.
Variable url : string.

Lemma resend_calm context id w :
  faults w = [] -> role context = FOUNDER ->
  resendInvitation url context id w
  = match find (fun i => (inv_id i =? id)
                         && (inv_accountId i =? tenantId context))
               (invitations (db w)) with
    | Some _ => (renewed id w,
                 inr (url ++ "/register?token=" ++ entropy w (drawn w))%string)
    | None => (w, inl (NotFoundException "Invitation not found"))
    end.
Proof.
  intros Hc Hr. unfold resendInvitation, InvitationService.checkFounderPermission.
  rewrite Hr. simpl. unfold bind at 1, ret at 1.
  rewrite (bind_ok _ _ _ _ _ (findFirst_calm invitation_tb _ w Hc)). simpl.
  destruct (find _ (invitations (db w))) as [i|] eqn:Hf; [|reflexivity].
  apply find_some in Hf as [Hin Hp]. apply andb_true_iff in Hp as [Hid _].
  destruct (find_found (hasId id) _ i Hin Hid) as [r Hfr].
  unfold bind, randomUUID, newDate, update, extcall, ret. simpl.
  rewrite Hc, Hfr. reflexivity.
Qed.

(** X2.  With no failing collaborator, a founder's [resendInvitation] on
    an invitation of the tenant, whatever its status, makes it Pending
    again with the next random token and an expiry sixty minutes from now,
    and answers with the link of that token.  If no invitation held that
    token before, the new token resolves to the invitation; if the old
    token belonged to this invitation only, it is no longer a valid token. *)
Theorem resend_reissues_whatever_the_status context w inv :
  faults w = [] -> role context = FOUNDER ->
  In inv (invitations (db w)) ->
  inv_accountId inv = tenantId context ->
  let token := entropy w (drawn w) in
  let due := (clock w + 60 * 60 * 1000)%Z in
  let w1 := renewed (inv_id inv) w in
  resendInvitation url context (inv_id inv) w
  = (w1, inr (url ++ "/register?token=" ++ token)%string)
  /\ In (renew token due inv) (invitations (db w1))
  /\ inv_status (renew token due inv) = InvitationStatus.PENDING
  /\ ((forall i, In i (invitations (db w)) -> inv_token i <> token) ->
      exists i, invitationOf (db w1) token = Some i
                /\ inv_id i = inv_id inv
                /\ inv_status i = InvitationStatus.PENDING
                /\ inv_expiresAt i = due)
  /\ ((forall i, In i (invitations (db w)) ->
                 inv_token i = inv_token inv -> inv_id i = inv_id inv) ->
      inv_token inv <> token ->
      forall t,
        validateToken (inv_token inv) (with_clock t w1)
        = (with_clock t w1, inl (NotFoundException "Invalid invitation token"))).
Proof.
  intros Hc Hr Hin Hacc token due w1.
  split; [|split; [|split; [reflexivity|split]]].
  - rewrite resend_calm by assumption.
    destruct (find_found
                (fun i => (inv_id i =? inv_id inv)
                          && (inv_accountId i =? tenantId context))
                _ inv Hin) as [i Hi].
    { now rewrite Hacc, !String.eqb_refl. }
    now rewrite Hi.
  - unfold w1, renewed. simpl.
    apply (in_map (fun i => if hasId (inv_id inv) i
                            then renew (entropy w (drawn w))
                                   (clock w + 3600000)%Z i
                            else i)) in Hin.
    now rewrite hasId_own in Hin.
  - intros Hnew. unfold invitationOf, w1, renewed. simpl.
    induction (invitations (db w)) as [|a l IH]; simpl; [contradiction|].
    destruct (hasId (inv_id inv) a) eqn:Ha.
    + unfold hasToken at 1. simpl. fold token. rewrite String.eqb_refl.
      eexists. split; [reflexivity|]. simpl.
      apply String.eqb_eq in Ha. auto.
    + unfold hasToken at 1.
      rewrite (proj2 (String.eqb_neq _ _) (Hnew a (or_introl eq_refl))).
      destruct Hin as [->|Hin]; [now rewrite hasId_own in Ha|].
      apply IH; trivial. intros i Hi. apply Hnew. now right.
  - intros Hown Hother t. unfold validateToken.
    assert (Hct : faults (with_clock t w1) = []) by exact Hc.
    rewrite (bind_ok _ _ _ _ _ (include_calm _ _ Hct)).
    assert (Hgone : invitationOf (db (with_clock t w1)) (inv_token inv) = None).
    { unfold invitationOf, w1, renewed. simpl. apply find_absent.
      intros i Hi. apply in_map_iff in Hi as (j & <- & Hj).
      unfold hasToken.
      destruct (hasId (inv_id inv) j) eqn:Hjid; simpl.
      - apply String.eqb_neq. fold token. congruence.
      - apply String.eqb_neq. intros Htok.
        apply Hown in Htok; trivial. unfold hasId in Hjid.
        now rewrite Htok, String.eqb_refl in Hjid. }
    now rewrite Hgone.
Qed.

End Resend.

(** Witness: ada resends an invitation that was accepted at 50; under its
    new token it is Pending again. *)
Lemma resend_reissues_whatever_the_status_witness :
  let w := world (set_invitations
                    [setAccepted 50 invite] baseDB) 100 in
  resendInvitation appUrl (contextOf ada) "i-1" w
  = (renewed "i-1" w, inr "http://localhost:3000/register?token=uuid-0")
  /\ option_map inv_status (invitationOf (db (renewed "i-1" w)) "uuid-0")
     = Some InvitationStatus.PENDING.
Proof.
  intros w.
  destruct (resend_reissues_whatever_the_status appUrl (contextOf ada) w
              (setAccepted 50 invite) eq_refl eq_refl (or_introl eq_refl)
              eq_refl) as (H1 & _ & _ & H2 & _).
  split; [exact H1|].
  destruct H2 as (i & Hi & _ & Hs & _).
  - simpl. intros i [<-|[]]. discriminate.
  - exact (eq_trans (f_equal (option_map inv_status) Hi) (f_equal Some Hs)).
Defined.

Lemma no_user_with_email d email_ :
  (forall u, In u (users d) -> usr_email u <> email_) ->
  find (fun u => usr_email u =? email_) (users d) = None.
Proof.
  intros Hno. apply find_absent. intros u Hin.
  apply String.eqb_neq. now apply Hno.
Qed.

Lemma provider_unaware (i : list SupabaseUser) email_ :
  (forall s, In s i -> su_email s <> email_) ->
  existsb (fun u => su_email u =? email_) i = false.
Proof.
  intros Hno. induction i as [|a l IH]; simpl; [reflexivity|].
  rewrite (proj2 (String.eqb_neq _ _) (Hno a (or_introl eq_refl))). simpl.
  apply IH. intros; apply Hno; now right.
Qed.

Lemma no_user_clash (new : User) l :
  (forall u, In u l -> usr_id u <> usr_id new
                       /\ usr_email u <> usr_email new
                       /\ usr_supabaseId u <> usr_supabaseId new) ->
  existsb (fun old => (usr_id old =? usr_id new)
                      || (usr_email old =? usr_email new)
                      || (usr_supabaseId old =? usr_supabaseId new)) l = false.
Proof.
  induction l as [|a l IH]; simpl; intros Hall; [reflexivity|].
  destruct (Hall a (or_introl eq_refl)) as (H1 & H2 & H3).
  rewrite (proj2 (String.eqb_neq _ _) H1), (proj2 (String.eqb_neq _ _) H2),
    (proj2 (String.eqb_neq _ _) H3). simpl.
  apply IH. intros; apply Hall; now right.
Qed.

Lemma acceptInvitation_welcomes data w inv :
  faults w = [] ->
  invitationOf (db w) (ai_token data) = Some inv ->
  inv_status inv = InvitationStatus.PENDING ->
  (clock w <= inv_expiresAt inv)%Z ->
  (forall u, In u (users (db w)) -> usr_email u <> inv_email inv) ->
  (forall s, In s (idp w) -> su_email s <> inv_email inv) ->
  (forall u, In u (users (db w)) ->
             usr_id u <> entropy w (S (drawn w))
             /\ usr_supabaseId u <> entropy w (drawn w)) ->
  acceptInvitation data w
  = (welcomed inv w,
     inr {| ar_message := "Account created successfully";
            ar_user := userFor inv w |}).
Proof.
  intros Hc Hf Hst Hdue Hmail Hidp Hids. unfold acceptInvitation.
  rewrite (bind_ok _ _ _ _ _ (include_calm _ w Hc)). rewrite Hf. simpl.
  rewrite Hst. simpl. unfold bind at 1, newDate at 1.
  rewrite (proj2 (Z.ltb_ge _ _) Hdue).
  rewrite (bind_ok _ _ _ _ _ (findUnique_calm user_tb _ w Hc)).
  simpl. rewrite (no_user_with_email _ _ Hmail). simpl.
  assert (Hclash : existsb
            (fun old => (usr_id old =? usr_id (userFor inv w))
                        || (usr_email old =? usr_email (userFor inv w))
                        || (usr_supabaseId old =? usr_supabaseId (userFor inv w)))
            (users (db w)) = false).
  { apply no_user_clash. intros u Hu. destruct (Hids u Hu). simpl. auto. }
  destruct (find_found (hasId (inv_id inv)) _ inv (proj1 (find_some _ _ Hf))
              (hasId_own inv)) as [r Hr].
  unfold bind, SupabaseService.signUp, transaction, user_create, bind,
    randomUUID, newDate, create, update, extcall, ret. simpl.
  rewrite Hc, (provider_unaware _ _ Hidp). simpl. rewrite Hc. simpl.
  simpl in Hclash. rewrite Hclash. simpl. rewrite Hc, Hr. reflexivity.
Qed.

(** X3.  With no failing collaborator, accepting a Pending invitation that
    is not past its expiry, for an address that neither a user nor the
    identity provider holds, creates the user with the role and the tenant
    of the invitation and marks the invitation Accepted at the current
    time; after that the token is spent: any further [acceptInvitation]
    with it fails with "has already been accepted" and writes nothing. *)
Theorem acceptInvitation_creates_the_invited_user data w inv :
  faults w = [] ->
  invitationOf (db w) (ai_token data) = Some inv ->
  inv_status inv = InvitationStatus.PENDING ->
  (clock w <= inv_expiresAt inv)%Z ->
  (forall u, In u (users (db w)) -> usr_email u <> inv_email inv) ->
  (forall s, In s (idp w) -> su_email s <> inv_email inv) ->
  (forall u, In u (users (db w)) ->
             usr_id u <> entropy w (S (drawn w))
             /\ usr_supabaseId u <> entropy w (drawn w)) ->
  let w1 := welcomed inv w in
  let new := userFor inv w in
  acceptInvitation data w
  = (w1, inr {| ar_message := "Account created successfully";
                ar_user := new |})
  /\ usr_role new = inv_role inv
  /\ usr_accountId new = inv_accountId inv
  /\ users (db w1) = users (db w) ++ [new]
  /\ invitationOf (db w1) (ai_token data) = Some (setAccepted (clock w) inv)
  /\ forall t password,
       acceptInvitation {| ai_token := ai_token data; ai_password := password |}
         (with_clock t w1)
       = (with_clock t w1,
          inl (BadRequestException "Invitation has already been accepted")).
Proof.
  intros Hc Hf Hst Hdue Hmail Hidp Hids w1 new.
  assert (Hf1 : invitationOf (db w1) (ai_token data)
                = Some (setAccepted (clock w) inv)).
  { unfold invitationOf, w1, welcomed, acceptedRows. simpl.
    rewrite (invitationOf_mapped
               (fun i => if hasId (inv_id inv) i
                         then setAccepted (clock w) i else i)).
    - unfold invitationOf in Hf. rewrite Hf. simpl. now rewrite hasId_own.
    - intros i. now destruct (hasId (inv_id inv) i). }
  split; [now apply acceptInvitation_welcomes|].
  split; [reflexivity|]. split; [reflexivity|]. split; [reflexivity|].
  split; [exact Hf1|].
  intros t password.
  apply (acceptInvitation_settled
           {| ai_token := ai_token data; ai_password := password |}
           (with_clock t w1) (setAccepted (clock w) inv)); trivial;
    discriminate.
Qed.

(** Witness: the invitation of [invitedDB] is accepted at 100, and a second
    time at 200. *)
Lemma acceptInvitation_creates_the_invited_user_witness :
  let w := world invitedDB 100 in
  let data := {| ai_token := "tok-1"; ai_password := "secret" |} in
  acceptInvitation data w
  = (welcomed invite w,
     inr {| ar_message := "Account created successfully";
            ar_user := userFor invite w |})
  /\ usr_accountId (userFor invite w) = "acme"
  /\ acceptInvitation data (with_clock 200 (welcomed invite w))
     = (with_clock 200 (welcomed invite w),
        inl (BadRequestException "Invitation has already been accepted")).
Proof.
  intros w data.
  destruct (acceptInvitation_creates_the_invited_user data w invite
              eq_refl eq_refl eq_refl) as (H1 & _ & H2 & _ & _ & H3).
  - simpl. lia.
  - simpl. intros u [<-|[<-|[<-|[<-|[<-|[]]]]]]; discriminate.
  - intros s [].
  - simpl. intros u [<-|[<-|[<-|[<-|[<-|[]]]]]]; split; discriminate.
  - split; [exact H1|]. split; [exact H2|exact (H3 200%Z "secret")].
Defined.

(** The outcomes of [acceptInvitation] under every schedule of failures. *)
Lemma acceptInvitation_outcomes data w :
  match acceptInvitation data w with
  | (w', inr r) =>
      users (db w') = users (db w) ++ [ar_user r]
      /\ exists inv, invitationOf (db w) (ai_token data) = Some inv
                     /\ invitations (db w') = acceptedRows (inv_id inv) w
                     /\ usr_email (ar_user r) = inv_email inv
                     /\ usr_role (ar_user r) = inv_role inv
                     /\ usr_accountId (ar_user r) = inv_accountId inv
  | (w', inl _) =>
      users (db w') = users (db w)
      /\ (invitations (db w') = invitations (db w)
          \/ exists inv,
               invitationOf (db w) (ai_token data) = Some inv
               /\ invitations (db w')
                  = invitations (db (marked InvitationStatus.EXPIRED
                                       (inv_id inv) w)))
  end.
Proof.
  destruct w as [d i c en n f].
  unfold acceptInvitation, invitation_findUnique_include, invitationOf,
    acceptedRows, marked.
  unfold bind at 1. unfold extcall at 1. simpl.
  fault_cases; simpl; auto.
  all: destruct (find (hasToken (ai_token data)) (invitations d))
         as [inv|] eqn:Hinv; simpl; auto.
  all: destruct (negb (InvitationStatus.eqb (inv_status inv)
                         InvitationStatus.PENDING)); simpl; auto.
  all: unfold bind at 1, newDate at 1; simpl.
  all: destruct (inv_expiresAt inv <? c)%Z; simpl.
  all: unfold bind, update, findUnique, findFirst, SupabaseService.signUp,
         transaction, user_create, bind, randomUUID, newDate, create, update,
         extcall, ret, throw; simpl.
  all: try fault_cases; simpl; auto.
  all: try (destruct (find (hasId (inv_id inv)) (invitations d));
            simpl; split; eauto; fail).
  all: destruct (isSet (find _ (users d))); simpl; auto.
  all: try fault_cases; simpl; auto.
  all: destruct (existsb _ i); simpl; auto.
  all: try fault_cases; simpl; auto.
  all: destruct (existsb _ (users d)); simpl; auto.
  all: try fault_cases; simpl; auto.
  all: destruct (find (hasId (inv_id inv)) (invitations d)); simpl; eauto 10.
Qed.

Lemma onlyChanged_map id change (f : Invitation -> Invitation) l :
  (forall i, change i (f i)) ->
  onlyChanged id change l (map (fun i => if hasId id i then f i else i) l).
Proof.
  intros Hf. unfold onlyChanged, hasId.
  induction l as [|a l IH]; simpl; constructor; trivial.
  destruct (String.eqb_spec (inv_id a) id); split; intros; trivial;
    contradiction.
Qed.

(** X4.  Whatever the collaborators do, [acceptInvitation] never leaves a
    new user row without the invitation being Accepted, nor an Accepted
    invitation without the user row.  On success one user is appended,
    with the address, role and tenant of the invitation read; the
    invitations of that id are Accepted at the time of the call and
    otherwise as before, every other invitation is untouched, and the
    token now resolves to an Accepted invitation.  On failure the users
    are as before and the invitations are as before or, at most, those of
    the id of the invitation read are marked Expired, nothing else
    changed. *)
Theorem acceptInvitation_user_and_acceptance_go_together data w :
  match acceptInvitation data w with
  | (w', inr r) =>
      exists inv,
        invitationOf (db w) (ai_token data) = Some inv
        /\ users (db w') = users (db w) ++ [ar_user r]
        /\ usr_email (ar_user r) = inv_email inv
        /\ usr_role (ar_user r) = inv_role inv
        /\ usr_accountId (ar_user r) = inv_accountId inv
        /\ onlyChanged (inv_id inv) (acceptedAs (clock w))
             (invitations (db w)) (invitations (db w'))
        /\ (exists i1, invitationOf (db w') (ai_token data) = Some i1
                       /\ inv_status i1 = InvitationStatus.ACCEPTED)
  | (w', inl _) =>
      users (db w') = users (db w)
      /\ (invitations (db w') = invitations (db w)
          \/ exists inv,
               invitationOf (db w) (ai_token data) = Some inv
               /\ onlyChanged (inv_id inv) expiredAs
                    (invitations (db w)) (invitations (db w')))
  end.
Proof.
  pose proof (acceptInvitation_outcomes data w) as Hout.
  destruct (acceptInvitation data w) as [w' [e|r]].
  - destruct Hout as [Husers [Hsame|(inv & Hinv & Hmarked)]].
    + split; [exact Husers|now left].
    + split; [exact Husers|]. right. exists inv. split; [exact Hinv|].
      rewrite Hmarked. unfold marked. simpl.
      apply onlyChanged_map. intros i. repeat split.
  - destruct Hout as (Husers & inv & Hinv & Hrows & He & Hr & Ha).
    exists inv. repeat (split; [assumption|]). split.
    + rewrite Hrows. unfold acceptedRows.
      apply onlyChanged_map. intros i. repeat split.
    + exists (setAccepted (clock w) inv). split; [|reflexivity].
      unfold invitationOf in *. rewrite Hrows. unfold acceptedRows.
      rewrite (invitationOf_mapped
                 (fun i => if hasId (inv_id inv) i
                           then setAccepted (clock w) i else i)).
      * rewrite Hinv. simpl. now rewrite hasId_own.
      * intros i. now destruct (hasId (inv_id inv) i).
Qed.


Lemma validateToken_valid token w inv a u :
  faults w = [] ->
  invitationOf (db w) token = Some inv ->
  inv_status inv = InvitationStatus.PENDING ->
  (clock w <= inv_expiresAt inv)%Z ->
  find (fun a => acc_id a =? inv_accountId inv) (accounts (db w)) = Some a ->
  find (fun u => usr_id u =? inv_invitedById inv) (users (db w)) = Some u ->
  validateToken token w
  = (w, inr {| ti_valid := true;
               ti_email := inv_email inv;
               ti_role := inv_role inv;
               ti_organization := acc_name a;
               ti_invitedBy := usr_email u;
               ti_expiresAt := inv_expiresAt inv |}).
Proof.
  intros Hc Hf Hst Hdue Ha Hu. unfold validateToken.
  rewrite (bind_ok _ _ _ _ _ (include_calm _ w Hc)). rewrite Hf. simpl.
  rewrite Hst, Ha, Hu. simpl. unfold bind at 1, newDate at 1.
  now rewrite (proj2 (Z.ltb_ge _ _) Hdue).
Qed.

Section SendThenValidate.
Variable url : string.

Lemma invitationOf_sent context data w :
  (forall i, In i (invitations (db w)) ->
             inv_token i <> inv_token (issued context data w)) ->
  invitationOf (db (sent context data w)) (entropy w (drawn w))
  = Some (issued context data w).
Proof.
  intros Hnew. unfold invitationOf, sent.
  assert (Hold : forall g : Invitation -> Invitation,
             (forall i, inv_token (g i) = inv_token i) ->
             find (hasToken (entropy w (drawn w)))
                  (map g (invitations (db w)) ++ [issued context data w])
             = Some (issued context data w)).
  { intros g Hg. rewrite find_app_r.
    - simpl. unfold hasToken. simpl. now rewrite String.eqb_refl.
    - apply find_absent. intros i Hi. apply in_map_iff in Hi as (j & <- & Hj).
      unfold hasToken. rewrite Hg. apply String.eqb_neq. now apply Hnew. }
  destruct (firstPending (db w) (si_email data) context) as [old|]; simpl.
  - apply (Hold (fun i => if hasId (inv_id old) i
                          then setStatus InvitationStatus.EXPIRED i else i)).
    intros i. now destruct (hasId (inv_id old) i).
  - rewrite <- (map_id (invitations (db w))). now apply (Hold (fun i => i)).
Qed.

(** X5.  An invitation that [sendInvite] has just written validates under
    its token from then on up to and including its expiry, sixty minutes
    later, with the address, the role, the name of the inviter's account
    and the inviter's address; read after the expiry it is refused as
    expired and marked Expired.  (No failing collaborator; the account and
    the user of the sender are stored.) *)
Theorem sent_invitation_validates_until_due context data w a u :
  faults w = [] -> role context = FOUNDER ->
  ~ userInTenant (db w) (si_email data) context ->
  (forall old, firstPending (db w) (si_email data) context = Some old ->
               (inv_expiresAt old <= clock w)%Z) ->
  (forall i, In i (invitations (db w)) ->
             inv_id i <> inv_id (issued context data w)
             /\ inv_token i <> inv_token (issued context data w)) ->
  find (fun a => acc_id a =? tenantId context) (accounts (db w)) = Some a ->
  find (fun u => usr_id u =? userId context) (users (db w)) = Some u ->
  let w1 := sent context data w in
  let new := issued context data w in
  let due := (clock w + 60 * 60 * 1000)%Z in
  sendInvite url context data w = (w1, inr (receipt url new))
  /\ (forall t, (t <= due)%Z ->
        validateToken (inv_token new) (with_clock t w1)
        = (with_clock t w1,
           inr {| ti_valid := true;
                  ti_email := si_email data;
                  ti_role := inv_role new;
                  ti_organization := acc_name a;
                  ti_invitedBy := usr_email u;
                  ti_expiresAt := due |}))
  /\ (forall t, (due < t)%Z ->
        validateToken (inv_token new) (with_clock t w1)
        = (lapsed (inv_id new) (with_clock t w1),
           inl (BadRequestException "Invitation has expired"))).
Proof.
  intros Hc Hr Hu Hold Hfree Ha Husr w1 new due.
  assert (Hf : invitationOf (db w1) (inv_token new) = Some new).
  { apply invitationOf_sent. intros i Hi. now apply Hfree. }
  assert (Hacc : accounts (db w1) = accounts (db w)).
  { unfold w1, sent.
    now destruct (firstPending (db w) (si_email data) context). }
  assert (Husers : users (db w1) = users (db w)).
  { unfold w1, sent.
    now destruct (firstPending (db w) (si_email data) context). }
  assert (Hc1 : faults w1 = []).
  { unfold w1, sent.
    now destruct (firstPending (db w) (si_email data) context). }
  split; [now apply sendInvite_issues|]. split.
  - intros t Ht.
    apply (validateToken_valid (inv_token new) (with_clock t w1) new a u);
      trivial.
    + exact (eq_trans (f_equal (find _) Hacc) Ha).
    + exact (eq_trans (f_equal (find _) Husers) Husr).
  - intros t Ht.
    apply (validateToken_lapses (inv_token new) (with_clock t w1) new);
      trivial.
Qed.

End SendThenValidate.

(** Witness: ada invites new@x.test at 0; the token validates at 3600000
    and is refused at 3600001. *)
Lemma sent_invitation_validates_until_due_witness :
  let w := world baseDB 0 in
  let w1 := sent (contextOf ada) newcomer w in
  validateToken "uuid-0" (with_clock 3600000 w1)
  = (with_clock 3600000 w1,
     inr {| ti_valid := true; ti_email := "new@x.test"; ti_role := TESTER;
            ti_organization := "Acme"; ti_invitedBy := "ada@acme.test";
            ti_expiresAt := 3600000 |})
  /\ validateToken "uuid-0" (with_clock 3600001 w1)
     = (lapsed "uuid-1" (with_clock 3600001 w1),
        inl (BadRequestException "Invitation has expired")).
Proof.
  intros w w1.
  destruct (sent_invitation_validates_until_due appUrl (contextOf ada)
              newcomer w acme ada eq_refl eq_refl) as (_ & H1 & H2).
  - intros (x & Hin & He & _). simpl in Hin.
    destruct Hin as [<-|[<-|[<-|[<-|[<-|[]]]]]]; discriminate.
  - intros old Hold. discriminate.
  - intros i [].
  - reflexivity.
  - reflexivity.
  - split; [apply (H1 3600000%Z); simpl; lia|apply (H2 3600001%Z); simpl; lia].
Defined.

End InvitationLife.

(* ===================================================================== *)
(** ** Signing up, logging in, resolving a token *)
(* ===================================================================== *)

Section AuthFacts.
Import AuthService Sample.

Lemma no_account_clash (new : Account) l :
  (forall a, In a l -> acc_id a <> acc_id new) ->
  existsb (fun old => acc_id old =? acc_id new) l = false.
Proof.
  induction l as [|a l IH]; simpl; intros Hall; [reflexivity|].
  rewrite (proj2 (String.eqb_neq _ _) (Hall a (or_introl eq_refl))). simpl.
  apply IH. intros; apply Hall; now right.
Qed.

(** X6.  [signup] refuses a founder without an account name before it
    calls any collaborator.  With no failing collaborator it refuses an
    address a user already holds, leaving the world as it was; and for an
    address that is new to the users and to the provider it opens an
    account of its own for the user, whatever the role, registers the
    identity with that account's id and writes the user row into that
    account. *)
Theorem signup_opens_a_tenant_of_its_own dto w :
  (sd_role dto = FOUNDER -> truthy (sd_accountName dto) = false ->
   signup dto w
   = (w, inl (BadRequestException "Account name is required for founders")))
  /\
  (faults w = [] ->
   (sd_role dto <> FOUNDER \/ truthy (sd_accountName dto) = true) ->
   ((exists u, In u (users (db w)) /\ usr_email u = sd_email dto) ->
    signup dto w
    = (w, inl (ConflictException "User with this email already exists")))
   /\
   ((forall u, In u (users (db w)) -> usr_email u <> sd_email dto) ->
    (forall s, In s (idp w) -> su_email s <> sd_email dto) ->
    (forall a, In a (accounts (db w)) -> acc_id a <> entropy w (drawn w)) ->
    (forall u, In u (users (db w)) ->
               usr_id u <> entropy w (S (S (drawn w)))
               /\ usr_supabaseId u <> entropy w (S (drawn w))) ->
    let w1 := signedUp dto w in
    signup dto w
    = (w1, inr {| sr_message := "User registered successfully";
                  sr_user := signedUpUser dto w |})
    /\ accounts (db w1) = accounts (db w) ++ [openedAccount dto w]
    /\ users (db w1) = users (db w) ++ [signedUpUser dto w]
    /\ usr_accountId (signedUpUser dto w) = acc_id (openedAccount dto w)
    /\ (forall a, In a (accounts (db w)) ->
                  acc_id a <> usr_accountId (signedUpUser dto w)))).
Proof.
  split.
  - intros Hr Hname. unfold signup, openAccount. rewrite Hr, Hname. reflexivity.
  - intros Hc Hok.
    assert (Hguard : Role_eqb (sd_role dto) FOUNDER
                     && negb (truthy (sd_accountName dto)) = false).
    { destruct Hok as [Hr|Hn].
      - destruct (Role_eqb (sd_role dto) FOUNDER) eqn:Heq; [|reflexivity].
        apply Role_eqb_eq in Heq. contradiction.
      - rewrite Hn. apply andb_false_r. }
    split.
    + intros (u & Hin & Hmail).
      destruct (find_found (fun u => usr_email u =? sd_email dto) _ u Hin)
        as [u' Hf]; [now rewrite Hmail, String.eqb_refl|].
      unfold signup, openAccount. rewrite Hguard.
      unfold bind at 1. unfold bind at 1.
      rewrite (findUnique_calm user_tb _ w Hc). simpl. now rewrite Hf.
    + intros Hmail Hidp Hacc Hids w1.
      split; [|split; [reflexivity|split; [reflexivity|split;
                [reflexivity|exact Hacc]]]].
      pose proof (no_account_clash (openedAccount dto w) _ Hacc) as Ha.
      assert (Hu : existsb
                (fun old => (usr_id old =? usr_id (signedUpUser dto w))
                            || (usr_email old =? usr_email (signedUpUser dto w))
                            || (usr_supabaseId old
                                =? usr_supabaseId (signedUpUser dto w)))
                (users (db w)) = false).
      { apply no_user_clash. intros u Hin. destruct (Hids u Hin).
        simpl. auto. }
      unfold signup, openAccount. rewrite Hguard.
      unfold try_catch, register, account_create, bind, findUnique, findFirst,
        SupabaseService.signUp, user_create, bind, randomUUID, newDate, create,
        extcall, ret. simpl. rewrite Hc. simpl.
      rewrite (no_user_with_email _ _ Hmail). simpl.
      simpl in Ha. rewrite Hc, Ha. simpl.
      rewrite Hc, (provider_unaware _ _ Hidp). simpl.
      simpl in Hu. rewrite Hc, Hu. reflexivity.
Qed.

(** Witness: zoe signs up as a founder without an account name, tom's
    address is taken, and zoe signs up with the account Initech. *)
Lemma signup_opens_a_tenant_of_its_own_witness :
  signup {| sd_email := "zoe@initech.test"; sd_password := "hunter22";
            sd_role := FOUNDER; sd_accountName := Some "" |} (world baseDB 0)
  = (world baseDB 0,
     inl (BadRequestException "Account name is required for founders"))
  /\ signup {| sd_email := "tom@acme.test"; sd_password := "hunter22";
               sd_role := TESTER; sd_accountName := None |} (world baseDB 0)
     = (world baseDB 0,
        inl (ConflictException "User with this email already exists"))
  /\ signup founderDto (world baseDB 0)
     = (signedUp founderDto (world baseDB 0),
        inr {| sr_message := "User registered successfully";
               sr_user := signedUpUser founderDto (world baseDB 0) |}).
Proof.
  split; [|split].
  - apply (proj1 (signup_opens_a_tenant_of_its_own _ _)); reflexivity.
  - apply (proj2 (signup_opens_a_tenant_of_its_own _ (world baseDB 0))
             eq_refl).
    + left. discriminate.
    + exists tom. simpl. auto.
  - apply (proj2 (signup_opens_a_tenant_of_its_own founderDto (world baseDB 0))
             eq_refl).
    + right. reflexivity.
    + simpl. intros u [<-|[<-|[<-|[<-|[<-|[]]]]]]; discriminate.
    + intros s [].
    + simpl. intros a [<-|[<-|[]]]; discriminate.
    + simpl. intros u [<-|[<-|[<-|[<-|[<-|[]]]]]]; split; discriminate.
Defined.

Section LoginFacts.
Variable signIn : string -> string -> M Session.

(** X7.  Whatever the identity provider and the store do, a failing
    [login] fails with an Unauthorized exception and nothing else; a
    failure of the sign-in that is not itself Unauthorized comes out as
    "Invalid credentials".  A successful login returns a stored user row
    of the address. *)
Theorem login_fails_only_with_unauthorized loginDto w :
  match login signIn loginDto w with
  | (_, inl e) => exists m, e = UnauthorizedException m
  | (w', inr r) =>
      usr_email (lr_user r) = ld_email loginDto
      /\ In (lr_user r) (users (db w'))
  end
  /\
  (forall w' e,
     signIn (ld_email loginDto) (ld_password loginDto) w = (w', inl e) ->
     (forall m, e <> UnauthorizedException m) ->
     login signIn loginDto w
     = (w', inl (UnauthorizedException "Invalid credentials"))).
Proof.
  split.
  - unfold login, try_catch, bind.
    destruct (signIn (ld_email loginDto) (ld_password loginDto) w)
      as [w1 [e|session]] eqn:Hsign.
    + destruct e; simpl; eauto.
    + unfold findUnique, findFirst, extcall.
      destruct w1 as [d i c en n f]. simpl.
      destruct f as [|[e|] f]; simpl.
      * destruct (find _ (users d)) as [u|] eqn:Hf; simpl; eauto.
        apply find_some in Hf as [Hin Hm]. split; trivial.
        now apply String.eqb_eq.
      * destruct e; simpl; eauto.
      * destruct (find _ (users d)) as [u|] eqn:Hf; simpl; eauto.
        apply find_some in Hf as [Hin Hm]. split; trivial.
        now apply String.eqb_eq.
  - intros w' e Hsign Hother. unfold login, try_catch, bind.
    rewrite Hsign. destruct e; try reflexivity.
    now destruct (Hother message).
Qed.

End LoginFacts.

(** With a provider that knows one password: tom logs in; a wrong password
    and an outage of the store both come out as "Invalid credentials". *)
Example login_outcomes :
  (exists r, snd (login demoSignIn {| ld_email := "tom@acme.test";
                                      ld_password := "hunter22" |}
                    (world baseDB 0)) = inr r
             /\ lr_user r = tom)
  /\ snd (login demoSignIn {| ld_email := "tom@acme.test";
                              ld_password := "guess" |} (world baseDB 0))
     = inl (UnauthorizedException "Invalid credentials")
  /\ snd (login demoSignIn {| ld_email := "tom@acme.test";
                              ld_password := "hunter22" |}
            (with_faults [None; Some (Outage "database")] (world baseDB 0)))
     = inl (UnauthorizedException "Invalid credentials").
Proof.
  split; [eexists; split; reflexivity|]. split; reflexivity.
Qed.

(** Witness: a wrong password, which the provider refuses with its own
    error, comes out as "Invalid credentials". *)
Lemma login_fails_only_with_unauthorized_witness :
  login demoSignIn {| ld_email := "tom@acme.test"; ld_password := "guess" |}
    (world baseDB 0)
  = (world baseDB 0, inl (UnauthorizedException "Invalid credentials")).
Proof.
  apply (proj2 (login_fails_only_with_unauthorized demoSignIn
                  {| ld_email := "tom@acme.test"; ld_password := "guess" |}
                  (world baseDB 0))
           (world baseDB 0) (AuthApiError "Invalid login credentials")).
  - reflexivity.
  - intros m. discriminate.
Defined.

Lemma getProfile_calm uid accountId w :
  faults w = [] ->
  getProfile uid accountId w
  = (w,
     match find (fun u => (usr_id u =? uid) && (usr_accountId u =? accountId))
                (users (db w)) with
     | Some u => inr (u, find (fun a => acc_id a =? usr_accountId u)
                              (accounts (db w)))
     | None => inl (UnauthorizedException "User not found or access denied")
     end).
Proof.
  intros Hc. unfold getProfile, user_findFirst_with_account, bind, extcall.
  rewrite Hc. now destruct (find _ (users (db w))).
Qed.

(** X8.  With no failing collaborator, the user that [JwtStrategy.validate]
    resolves a token to is a stored user with the token's subject as
    provider id, and [getProfile] with that user's id and account finds a
    user of that id and account; the tenant context made of it carries the
    same account.  [getProfile] with an account that no user of the id
    belongs to fails with Unauthorized; so does [validate] for a subject
    without a user row. *)
Theorem validated_user_has_a_profile payload w :
  faults w = [] ->
  ((forall u, In u (users (db w)) ->
              usr_supabaseId u <> JwtStrategy.sub payload) ->
   JwtStrategy.validate payload w
   = (w, inl (UnauthorizedException "User not found in database")))
  /\
  (forall u0, In u0 (users (db w)) ->
              usr_supabaseId u0 = JwtStrategy.sub payload ->
   exists user,
     JwtStrategy.validate payload w = (w, inr user)
     /\ au_supabaseId user = JwtStrategy.sub payload
     /\ tenantId (toTenantContext user) = au_accountId user
     /\ (exists u account,
           getProfile (au_id user) (au_accountId user) w
           = (w, inr (u, account))
           /\ In u (users (db w))
           /\ usr_id u = au_id user
           /\ usr_accountId u = au_accountId user))
  /\
  (forall uid accountId,
     (forall u, In u (users (db w)) -> usr_id u = uid ->
                usr_accountId u <> accountId) ->
     getProfile uid accountId w
     = (w, inl (UnauthorizedException "User not found or access denied"))).
Proof.
  intros Hc. split; [|split].
  - intros Hnone. unfold JwtStrategy.validate.
    rewrite (bind_ok _ _ _ _ _ (findUnique_calm user_tb _ w Hc)).
    rewrite find_absent; [reflexivity|].
    intros u Hin. apply String.eqb_neq. now apply Hnone.
  - intros u0 Hin Hsub.
    destruct (find_found (fun u => usr_supabaseId u =? JwtStrategy.sub payload)
                _ u0 Hin) as [u Hf]; [now rewrite Hsub, String.eqb_refl|].
    unfold JwtStrategy.validate.
    rewrite (bind_ok _ _ _ _ _ (findUnique_calm user_tb _ w Hc)).
    simpl. rewrite Hf. eexists. split; [reflexivity|]. simpl.
    apply find_some in Hf as [Hin' Hs].
    split; [now apply String.eqb_eq|]. split; [reflexivity|].
    rewrite getProfile_calm by assumption.
    destruct (find_found
                (fun x => (usr_id x =? usr_id u)
                          && (usr_accountId x =? usr_accountId u))
                _ u Hin') as [u' Hf']; [now rewrite !String.eqb_refl|].
    rewrite Hf'. do 2 eexists. split; [reflexivity|].
    apply find_some in Hf' as [Hin'' Hp].
    apply andb_true_iff in Hp as [H1 H2].
    repeat split; trivial; now apply String.eqb_eq.
  - intros uid accountId Hnone. rewrite getProfile_calm by assumption.
    rewrite find_absent; [reflexivity|].
    intros u Hin. destruct (String.eqb_spec (usr_id u) uid) as [Hid|];
      [|reflexivity].
    simpl. apply String.eqb_neq. now apply Hnone.
Qed.

(** Witness: tom's token resolves to tom; his id under the account of
    globex gives no profile. *)
Lemma validated_user_has_a_profile_witness :
  JwtStrategy.validate {| JwtStrategy.sub := "sb-u-tom" |} (world baseDB 0)
  = (world baseDB 0, inr (asUser tom))
  /\ getProfile "u-tom" "globex" (world baseDB 0)
     = (world baseDB 0,
        inl (UnauthorizedException "User not found or access denied")).
Proof.
  pose proof (validated_user_has_a_profile
                {| JwtStrategy.sub := "sb-u-tom" |} (world baseDB 0) eq_refl)
    as (_ & Hhit & Hmiss).
  split.
  - destruct (Hhit tom) as (user & Hrun & _); [simpl; auto|reflexivity|].
    rewrite Hrun. vm_compute in Hrun. injection Hrun as <-. reflexivity.
  - apply Hmiss. simpl.
    intros u [<-|[<-|[<-|[<-|[<-|[]]]]]]; simpl; discriminate.
Defined.

End AuthFacts.

(* ===================================================================== *)
(** ** Creating, sharing and deleting projects *)
(* ===================================================================== *)

Section ProjectLife.
Import Sample.

Lemma project_not_founder_denied context action w :
  action = create_ \/ action = update_ \/ action = delete_ ->
  role context <> FOUNDER ->
  exists msg,
    ProjectService.checkPermission context action w
    = (w, inl (ForbiddenException msg)).
Proof.
  intros Ha Hr. eexists. unfold ProjectService.checkPermission.
  apply checkPermission_denied.
  unfold permitted.
  destruct Ha as [->|[->| ->]]; simpl; intros [Heq|[]]; congruence.
Qed.

Lemma project_founder_permitted context action w :
  role context = FOUNDER ->
  ProjectService.checkPermission context action w = (w, inr tt).
Proof.
  intros Hr. unfold ProjectService.checkPermission.
  apply checkPermission_permitted. rewrite Hr.
  unfold permitted. destruct action; simpl; auto.
Qed.

(** X9.  Only a FOUNDER may create a project: any other role gets
    Forbidden and nothing is written.  With no failing collaborator and a
    generated id that no project has, the project is stored in the
    caller's tenant with the caller as owner, not deleted, and
    [findOne] with its id gives it back to the caller. *)
Theorem created_project_belongs_to_its_creator context data w :
  (role context <> FOUNDER ->
   exists msg,
     ProjectService.create context data w = (w, inl (ForbiddenException msg)))
  /\
  (faults w = [] -> role context = FOUNDER ->
   (forall p, In p (projects (db w)) -> prj_id p <> entropy w (drawn w)) ->
   let new := projectFor context data w in
   let w1 := withProject new w in
   ProjectService.create context data w = (w1, inr new)
   /\ prj_accountId new = tenantId context
   /\ prj_ownerId new = userId context
   /\ projects (db w1) = projects (db w) ++ [new]
   /\ exists pd, ProjectService.findOne context (prj_id new) w1 = (w1, inr pd)
                 /\ ProjectService.pd_project pd = new).
Proof.
  split.
  - intros Hr.
    destruct (project_not_founder_denied context create_ w (or_introl eq_refl) Hr)
      as [msg Hdenied].
    exists msg. unfold ProjectService.create.
    now rewrite (bind_err _ _ _ _ _ Hdenied).
  - intros Hc Hr Hnew new w1.
    assert (Hclash : existsb (fun old => prj_id old =? prj_id new)
                             (projects (db w)) = false).
    { clear - Hnew. induction (projects (db w)) as [|a l IH]; simpl;
        [reflexivity|].
      rewrite (proj2 (String.eqb_neq _ _) (Hnew a (or_introl eq_refl))). simpl.
      apply IH. intros; apply Hnew; now right. }
    split; [|split; [reflexivity|split; [reflexivity|split; [reflexivity|]]]].
    + unfold ProjectService.create.
      rewrite (bind_ok _ _ _ _ _ (project_founder_permitted context create_ w Hr)).
      unfold ProjectService.project_create, bind, randomUUID, newDate, create,
        extcall. simpl. rewrite Hc. simpl in Hclash. rewrite Hclash.
      reflexivity.
    + rewrite project_findOne_calm by exact Hc.
      assert (Hfind : find (fun p => (prj_id p =? prj_id new)
                              && ProjectService.buildRoleScopedWhere context
                                   (db w1) p)
                           (projects (db w1)) = Some new).
      { unfold w1, withProject. simpl. rewrite find_app_r.
        - simpl. rewrite String.eqb_refl. simpl.
          unfold ProjectService.buildRoleScopedWhere,
            ProjectService.buildTenantWhere, BaseService.buildTenantWhere.
          simpl. now rewrite Hr, String.eqb_refl.
        - apply find_absent. intros p Hin.
          now rewrite (proj2 (String.eqb_neq _ _) (Hnew p Hin)). }
      rewrite Hfind. eexists. split; reflexivity.
Qed.

(** Witness: tom may not create a project; ada creates one and reads it. *)
Lemma created_project_belongs_to_its_creator_witness :
  let data := {| ProjectService.cp_name := "Kite";
                 ProjectService.cp_description := None |} in
  (exists msg, ProjectService.create (contextOf tom) data (world baseDB 0)
               = (world baseDB 0, inl (ForbiddenException msg)))
  /\ ProjectService.create (contextOf ada) data (world baseDB 0)
     = (withProject (projectFor (contextOf ada) data (world baseDB 0))
          (world baseDB 0),
        inr (projectFor (contextOf ada) data (world baseDB 0))).
Proof.
  intros data. split.
  - apply (proj1 (created_project_belongs_to_its_creator (contextOf tom) data
                    (world baseDB 0))). discriminate.
  - apply (proj2 (created_project_belongs_to_its_creator (contextOf ada) data
                    (world baseDB 0)) eq_refl eq_refl).
    simpl. intros p [<-|[<-|[<-|[]]]]; discriminate.
Defined.

Lemma addMember_calm context projectId uid w p :
  faults w = [] -> role context = FOUNDER ->
  In p (projects (db w)) -> prj_id p = projectId ->
  prj_accountId p = tenantId context ->
  ProjectService.addMember context projectId uid w
  = (withMember projectId uid w, inr tt).
Proof.
  intros Hc Hr Hin Hid Hacc.
  unfold ProjectService.addMember. rewrite Hr. simpl.
  rewrite (bind_ok _ _ _ _ _ (findFirst_calm project_tb _ w Hc)).
  destruct (find_found
              (fun p => (prj_id p =? projectId)
                        && ProjectService.buildTenantWhere context p)
              _ p Hin) as [p' Hf].
  { unfold ProjectService.buildTenantWhere, BaseService.buildTenantWhere.
    simpl. now rewrite Hid, Hacc, !String.eqb_refl. }
  simpl in *. rewrite Hf.
  unfold ProjectService.projectMember_create.
  erewrite bind_ok; [reflexivity|].
  rewrite create_calm; trivial.
  simpl. induction (projectMembers (db w)); simpl; auto.
Qed.

Lemma filter_twice {A} (f : A -> bool) l :
  filter f (filter f l) = filter f l.
Proof.
  induction l as [|a l IH]; simpl; [reflexivity|].
  destruct (f a) eqn:Ha; simpl; [rewrite Ha; now f_equal|exact IH].
Qed.

Lemma removeMember_calm context projectId uid w :
  faults w = [] -> role context = FOUNDER ->
  ProjectService.removeMember context projectId uid w
  = (withoutMember projectId uid w, inr tt).
Proof.
  intros Hc Hr. unfold ProjectService.removeMember. rewrite Hr. simpl.
  unfold bind, deleteMany, extcall. now rewrite Hc.
Qed.

(** X10.  [removeMember] is for founders: any other role gets an Error and
    nothing changes.  With no failing collaborator a founder's call
    removes exactly the membership rows of the pair (project id, user id),
    without looking the project up (the pair may belong to a project of
    any tenant), and a second call changes nothing more. *)
Theorem removeMember_removes_the_pair context projectId uid w :
  (role context <> FOUNDER ->
   ProjectService.removeMember context projectId uid w
   = (w, inl (Error "Only FOUNDERs can remove project members")))
  /\
  (faults w = [] -> role context = FOUNDER ->
   let w1 := withoutMember projectId uid w in
   ProjectService.removeMember context projectId uid w = (w1, inr tt)
   /\ (forall m, In m (projectMembers (db w1))
                 <-> In m (projectMembers (db w))
                     /\ ~ (pm_projectId m = projectId /\ pm_userId m = uid))
   /\ projects (db w1) = projects (db w)
   /\ ProjectService.removeMember context projectId uid w1 = (w1, inr tt)).
Proof.
  split.
  - intros Hr. unfold ProjectService.removeMember.
    destruct (Role_eqb (role context) FOUNDER) eqn:Heq; [|reflexivity].
    apply Role_eqb_eq in Heq. contradiction.
  - intros Hc Hr w1.
    split; [now apply removeMember_calm|].
    split; [|split; [reflexivity|]].
    + intros m. unfold w1, withoutMember. simpl. rewrite filter_In.
      rewrite negb_true_iff, andb_false_iff, !String.eqb_neq.
      destruct (string_dec (pm_projectId m) projectId);
        destruct (string_dec (pm_userId m) uid); tauto.
    + rewrite removeMember_calm by assumption.
      unfold w1, withoutMember. simpl.
      now rewrite filter_twice.
Qed.

(** Witness: gus, founder of globex, removes mia's membership of acme's
    project p-1. *)
Lemma removeMember_removes_the_pair_witness :
  ProjectService.removeMember (contextOf gus) "p-1" "u-mia" (world baseDB 0)
  = (withoutMember "p-1" "u-mia" (world baseDB 0), inr tt)
  /\ projectMembers (db (withoutMember "p-1" "u-mia" (world baseDB 0))) = []
  /\ ProjectService.removeMember (contextOf tom) "p-1" "u-mia" (world baseDB 0)
     = (world baseDB 0, inl (Error "Only FOUNDERs can remove project members")).
Proof.
  split; [|split].
  - apply (proj2 (removeMember_removes_the_pair (contextOf gus) "p-1" "u-mia"
                    (world baseDB 0)) eq_refl eq_refl).
  - reflexivity.
  - apply (proj1 (removeMember_removes_the_pair (contextOf tom) "p-1" "u-mia"
                    (world baseDB 0))). discriminate.
Defined.

(** X11.  Membership decides what a MEMBER sees.  With no failing
    collaborator, once a founder has added a member of the tenant to a
    live project of the tenant, [findOne] gives that member a project of
    that id; once the founder has removed the member again, [findOne]
    fails for the member. *)
Theorem membership_opens_and_closes_a_project founder member projectId w p :
  faults w = [] -> role founder = FOUNDER -> role member = MEMBER ->
  tenantId member = tenantId founder ->
  In p (projects (db w)) -> prj_id p = projectId ->
  prj_accountId p = tenantId founder -> prj_deletedAt p = None ->
  let w1 := withMember projectId (userId member) w in
  let w2 := withoutMember projectId (userId member) w1 in
  ProjectService.addMember founder projectId (userId member) w = (w1, inr tt)
  /\ (exists pd, ProjectService.findOne member projectId w1 = (w1, inr pd)
                 /\ prj_id (ProjectService.pd_project pd) = projectId)
  /\ ProjectService.removeMember founder projectId (userId member) w1
     = (w2, inr tt)
  /\ (exists e, ProjectService.findOne member projectId w2 = (w2, inl e)).
Proof.
  intros Hc Hf Hm Hten Hin Hid Hacc Hlive w1 w2.
  split; [now apply addMember_calm with p|].
  split; [|split; [now apply removeMember_calm|]].
  - destruct (project_findOne_visible member projectId w1 p)
      as (pd & Hrun & _ & Hpid & _); trivial.
    + split; [congruence|]. split; [assumption|]. intros _.
      exists {| pm_projectId := projectId; pm_userId := userId member |}.
      unfold w1, withMember. simpl. split; [|split; [congruence|reflexivity]].
      apply in_or_app. right. now left.
    + eauto.
  - apply project_findOne_hidden; [exact Hc|].
    intros q Hq Hqid (_ & _ & Hmem).
    destruct (Hmem Hm) as (m & Hmin & Hmp & Hmu).
    unfold w2, withoutMember in Hmin. simpl in Hmin.
    apply filter_In in Hmin as [_ Hkeep].
    rewrite Hmp, Hmu, Hqid, !String.eqb_refl in Hkeep. discriminate.
Qed.

(** Witness: ada adds mia to p-2, which mia could not see, and removes her
    again. *)
Lemma membership_opens_and_closes_a_project_witness :
  (exists e, ProjectService.findOne (contextOf mia) "p-2" (world baseDB 0)
             = (world baseDB 0, inl e))
  /\ (exists pd, ProjectService.findOne (contextOf mia) "p-2"
                   (withMember "p-2" "u-mia" (world baseDB 0))
                 = (withMember "p-2" "u-mia" (world baseDB 0), inr pd)
                 /\ prj_id (ProjectService.pd_project pd) = "p-2").
Proof.
  split; [eexists; reflexivity|].
  apply (membership_opens_and_closes_a_project (contextOf ada) (contextOf mia)
           "p-2" (world baseDB 0) p2 eq_refl eq_refl eq_refl eq_refl).
  - simpl. auto.
  - reflexivity.
  - reflexivity.
  - reflexivity.
Defined.

Lemma softDeleted_rows id w q :
  In q (projects (db (softDeleted id w))) -> prj_id q = id ->
  prj_deletedAt q = Some (clock w).
Proof.
  unfold softDeleted. simpl. intros Hin Hid.
  apply in_map_iff in Hin as (x & <- & Hx).
  destruct (String.eqb_spec (prj_id x) id) as [|Hne]; [reflexivity|].
  contradiction.
Qed.

Lemma softDeleted_hidden anyone id w t q :
  In q (projects (db (with_clock t (softDeleted id w)))) -> prj_id q = id ->
  ~ visible anyone (db (with_clock t (softDeleted id w))) q.
Proof.
  intros Hin Hid (_ & Hlive & _).
  rewrite (softDeleted_rows id w q Hin Hid) in Hlive. discriminate.
Qed.

(** X12.  Deleting a project is a soft delete for founders only: any other
    role gets Forbidden and nothing changes.  With no failing collaborator
    a founder's [softDelete] of a live project of the tenant stamps the
    rows of that id with the current time and removes none; from then on
    [findOne] fails for every caller, [findAll] lists no project of that
    id (it answers for every natural [skip] and [take], and whatever
    [skip] and [take] are an answer holds no project of that id), and a
    second [softDelete] fails and changes nothing. *)
Theorem softDelete_hides_the_project_and_keeps_the_row context id w p :
  (role context <> FOUNDER ->
   exists msg,
     ProjectService.softDelete context id w = (w, inl (ForbiddenException msg)))
  /\
  (faults w = [] -> role context = FOUNDER ->
   In p (projects (db w)) -> prj_id p = id ->
   prj_accountId p = tenantId context -> prj_deletedAt p = None ->
   let w1 := softDeleted id w in
   (exists r, ProjectService.softDelete context id w = (w1, inr r)
              /\ prj_deletedAt r = Some (clock w))
   /\ length (projects (db w1)) = length (projects (db w))
   /\ In (ProjectService.setDeletedAt (clock w) p) (projects (db w1))
   /\ (forall anyone t,
         exists e, ProjectService.findOne anyone id (with_clock t w1)
                   = (with_clock t w1, inl e))
   /\ (forall anyone options t s k,
         BaseService.skipOr options = Int (Z.of_nat s) ->
         BaseService.takeOr options = Int (Z.of_nat k) ->
         exists resp,
           ProjectService.findAll anyone options (with_clock t w1)
           = (with_clock t w1, inr resp)
           /\ forall x, In x (map ProjectService.pwo_project (data resp)) ->
                        prj_id x <> id)
   /\ (forall anyone options t w' resp,
         ProjectService.findAll anyone options (with_clock t w1)
         = (w', inr resp) ->
         forall x, In x (map ProjectService.pwo_project (data resp)) ->
                   prj_id x <> id)
   /\ (exists e, ProjectService.softDelete context id w1 = (w1, inl e))).
Proof.
  split.
  - intros Hr.
    destruct (project_not_founder_denied context delete_ w
                (or_intror (or_intror eq_refl)) Hr) as [msg Hdenied].
    exists msg. unfold ProjectService.softDelete, BaseService.softDelete.
    now rewrite (bind_err _ _ _ _ _ Hdenied).
  - intros Hc Hr Hin Hid Hacc Hlive w1.
    assert (Hvis : visible context (db w) p).
    { split; [exact Hacc|]. split; [exact Hlive|]. intros Hm. congruence. }
    assert (Hnone : forall anyone options t w' resp,
              ProjectService.findAll anyone options (with_clock t w1)
              = (w', inr resp) ->
              forall x, In x (map ProjectService.pwo_project (data resp)) ->
                        prj_id x <> id).
    { intros anyone options t w' resp Hrun x Hx Hxid.
      destruct (project_findAll_sound anyone options (with_clock t w1) w' resp
                  Hc Hrun) as (_ & Hsound & _).
      destruct (Hsound x Hx) as [Hstored Hs].
      exact (softDeleted_hidden anyone id w t x Hstored Hxid Hs). }
    split; [|split; [|split; [|split; [|split; [|split]]]]].
    + destruct (project_findOne_visible context id w p Hc Hin Hid Hvis)
        as (pd & Hfound & _).
      destruct (find_found (fun r => prj_id r =? id) _ p Hin) as [r Hfr];
        [now rewrite Hid, String.eqb_refl|].
      exists (ProjectService.setDeletedAt (clock w) r). split; [|reflexivity].
      unfold ProjectService.softDelete, BaseService.softDelete.
      fold (ProjectService.checkPermission context delete_).
      rewrite (bind_ok _ _ _ _ _ (project_founder_permitted context delete_ w Hr)).
      rewrite (bind_ok _ _ _ _ _ Hfound).
      unfold bind, newDate. simpl.
      now rewrite (update_calm project_tb _ _ w r Hc Hfr).
    + unfold w1, softDeleted. simpl. apply length_map.
    + unfold w1, softDeleted. simpl.
      apply (in_map (fun q => if prj_id q =? id
                              then ProjectService.setDeletedAt (clock w) q
                              else q)) in Hin.
      now rewrite Hid, String.eqb_refl in Hin.
    + intros anyone t. apply project_findOne_hidden; [exact Hc|].
      intros q Hq Hqid. now apply softDeleted_hidden.
    + intros anyone options t s k Hs Hk.
      destruct (project_findAll_natural anyone options (with_clock t w1) s k
                  Hc Hs Hk) as (resp & Hrun & _).
      exists resp. split; [exact Hrun|].
      now apply (Hnone anyone options t (with_clock t w1)).
    + exact Hnone.
    + destruct (project_findOne_hidden context id w1 Hc) as [e He].
      { intros q Hq Hqid. apply (softDeleted_hidden context id w (clock w) q);
          trivial. }
      exists e. unfold ProjectService.softDelete, BaseService.softDelete.
      fold (ProjectService.checkPermission context delete_).
      rewrite (bind_ok _ _ _ _ _ (project_founder_permitted context delete_ w1 Hr)).
      now rewrite (bind_err _ _ _ _ _ He).
Qed.

(** Witness: ada deletes p-2; tom, who saw two projects, sees p-1 only,
    and the row of p-2 is still stored. *)
Lemma softDelete_hides_the_project_and_keeps_the_row_witness :
  let w1 := softDeleted "p-2" (world baseDB 50) in
  (exists r, ProjectService.softDelete (contextOf ada) "p-2" (world baseDB 50)
             = (w1, inr r))
  /\ length (projects (db w1)) = 3
  /\ (exists e, ProjectService.findOne (contextOf tom) "p-2" w1 = (w1, inl e)).
Proof.
  intros w1.
  destruct (proj2 (softDelete_hides_the_project_and_keeps_the_row
                     (contextOf ada) "p-2" (world baseDB 50) p2)
              eq_refl eq_refl (or_intror (or_introl eq_refl)) eq_refl eq_refl
              eq_refl) as ((r & Hrun & _) & Hlen & _ & Hone & _).
  split; [now exists r|]. split; [exact Hlen|].
  exact (Hone (contextOf tom) 50%Z).
Defined.

End ProjectLife.

(* ===================================================================== *)
(** ** The inherited operations of the base service *)
(* ===================================================================== *)

Lemma NoDup_map_injective {A B} (f : A -> B) l a b :
  NoDup (map f l) -> In a l -> In b l -> f a = f b -> a = b.
Proof.
  induction l as [|x l IH]; simpl; [tauto|].
  intros Hnd [->|Ha] [->|Hb] Heq; trivial; inversion_clear Hnd as [|? ? Hx Hl].
  - exfalso. apply Hx. rewrite Heq. now apply in_map.
  - exfalso. apply Hx. rewrite <- Heq. now apply in_map.
  - now apply IH.
Qed.

Section BaseDelete.
Context {T : Type} `{TenantModel T}.
Variable modelName : string.
Variable custom : PermissionConfig.
(** The delegate of the model stores what it is given. *)
Hypothesis delegate_stores :
  forall l d, rows delegate (with_rows delegate l d) = l.

Lemma rowsDeleted_rows id w x :
  In x (rows delegate (db (rowsDeleted id w)))
  <-> In x (rows delegate (db w)) /\ id_of x <> id.
Proof.
  unfold rowsDeleted. simpl. rewrite delegate_stores.
  now rewrite filter_In, negb_true_iff, String.eqb_neq.
Qed.

(** X13.  [delete] of a service that inherits [findOne]: a role without
    the delete permission, or without the findOne permission, gets
    Forbidden and nothing changes.  With no failing collaborator and a
    role permitted both, an id with no row in the caller's tenant gets
    NotFound and nothing is deleted; otherwise the call answers with a
    stored row of that id, and the rows stored afterwards are exactly the
    rows stored before that have another id.  When ids are unique the row
    answered is the row of the caller's tenant, and it alone is gone:
    every other row, of this tenant or another, stays. *)
Theorem inherited_delete_removes_only_the_tenants_row context id w :
  (~ permitted custom delete_ (role context) ->
   exists msg,
     inheritedDelete modelName custom context id w
     = (w, inl (ForbiddenException msg)))
  /\
  (permitted custom delete_ (role context) ->
   ~ permitted custom findOne_ (role context) ->
   exists msg,
     inheritedDelete modelName custom context id w
     = (w, inl (ForbiddenException msg)))
  /\
  (faults w = [] ->
   permitted custom delete_ (role context) ->
   permitted custom findOne_ (role context) ->
   ((forall r, In r (rows delegate (db w)) -> id_of r = id ->
               accountId_of r <> tenantId context) ->
    inheritedDelete modelName custom context id w
    = (w, inl (NotFoundException
                 (modelName ++ " with ID " ++ id ++ " not found"))))
   /\
   (forall r0, In r0 (rows delegate (db w)) -> id_of r0 = id ->
               accountId_of r0 = tenantId context ->
    exists w' r,
      inheritedDelete modelName custom context id w = (w', inr r)
      /\ In r (rows delegate (db w)) /\ id_of r = id
      /\ (forall x, In x (rows delegate (db w'))
                    <-> In x (rows delegate (db w)) /\ id_of x <> id)
      /\ (NoDup (map id_of (rows delegate (db w))) ->
          r = r0
          /\ forall x, In x (rows delegate (db w'))
                       <-> In x (rows delegate (db w)) /\ x <> r0))).
Proof.
  split; [|split].
  - intros Hno. eexists. unfold inheritedDelete, BaseService.delete.
    now rewrite (bind_err _ _ _ _ _
                   (checkPermission_denied modelName custom context delete_ w Hno)).
  - intros Hdel Hno.
    destruct (base_findOne_denied modelName custom context id w Hno)
      as [msg Hdenied].
    exists msg. unfold inheritedDelete, BaseService.delete.
    rewrite (bind_ok _ _ _ _ _
               (checkPermission_permitted modelName custom context delete_ w Hdel)).
    now rewrite (bind_err _ _ _ _ _ Hdenied).
  - intros Hc Hdel Hone. split.
    + intros Hnone. unfold inheritedDelete, BaseService.delete.
      rewrite (bind_ok _ _ _ _ _
                 (checkPermission_permitted modelName custom context delete_ w Hdel)).
      now rewrite (bind_err _ _ _ _ _
                     (base_findOne_missing modelName custom context id w Hc Hone
                        Hnone)).
    + intros r0 Hin Hid Hacc.
      destruct (base_findOne_present modelName custom context id w r0 Hc Hone
                  Hin Hid Hacc) as (r1 & Hfound & _).
      destruct (find_found (fun r => id_of r =? id) _ r0 Hin) as [r Hfr];
        [now rewrite Hid, String.eqb_refl|].
      pose proof (find_some _ _ Hfr) as [Hrin Hrid].
      apply String.eqb_eq in Hrid.
      exists (rowsDeleted id w), r.
      split; [|split; [exact Hrin|split; [exact Hrid|split]]].
      * unfold inheritedDelete, BaseService.delete.
        rewrite (bind_ok _ _ _ _ _
                   (checkPermission_permitted modelName custom context
                      delete_ w Hdel)).
        rewrite (bind_ok _ _ _ _ _ Hfound).
        unfold delete, extcall. now rewrite Hc, Hfr.
      * intros x. apply rowsDeleted_rows.
      * intros Hnd.
        assert (Hsame : forall x, In x (rows delegate (db w)) ->
                                  id_of x = id -> x = r0).
        { intros x Hx Hxid.
          apply (NoDup_map_injective id_of _ x r0 Hnd Hx Hin). congruence. }
        split; [now apply Hsame|].
        intros x. rewrite rowsDeleted_rows. split.
        -- intros [Hx Hne]. split; [exact Hx|]. intros ->. contradiction.
        -- intros [Hx Hne]. split; [exact Hx|]. intros Hxid. apply Hne.
           now apply Hsame.
Qed.

End BaseDelete.

Section BaseDeleteExample.
Import Sample.

(** Witness: with the default permissions tom, a TESTER of acme, deletes
    p-1, after which p-2 and globex's p-3 are stored; p-3 is not found
    for him. *)
Lemma inherited_delete_removes_only_the_tenants_row_witness :
  inheritedDelete "project" noCustom (contextOf tom) "p-3" (world baseDB 0)
  = (world baseDB 0, inl (NotFoundException "project with ID p-3 not found"))
  /\ (exists w' r, inheritedDelete "project" noCustom (contextOf tom) "p-1"
                     (world baseDB 0)
                   = (w', inr r)
                   /\ r = p1
                   /\ forall x, In x (projects (db w')) <-> x = p2 \/ x = p3).
Proof.
  assert (Hperm : forall a, permitted noCustom a (role (contextOf tom))).
  { intros a. unfold permitted. destruct a; simpl; auto. }
  pose proof (fun id =>
    proj2 (proj2 (inherited_delete_removes_only_the_tenants_row "project"
                    noCustom (fun l d => eq_refl) (contextOf tom) id
                    (world baseDB 0)))
          eq_refl (Hperm delete_) (Hperm findOne_)) as Hcalm.
  split.
  - apply (proj1 (Hcalm "p-3")). simpl.
    intros r [<-|[<-|[<-|[]]]]; simpl; discriminate.
  - destruct (proj2 (Hcalm "p-1") p1 (or_introl eq_refl) eq_refl eq_refl)
      as (w' & r & Hrun & _ & _ & _ & Huniq).
    destruct Huniq as [Hr Hrows].
    { simpl. repeat constructor; simpl; intuition discriminate. }
    exists w', r. split; [exact Hrun|]. split; [exact Hr|].
    intros x. rewrite Hrows. simpl. split.
    + intros [[Hx|[Hx|[Hx|[]]]] Hne]; auto. now destruct Hne.
    + intros [->| ->]; split; auto; discriminate.
Defined.

End BaseDeleteExample.

Lemma firstn_then_next {A} (t t' : nat) (l : list A) :
  firstn t l ++ firstn t' (skipn t l) = firstn (t + t') l.
Proof.
  revert l. induction t as [|t IH]; intros [|a l]; simpl;
    try reflexivity.
  - now rewrite firstn_nil.
  - now rewrite IH.
Qed.

Lemma pages_concatenate {A} (s t t' : nat) (l : list A) :
  firstn t (skipn s l) ++ firstn t' (skipn (s + t) l)
  = firstn (t + t') (skipn s l).
Proof.
  rewrite (Nat.add_comm s t), <- skipn_skipn. apply firstn_then_next.
Qed.

Lemma window_refused {T} skip take (l : list T) :
  skip = NaN \/ take = NaN \/ (exists z, skip = Int z /\ (z < 0)%Z) ->
  exists e, window skip take l = inl e.
Proof.
  unfold window. intros [->|[->|(z & -> & Hz)]].
  - eauto.
  - destruct skip; eauto.
  - destruct take; [eauto|].
    rewrite (proj2 (Z.ltb_lt _ _) Hz). eauto.
Qed.

Section BaseFindAll.
Context {T : Type} `{TenantModel T}.
Variable modelName : string.
Variable custom : PermissionConfig.

Lemma base_findAll_calm context options w :
  faults w = [] ->
  permitted custom findAll_ (role context) ->
  let matching := filter (BaseService.buildTenantWhere context)
                         (rows delegate (db w)) in
  BaseService.findAll modelName custom context options w
  = (w,
     match window (BaseService.skipOr options) (BaseService.takeOr options)
                  (sortBy (BaseService.orderByOr options) matching) with
     | inl e => inl e
     | inr page =>
         inr {| data := page;
                meta := {| total := length matching;
                           meta_skip := BaseService.skipOr options;
                           meta_take := BaseService.takeOr options;
                           hasMore := sumBelow (BaseService.skipOr options)
                                               (BaseService.takeOr options)
                                               (length matching) |} |}
     end).
Proof.
  intros Hc Hperm matching. unfold BaseService.findAll.
  rewrite (bind_ok _ _ _ _ _
             (checkPermission_permitted modelName custom context findAll_ w
                Hperm)).
  unfold findMany, countRel, bind, extcall, ret. rewrite Hc. fold matching.
  destruct (window _ _ _) as [e|page]; [reflexivity|]. now rewrite Hc.
Qed.

(** X14.  The pages of [BaseService.findAll].  A role without the findAll
    permission gets Forbidden.  With no failing collaborator and a
    permitted role: whatever [skip] and [take] are, an answer holds rows
    of the caller's tenant only and [total] is the number of the tenant's
    rows; a [skip] or [take] that is NaN, and a negative [skip], make the
    call fail.  With natural numbers for both, the call answers with at
    most [take] rows; a page with [hasMore] holds exactly [take] rows, and
    a page without it that starts within the total ends at the total; and
    two consecutive pages in one order, put together, are the page of
    their joint length.  With a negative [take] the call answers and
    [hasMore] only compares [skip + take] with the total: it is true, for
    one, whenever [skip] is within the total. *)
Theorem base_findAll_pages_through_the_tenants_rows context w :
  (~ permitted custom findAll_ (role context) ->
   forall options,
   exists msg,
     BaseService.findAll modelName custom context options w
     = (w, inl (ForbiddenException msg)))
  /\
  (faults w = [] -> permitted custom findAll_ (role context) ->
   (forall options w' resp,
      BaseService.findAll modelName custom context options w = (w', inr resp) ->
      w' = w
      /\ (forall r, In r (data resp) ->
                    In r (rows delegate (db w))
                    /\ accountId_of r = tenantId context)
      /\ total (meta resp)
         = length (filter (BaseService.buildTenantWhere context)
                          (rows delegate (db w))))
   /\
   (forall options,
      BaseService.skipOr options = NaN \/ BaseService.takeOr options = NaN
      \/ (exists z, BaseService.skipOr options = Int z /\ (z < 0)%Z) ->
      exists e,
        BaseService.findAll modelName custom context options w = (w, inl e))
   /\
   (forall options s t,
      BaseService.skipOr options = Int (Z.of_nat s) ->
      BaseService.takeOr options = Int (Z.of_nat t) ->
      exists resp,
        BaseService.findAll modelName custom context options w = (w, inr resp)
        /\ length (data resp) <= t
        /\ (hasMore (meta resp) = true -> length (data resp) = t)
        /\ (hasMore (meta resp) = false -> s <= total (meta resp) ->
            s + length (data resp) = total (meta resp)))
   /\
   (forall options s k,
      BaseService.skipOr options = Int (Z.of_nat s) ->
      BaseService.takeOr options = Int (- Z.of_nat (S k)) ->
      exists resp,
        BaseService.findAll modelName custom context options w = (w, inr resp)
        /\ (hasMore (meta resp) = true <-> s < total (meta resp) + S k))
   /\
   (forall orderBy skip take take' r1 r2 r12,
      BaseService.findAll modelName custom context
        {| po_skip := Some (Int (Z.of_nat skip));
           po_take := Some (Int (Z.of_nat take)); po_orderBy := orderBy |} w
      = (w, inr r1) ->
      BaseService.findAll modelName custom context
        {| po_skip := Some (Int (Z.of_nat (skip + take)));
           po_take := Some (Int (Z.of_nat take'));
           po_orderBy := orderBy |} w
      = (w, inr r2) ->
      BaseService.findAll modelName custom context
        {| po_skip := Some (Int (Z.of_nat skip));
           po_take := Some (Int (Z.of_nat (take + take')));
           po_orderBy := orderBy |} w
      = (w, inr r12) ->
      data r1 ++ data r2 = data r12)).
Proof.
  split.
  - intros Hno options. eexists. unfold BaseService.findAll.
    now rewrite (bind_err _ _ _ _ _
                   (checkPermission_denied modelName custom context findAll_ w
                      Hno)).
  - intros Hc Hperm. split; [|split; [|split; [|split]]].
    + intros options w' resp Hrun.
      rewrite base_findAll_calm in Hrun by assumption.
      destruct (window _ _ _) as [e|page] eqn:Hwin; [discriminate|].
      injection Hrun as <- <-. simpl.
      split; [reflexivity|]. split; [|reflexivity].
      intros r Hin. apply (window_In _ _ _ _ _ Hwin) in Hin.
      apply (proj1 (In_sortBy _ _ _)) in Hin.
      apply filter_In in Hin as [Hin Hten]. split; [exact Hin|].
      now apply String.eqb_eq.
    + intros options Hbad. rewrite base_findAll_calm by assumption.
      destruct (window_refused _ _
                  (sortBy (BaseService.orderByOr options)
                     (filter (BaseService.buildTenantWhere context)
                             (rows delegate (db w)))) Hbad) as [e ->].
      now exists e.
    + intros options s t Hs Ht. rewrite base_findAll_calm by assumption.
      rewrite Hs, Ht, window_natural. eexists. split; [reflexivity|].
      simpl. rewrite length_firstn, length_skipn, length_sortBy.
      split; [lia|]. split.
      * intros Hmore. apply Z.ltb_lt in Hmore. lia.
      * intros Hend. apply Z.ltb_ge in Hend. lia.
    + intros options s k Hs Hk. rewrite base_findAll_calm by assumption.
      rewrite Hs, Hk. unfold window.
      rewrite (proj2 (Z.ltb_ge _ _) (Nat2Z.is_nonneg s)).
      assert (Hneg : (0 <=? - Z.of_nat (S k))%Z = false).
      { apply Z.leb_gt. lia. }
      rewrite Hneg. eexists. split; [reflexivity|].
      cbn [hasMore meta total]. unfold sumBelow. rewrite Z.ltb_lt. lia.
    + intros orderBy skip take take' r1 r2 r12 H1 H2 H12.
      rewrite base_findAll_calm in H1, H2, H12 by assumption.
      cbn [BaseService.skipOr BaseService.takeOr po_skip po_take]
        in H1, H2, H12.
      rewrite window_natural in H1, H2, H12.
      injection H1 as <-. injection H2 as <-. injection H12 as <-.
      simpl. apply pages_concatenate.
Qed.

End BaseFindAll.

Section BaseFindAllExample.
Import Sample.

(** Witness: tom pages through acme's two projects one at a time; with
    [take] at -1 he is told there is more although the page is the last
    of the rows; mia, a MEMBER, is not permitted by the default table. *)
Lemma base_findAll_pages_through_the_tenants_rows_witness :
  (exists resp,
     BaseService.findAll "project" noCustom (contextOf tom)
       {| po_skip := Some (Int 0); po_take := Some (Int 1);
          po_orderBy := None |}
       (world baseDB 0)
     = (world baseDB 0, inr resp)
     /\ data resp = [p2] /\ hasMore (meta resp) = true)
  /\ (exists resp,
        BaseService.findAll "project" noCustom (contextOf tom)
          {| po_skip := Some (Int 0); po_take := Some (Int (-1));
             po_orderBy := None |}
          (world baseDB 0)
        = (world baseDB 0, inr resp)
        /\ data resp = [p1] /\ hasMore (meta resp) = true)
  /\ (exists msg,
        BaseService.findAll "project" noCustom (contextOf mia) firstPage
          (world baseDB 0)
        = (world baseDB 0, inl (ForbiddenException msg))).
Proof.
  assert (Hperm : permitted noCustom findAll_ (role (contextOf tom))).
  { unfold permitted. simpl. auto. }
  pose proof (proj2 (base_findAll_pages_through_the_tenants_rows
                       "project" noCustom (contextOf tom) (world baseDB 0))
                eq_refl Hperm) as (_ & _ & Hnat & Hneg & _).
  split; [|split].
  - destruct (Hnat {| po_skip := Some (Int 0); po_take := Some (Int 1);
                      po_orderBy := None |} 0 1 eq_refl eq_refl)
      as (resp & Hrun & _).
    exists resp. split; [exact Hrun|].
    vm_compute in Hrun. injection Hrun as <-. split; reflexivity.
  - destruct (Hneg {| po_skip := Some (Int 0); po_take := Some (Int (-1));
                      po_orderBy := None |} 0 0 eq_refl eq_refl)
      as (resp & Hrun & _).
    exists resp. split; [exact Hrun|].
    vm_compute in Hrun. injection Hrun as <-. split; reflexivity.
  - apply (proj1 (base_findAll_pages_through_the_tenants_rows
                    "project" noCustom (contextOf mia) (world baseDB 0))).
    unfold permitted. simpl. intros [Hx|Hx]; discriminate.
Defined.

End BaseFindAllExample.

Lemma StronglySorted_weaken {A} (R R' : A -> A -> Prop) l :
  (forall a b, R a b -> R' a b) ->
  StronglySorted R l -> StronglySorted R' l.
Proof.
  intros Himp. induction 1 as [|a l Hl IH Ha]; constructor; trivial.
  rewrite Forall_forall in *. auto.
Qed.

Section SortedFacts.
Context {T : Type} (le : T -> T -> bool).
Hypothesis le_total : forall a b, le a b = true \/ le b a = true.
Hypothesis le_trans : forall a b c, le a b = true -> le b c = true -> le a c = true.

Lemma insertBy_sorted x l :
  StronglySorted (fun a b => le a b = true) l ->
  StronglySorted (fun a b => le a b = true) (insertBy le x l).
Proof.
  induction 1 as [|y t Ht IH Hy]; simpl.
  - constructor; constructor.
  - destruct (le x y) eqn:Hxy.
    + constructor; [now constructor|].
      constructor; [exact Hxy|].
      rewrite Forall_forall in *. intros z Hz. eapply le_trans; eauto.
    + constructor; [exact IH|].
      rewrite Forall_forall in *. intros z Hz.
      apply In_insertBy in Hz as [->|Hz]; [|now apply Hy].
      destruct (le_total x y); congruence.
Qed.

Lemma sortBy_sorted l :
  StronglySorted (fun a b => le a b = true) (sortBy le l).
Proof.
  induction l as [|a l IH]; simpl; [constructor|now apply insertBy_sorted].
Qed.

End SortedFacts.

Section MyProjects.
Import Sample.

(** X15.  With no failing collaborator, [findMyProjects] gives every role
    exactly the live projects of the caller's tenant that the caller
    owns, membership rows playing no part, the newest first. *)
Theorem findMyProjects_lists_own_live_projects_newest_first context w :
  faults w = [] ->
  exists mine,
    ProjectService.findMyProjects context w = (w, inr mine)
    /\ (forall p, In p mine
                  <-> In p (projects (db w))
                      /\ prj_accountId p = tenantId context
                      /\ prj_ownerId p = userId context
                      /\ prj_deletedAt p = None)
    /\ StronglySorted (fun a b => (prj_createdAt b <= prj_createdAt a)%Z) mine.
Proof.
  intros Hc. eexists. split; [|split].
  - unfold ProjectService.findMyProjects, ProjectService.checkPermission.
    rewrite (bind_ok _ _ _ _ _
               (checkPermission_permitted _ _ context findAll_ w
                  (project_roles_permitted_to_read _ _ (or_introl eq_refl)))).
    unfold findManyAll, extcall. rewrite Hc. reflexivity.
  - intros p. rewrite In_sortBy, filter_In. simpl.
    unfold ProjectService.buildTenantWhere, BaseService.buildTenantWhere.
    simpl. rewrite !andb_true_iff, !String.eqb_eq, isSet_false. tauto.
  - simpl.
    eapply StronglySorted_weaken;
      [|apply (sortBy_sorted (@BaseService.createdAtDesc Project _))].
    + intros a b Hab. unfold BaseService.createdAtDesc in Hab. simpl in Hab.
      now apply Z.leb_le.
    + intros a b. unfold BaseService.createdAtDesc.
      rewrite !Z.leb_le. lia.
    + intros a b c. unfold BaseService.createdAtDesc.
      rewrite !Z.leb_le. lia.
Qed.

(** Witness: ada owns both projects of acme; the later one comes first. *)
Lemma findMyProjects_lists_own_live_projects_newest_first_witness :
  ProjectService.findMyProjects (contextOf ada) (world baseDB 0)
  = (world baseDB 0, inr [p2; p1]).
Proof.
  destruct (findMyProjects_lists_own_live_projects_newest_first
              (contextOf ada) (world baseDB 0) eq_refl) as (mine & Hrun & _).
  rewrite Hrun. vm_compute in Hrun. injection Hrun as <-. reflexivity.
Defined.

End MyProjects.

(* ===================================================================== *)
(** ** Updating and reading evaluations *)
(* ===================================================================== *)

Section EvaluationLife.
Import EvaluationService Sample.

Lemma updateEvaluation_calm context id data w :
  faults w = [] -> role context = FOUNDER ->
  updateEvaluation context id data w
  = match find (inTenantWithId context id) (evaluations (db w)) with
    | None => (w, inl (NotFoundException "Evaluation not found"))
    | Some _ =>
        match find (fun e => ev_id e =? id) (evaluations (db w)) with
        | Some r => (updated data id w, inr (applyUpdate data r))
        | None => (w, inl (PrismaClientKnownRequestError "P2025"))
        end
    end.
Proof.
  intros Hc Hr. unfold updateEvaluation, EvaluationService.checkFounderPermission.
  rewrite Hr. simpl. unfold bind at 1, ret at 1.
  rewrite (bind_ok _ _ _ _ _ (findFirst_calm evaluation_tb _ w Hc)). simpl.
  destruct (find (inTenantWithId context id) (evaluations (db w))); [|reflexivity].
  unfold update, extcall. rewrite Hc. simpl.
  now destruct (find _ (evaluations (db w))).
Qed.

Lemma updateEvaluation_updates founder id data w e0 :
  faults w = [] -> role founder = FOUNDER ->
  In e0 (evaluations (db w)) -> ev_id e0 = id ->
  ev_accountId e0 = tenantId founder ->
  exists r, updateEvaluation founder id data w = (updated data id w, inr r)
            /\ ev_id r = id.
Proof.
  intros Hc Hr Hin Hid Hacc.
  rewrite updateEvaluation_calm by assumption.
  destruct (find_found (inTenantWithId founder id) _ e0 Hin) as [e1 Hf1].
  { unfold inTenantWithId. now rewrite Hid, Hacc, !String.eqb_refl. }
  destruct (find_found (fun e => ev_id e =? id) _ e0 Hin) as [r Hfr];
    [now rewrite Hid, String.eqb_refl|].
  rewrite Hf1, Hfr. eexists. split; [reflexivity|]. simpl.
  apply find_some in Hfr as [_ Hr']. now apply String.eqb_eq.
Qed.

Lemma applyUpdate_updatedAs data e :
  updatedAs data e (applyUpdate data e).
Proof.
  unfold updatedAs, applyUpdate. simpl.
  repeat split; try (intros t Ht; now rewrite Ht); try (intros Ht; now rewrite Ht).
Qed.

(** X16.  Only a FOUNDER may update an evaluation: any other role gets
    Forbidden before any collaborator is called.  With no failing
    collaborator, an id with no evaluation in the founder's tenant gets
    NotFound and nothing changes.  Otherwise the call answers with an
    updated evaluation of that id; in the store every evaluation of that
    id has, for each of title, description, instructions and status, the
    value the data give or, where they give none, the value it had, with
    its id, tenant, project and creator unchanged; every other evaluation
    is untouched, none is added or removed, and the questions, the
    participations and the responses are as before. *)
Theorem updateEvaluation_is_for_the_tenants_founder context id data w :
  (role context <> FOUNDER ->
   updateEvaluation context id data w
   = (w, inl (ForbiddenException "Only FOUNDERs can update evaluations")))
  /\
  (faults w = [] -> role context = FOUNDER ->
   ((forall e, In e (evaluations (db w)) -> ev_id e = id ->
               ev_accountId e <> tenantId context) ->
    updateEvaluation context id data w
    = (w, inl (NotFoundException "Evaluation not found")))
   /\
   (forall e0, In e0 (evaluations (db w)) -> ev_id e0 = id ->
               ev_accountId e0 = tenantId context ->
    exists w1 r,
      updateEvaluation context id data w = (w1, inr r)
      /\ (exists before, In before (evaluations (db w))
                         /\ ev_id before = id /\ updatedAs data before r)
      /\ Forall2 (fun e e' => (ev_id e = id -> updatedAs data e e')
                              /\ (ev_id e <> id -> e' = e))
                 (evaluations (db w)) (evaluations (db w1))
      /\ questions (db w1) = questions (db w)
      /\ participants (db w1) = participants (db w)
      /\ responses (db w1) = responses (db w))).
Proof.
  split.
  - intros Hr. unfold updateEvaluation, EvaluationService.checkFounderPermission.
    destruct (Role_eqb (role context) FOUNDER) eqn:Heq; [|reflexivity].
    apply Role_eqb_eq in Heq. contradiction.
  - intros Hc Hr. split.
    + intros Hnone. rewrite updateEvaluation_calm by assumption.
      rewrite find_absent; [reflexivity|].
      intros e Hin. unfold inTenantWithId.
      destruct (String.eqb_spec (ev_id e) id) as [Hid|]; [|reflexivity].
      simpl. apply String.eqb_neq. now apply Hnone.
    + intros e0 Hin Hid Hacc.
      destruct (find_found (inTenantWithId context id) _ e0 Hin) as [e1 Hf1].
      { unfold inTenantWithId. now rewrite Hid, Hacc, !String.eqb_refl. }
      destruct (find_found (fun e => ev_id e =? id) _ e0 Hin) as [r0 Hfr];
        [now rewrite Hid, String.eqb_refl|].
      exists (updated data id w), (applyUpdate data r0).
      split; [|split; [|split; [|repeat split]]].
      * rewrite updateEvaluation_calm by assumption. now rewrite Hf1, Hfr.
      * apply find_some in Hfr as [Hr0 Hr0id]. apply String.eqb_eq in Hr0id.
        exists r0. split; [exact Hr0|]. split; [exact Hr0id|].
        apply applyUpdate_updatedAs.
      * unfold updated. simpl. clear.
        induction (evaluations (db w)) as [|e l IH]; simpl; constructor.
        -- destruct (String.eqb_spec (ev_id e) id); split; intros; trivial;
             try contradiction. apply applyUpdate_updatedAs.
        -- exact IH.
Qed.

(** Witness: gus of globex cannot touch acme's survey; ada retitles it;
    tom, a tester, is refused. *)
Lemma updateEvaluation_is_for_the_tenants_founder_witness :
  let data := {| upd_title := Some "Survey 2"; upd_description := None;
                 upd_instructions := None; upd_status := None |} in
  updateEvaluation (contextOf gus) "ev-1" data (world baseDB 0)
  = (world baseDB 0, inl (NotFoundException "Evaluation not found"))
  /\ (exists w1 r,
        updateEvaluation (contextOf ada) "ev-1" data (world baseDB 0)
        = (w1, inr r)
        /\ ev_title r = "Survey 2" /\ ev_status r = EvaluationStatus.ACTIVE
        /\ map ev_title (evaluations (db w1)) = ["Survey 2"; "Draft"])
  /\ updateEvaluation (contextOf tom) "ev-1" data (world baseDB 0)
     = (world baseDB 0,
        inl (ForbiddenException "Only FOUNDERs can update evaluations")).
Proof.
  intros data. split; [|split].
  - apply (proj2 (updateEvaluation_is_for_the_tenants_founder (contextOf gus)
                    "ev-1" data (world baseDB 0)) eq_refl eq_refl).
    simpl. intros e [<-|[<-|[]]]; simpl; discriminate.
  - destruct (proj2 (proj2 (updateEvaluation_is_for_the_tenants_founder
                              (contextOf ada) "ev-1" data (world baseDB 0))
                       eq_refl eq_refl)
                survey (or_introl eq_refl) eq_refl eq_refl)
      as (w1 & r & Hrun & _).
    exists w1, r. split; [exact Hrun|].
    vm_compute in Hrun. injection Hrun as <- <-. repeat split.
  - apply (proj1 (updateEvaluation_is_for_the_tenants_founder (contextOf tom)
                    "ev-1" data (world baseDB 0))). discriminate.
Defined.

Lemma submit_inactive context evaluationId data w p :
  faults w = [] -> role context = TESTER ->
  participationOf (db w) evaluationId (userId context) = Some p ->
  ep_completedAt p = None ->
  find (activeWithId evaluationId) (evaluations (db w)) = None ->
  submitFeedback context evaluationId data w
  = (w, inl (NotFoundException "Active evaluation not found")).
Proof.
  intros Hc Hr Hp Hopen Hev. unfold submitFeedback. rewrite Hr. simpl.
  rewrite (bind_ok _ _ _ _ _ (findUnique_calm evaluationParticipant_tb _ w Hc)).
  unfold participationOf in Hp. simpl. rewrite Hp, Hopen. simpl.
  unfold bind, evaluation_findFirst_include_questions, extcall.
  now rewrite Hc, Hev.
Qed.

(** X17.  Taking an evaluation out of the Active status closes it.  With
    no failing collaborator, once its founder has set the status of an
    evaluation to Draft or Completed, a tester's [joinEvaluation] fails
    with NotFound at any later time, and so does [submitFeedback] of a
    tester whose participation is still open; neither writes anything. *)
Theorem leaving_active_closes_the_evaluation founder id s w e0 :
  faults w = [] -> role founder = FOUNDER ->
  In e0 (evaluations (db w)) -> ev_id e0 = id ->
  ev_accountId e0 = tenantId founder ->
  s <> EvaluationStatus.ACTIVE ->
  let w1 := updated (statusOnly s) id w in
  (exists r, updateEvaluation founder id (statusOnly s) w = (w1, inr r))
  /\ (forall tester t,
        role tester = TESTER ->
        joinEvaluation tester id (with_clock t w1)
        = (with_clock t w1,
           inl (NotFoundException "Active evaluation not found")))
  /\ (forall tester t data p,
        role tester = TESTER ->
        participationOf (db w) id (userId tester) = Some p ->
        ep_completedAt p = None ->
        submitFeedback tester id data (with_clock t w1)
        = (with_clock t w1,
           inl (NotFoundException "Active evaluation not found"))).
Proof.
  intros Hc Hr Hin Hid Hacc Hs w1.
  assert (Hclosed : forall t,
            find (activeWithId id) (evaluations (db (with_clock t w1))) = None).
  { intros t. apply not_activeEvaluation_find.
    intros (e & He & Heid & Hest). unfold w1, updated in He. simpl in He.
    apply in_map_iff in He as (x & Hx & _).
    destruct (String.eqb_spec (ev_id x) id) as [Hxid|Hxid].
    - subst e. simpl in Hest. congruence.
    - subst e. contradiction. }
  split; [|split].
  - destruct (updateEvaluation_updates founder id (statusOnly s) w e0
                Hc Hr Hin Hid Hacc) as (r & Hrun & _).
    now exists r.
  - intros tester t Ht. apply join_inactive; trivial.
  - intros tester t data p Ht Hp Hopen.
    apply (submit_inactive tester id data (with_clock t w1) p); trivial.
Qed.

(** Witness: ada marks the survey Completed at 60; tom, who joined at 50,
    can no longer submit, and tess can no longer join. *)
Lemma leaving_active_closes_the_evaluation_witness :
  let w1 := updated (statusOnly EvaluationStatus.COMPLETED) "ev-1"
              (world tomJoined 60) in
  joinEvaluation (contextOf tess) "ev-1" (with_clock 70 w1)
  = (with_clock 70 w1, inl (NotFoundException "Active evaluation not found"))
  /\ submitFeedback (contextOf tom) "ev-1" goodFeedback (with_clock 70 w1)
     = (with_clock 70 w1, inl (NotFoundException "Active evaluation not found")).
Proof.
  intros w1.
  destruct (leaving_active_closes_the_evaluation (contextOf ada) "ev-1"
              EvaluationStatus.COMPLETED (world tomJoined 60) survey
              eq_refl eq_refl (or_introl eq_refl) eq_refl eq_refl)
    as (_ & Hjoin & Hsubmit); [discriminate|].
  split.
  - apply (Hjoin (contextOf tess) 70%Z eq_refl).
  - apply (Hsubmit (contextOf tom) 70%Z goodFeedback _ eq_refl eq_refl eq_refl).
Defined.

End EvaluationLife.

Lemma mapOrNull_total {A B} (f : A -> option B) l :
  (forall x, In x l -> exists y, f x = Some y) ->
  exists l', EvaluationQueries.mapOrNull f l = Some l'
             /\ Forall2 (fun x y => f x = Some y) l l'.
Proof.
  induction l as [|a l IH]; simpl; intros Hall.
  - exists []. split; [reflexivity|constructor].
  - destruct (Hall a (or_introl eq_refl)) as [b Hb].
    destruct IH as (l' & Hl' & Hrel); [intros; apply Hall; now right|].
    exists (b :: l'). rewrite Hb, Hl'. split; [reflexivity|now constructor].
Qed.

Lemma Forall2_map_eq {A B C} (R : A -> B -> Prop) (g : A -> C) (h : B -> C)
    l l' :
  (forall x y, R x y -> g x = h y) ->
  Forall2 R l l' -> map g l = map h l'.
Proof.
  intros Hgh. induction 1 as [|x y l l' Hxy _ IH]; simpl; [reflexivity|].
  now rewrite IH, (Hgh x y Hxy).
Qed.

Lemma Forall2_Forall_r {A B} (R : A -> B -> Prop) (P : B -> Prop) l l' :
  (forall x y, In x l -> R x y -> P y) ->
  Forall2 R l l' -> Forall P l'.
Proof.
  intros HP Hrel. induction Hrel as [|x y l l' Hxy _ IH]; constructor.
  - apply (HP x y); [now left|assumption].
  - apply IH. intros x' y' Hin. apply HP. now right.
Qed.

Lemma length_filter_map {A} (p : A -> bool) (f : A -> A) l :
  (forall x, p (f x) = p x) ->
  length (filter p (map f l)) = length (filter p l).
Proof.
  intros Hp. induction l as [|a l IH]; simpl; [reflexivity|].
  rewrite Hp. destruct (p a); simpl; congruence.
Qed.

Section DetailsFacts.
Import EvaluationService EvaluationQueries Sample.

Lemma details_calm context id w :
  faults w = [] ->
  evaluation_findFirst_details (inTenantWithId context id) w
  = (w, inr (option_map (viewOf (db w))
               (find (inTenantWithId context id) (evaluations (db w))))).
Proof.
  intros Hc. unfold evaluation_findFirst_details.
  now rewrite extcall_calm by assumption.
Qed.

Lemma details_missing context id w :
  faults w = [] ->
  find (inTenantWithId context id) (evaluations (db w)) = None ->
  getEvaluationDetails context id w
  = (w, inl (NotFoundException "Evaluation not found")).
Proof.
  intros Hc Hf. unfold getEvaluationDetails.
  rewrite (bind_ok _ _ _ _ _ (details_calm context id w Hc)).
  now rewrite Hf.
Qed.

Lemma details_closed context id w e :
  faults w = [] -> role context = TESTER ->
  find (inTenantWithId context id) (evaluations (db w)) = Some e ->
  ev_status e <> EvaluationStatus.ACTIVE ->
  getEvaluationDetails context id w
  = (w, inl (ForbiddenException "This evaluation is not available for testing")).
Proof.
  intros Hc Hr Hf Hs. unfold getEvaluationDetails.
  rewrite (bind_ok _ _ _ _ _ (details_calm context id w Hc)).
  rewrite Hf, Hr. simpl.
  destruct (EvaluationStatus.eqb (ev_status e) EvaluationStatus.ACTIVE) eqn:Heq;
    [|reflexivity].
  apply EvaluationStatus_eqb_eq in Heq. contradiction.
Qed.

Lemma details_participation context id w e :
  faults w = [] -> role context <> FOUNDER ->
  find (inTenantWithId context id) (evaluations (db w)) = Some e ->
  (role context = TESTER -> ev_status e = EvaluationStatus.ACTIVE) ->
  getEvaluationDetails context id w
  = (w, inr (WithParticipation (viewOf (db w) e)
               (isSet (participationOf (db w) id (userId context)))
               (match participationOf (db w) id (userId context) with
                | Some p => isSet (ep_completedAt p)
                | None => false
                end))).
Proof.
  intros Hc Hr Hf Hs. unfold getEvaluationDetails.
  rewrite (bind_ok _ _ _ _ _ (details_calm context id w Hc)).
  rewrite Hf. simpl.
  assert (Hgate : Role_eqb (role context) TESTER
                  && negb (EvaluationStatus.eqb (ev_status e)
                             EvaluationStatus.ACTIVE) = false).
  { destruct (Role_eqb (role context) TESTER) eqn:Ht; [|reflexivity].
    apply Role_eqb_eq in Ht. now rewrite (Hs Ht). }
  rewrite Hgate.
  destruct (Role_eqb (role context) FOUNDER) eqn:Hfo.
  { apply Role_eqb_eq in Hfo. contradiction. }
  rewrite (bind_ok _ _ _ _ _ (findUnique_calm evaluationParticipant_tb _ w Hc)).
  reflexivity.
Qed.

(** X18.  Who may read the details of an evaluation.  With no failing
    collaborator: an id with no evaluation in the caller's tenant gets
    NotFound, whatever the role; a TESTER is refused (Forbidden) an
    evaluation of the tenant that is not Active and is shown an Active
    one; a MEMBER is shown an evaluation of the tenant in any status.
    The call writes nothing. *)
Theorem getEvaluationDetails_is_tenant_scoped context id w :
  faults w = [] ->
  ((forall e, In e (evaluations (db w)) -> ev_id e = id ->
              ev_accountId e <> tenantId context) ->
   getEvaluationDetails context id w
   = (w, inl (NotFoundException "Evaluation not found")))
  /\
  (forall e,
     find (inTenantWithId context id) (evaluations (db w)) = Some e ->
     (role context = TESTER -> ev_status e <> EvaluationStatus.ACTIVE ->
      getEvaluationDetails context id w
      = (w, inl (ForbiddenException
                   "This evaluation is not available for testing")))
     /\
     (role context = TESTER /\ ev_status e = EvaluationStatus.ACTIVE
      \/ role context = MEMBER ->
      exists hasJoined_ isCompleted_,
        getEvaluationDetails context id w
        = (w, inr (WithParticipation (viewOf (db w) e)
                     hasJoined_ isCompleted_)))).
Proof.
  intros Hc. split.
  - intros Hnone. apply details_missing; [assumption|].
    apply find_absent. intros e Hin. unfold inTenantWithId.
    destruct (String.eqb_spec (ev_id e) id) as [Hid|]; [|reflexivity].
    simpl. apply String.eqb_neq. now apply Hnone.
  - intros e Hf. split.
    + intros Hr Hs. now apply (details_closed context id w e).
    + intros Hwho. do 2 eexists.
      apply details_participation; trivial.
      * destruct Hwho as [[Hr _]|Hr]; rewrite Hr; discriminate.
      * destruct Hwho as [[_ Hs]|Hr]; [trivial|]. rewrite Hr. discriminate.
Qed.

(** Witness: gus of globex finds no survey; tom is refused the draft; mia,
    a member, is shown it. *)
Lemma getEvaluationDetails_is_tenant_scoped_witness :
  getEvaluationDetails (contextOf gus) "ev-1" (world baseDB 0)
  = (world baseDB 0, inl (NotFoundException "Evaluation not found"))
  /\ getEvaluationDetails (contextOf tom) "ev-2" (world baseDB 0)
     = (world baseDB 0,
        inl (ForbiddenException "This evaluation is not available for testing"))
  /\ exists hasJoined_ isCompleted_,
       getEvaluationDetails (contextOf mia) "ev-2" (world baseDB 0)
       = (world baseDB 0,
          inr (WithParticipation (viewOf baseDB draft) hasJoined_ isCompleted_)).
Proof.
  split; [|split].
  - apply (proj1 (getEvaluationDetails_is_tenant_scoped (contextOf gus) "ev-1"
                    (world baseDB 0) eq_refl)).
    simpl. intros e [<-|[<-|[]]]; simpl; discriminate.
  - apply (proj1 (proj2 (getEvaluationDetails_is_tenant_scoped (contextOf tom)
                           "ev-2" (world baseDB 0) eq_refl) draft eq_refl));
      [reflexivity|discriminate].
  - apply (proj2 (proj2 (getEvaluationDetails_is_tenant_scoped (contextOf mia)
                           "ev-2" (world baseDB 0) eq_refl) draft eq_refl)).
    now right.
Defined.

Lemma inTenant_active context id d e :
  find (inTenantWithId context id) (evaluations d) = Some e ->
  ev_status e = EvaluationStatus.ACTIVE ->
  ev_id e = id /\ exists ev, find (activeWithId id) (evaluations d) = Some ev.
Proof.
  intros Hf Hs. apply find_some in Hf as [Hin Hp].
  unfold inTenantWithId in Hp. apply andb_true_iff in Hp as [Hid _].
  apply String.eqb_eq in Hid. split; [assumption|].
  apply activeEvaluation_find. now exists e.
Qed.

(** X19.  The details a tester reads follow the participation.  With no
    failing collaborator, for a tester and an Active evaluation of the
    tester's tenant not yet joined: the details say neither joined nor
    completed; after [joinEvaluation] they say joined, not completed, and
    count one participant more; after a [submitFeedback] whose question
    ids all belong to the evaluation they say joined and completed, the
    rest of the view being as before the submission. *)
Theorem details_follow_the_participation tester id data w e t :
  faults w = [] -> role tester = TESTER ->
  find (inTenantWithId tester id) (evaluations (db w)) = Some e ->
  ev_status e = EvaluationStatus.ACTIVE ->
  ~ hasJoined (db w) id (userId tester) ->
  (forall r, In r (responses_ data) ->
             In (questionId r) (questionIdsOf (db w) id)) ->
  let w1 := joined tester id w in
  let w2 := submitted tester id data (with_clock t w1) in
  getEvaluationDetails tester id w
  = (w, inr (WithParticipation (viewOf (db w) e) false false))
  /\ joinEvaluation tester id w = (w1, inr tt)
  /\ getEvaluationDetails tester id w1
     = (w1, inr (WithParticipation (viewOf (db w1) e) true false))
  /\ view_participants (viewOf (db w1) e)
     = S (view_participants (viewOf (db w) e))
  /\ submitFeedback tester id data (with_clock t w1) = (w2, inr tt)
  /\ getEvaluationDetails tester id w2
     = (w2, inr (WithParticipation (viewOf (db w2) e) true true))
  /\ viewOf (db w2) e = viewOf (db w1) e.
Proof.
  intros Hc Hr Hf Hs Hnew Hall w1 w2.
  destruct (inTenant_active tester id (db w) e Hf Hs) as (Hid & ev & Hev).
  pose proof (not_hasJoined_find _ _ _ Hnew) as Hnone.
  assert (Hkey : evaluationId_userId id (userId tester) (pendingRow tester id w)
                 = true).
  { unfold evaluationId_userId, pendingRow. simpl.
    now rewrite !String.eqb_refl. }
  assert (Hp1 : participationOf (db w1) id (userId tester)
                = Some (pendingRow tester id w)).
  { unfold participationOf, w1, joined. simpl.
    rewrite find_app_r by assumption. simpl. now rewrite Hkey. }
  assert (Hp2 : participationOf (db w2) id (userId tester)
                = Some (markCompleted t (pendingRow tester id w))).
  { unfold participationOf, w2, submitted. simpl.
    rewrite find_map_update by reflexivity.
    rewrite find_app_r by assumption. simpl. now rewrite Hkey. }
  split; [|split; [|split; [|split; [|split; [|split]]]]].
  - rewrite (details_participation tester id w e Hc); trivial.
    + unfold participationOf. now rewrite Hnone.
    + rewrite Hr. discriminate.
  - now apply (join_fresh tester id w ev).
  - rewrite (details_participation tester id w1 e); trivial.
    + now rewrite Hp1.
    + rewrite Hr. discriminate.
  - unfold viewOf, participantCount, w1, joined. simpl.
    rewrite filter_app, length_app. simpl.
    rewrite Hid, String.eqb_refl. simpl. lia.
  - apply (submit_complete tester id data (with_clock t w1)
             (pendingRow tester id w) ev); trivial.
  - rewrite (details_participation tester id w2 e); trivial.
    + now rewrite Hp2.
    + rewrite Hr. discriminate.
  - unfold viewOf, participantCount, w2, submitted. simpl. f_equal.
    apply (length_filter_map
             (fun p => ep_evaluationId p =? ev_id e)
             (fun p => if evaluationId_userId id (userId tester) p
                       then markCompleted t p else p)).
    intros p. now destruct (evaluationId_userId id (userId tester) p).
Qed.

(** Witness: tom reads the survey, joins it at 50 and answers it at 60. *)
Lemma details_follow_the_participation_witness :
  let w1 := joined (contextOf tom) "ev-1" (world baseDB 50) in
  let w2 := submitted (contextOf tom) "ev-1" goodFeedback (with_clock 60 w1) in
  getEvaluationDetails (contextOf tom) "ev-1" w1
  = (w1, inr (WithParticipation (viewOf (db w1) survey) true false))
  /\ getEvaluationDetails (contextOf tom) "ev-1" w2
     = (w2, inr (WithParticipation (viewOf (db w2) survey) true true)).
Proof.
  intros w1 w2.
  destruct (details_follow_the_participation (contextOf tom) "ev-1"
              goodFeedback (world baseDB 50) survey 60%Z
              eq_refl eq_refl eq_refl eq_refl)
    as (_ & _ & H1 & _ & _ & H2 & _).
  - intros (p & [] & _).
  - simpl. intros r [<-|[<-|[]]]; simpl; tauto.
  - split; [exact H1|exact H2].
Defined.

Lemma mapOrNull_length {A B} (f : A -> option B) l l' :
  mapOrNull f l = Some l' -> length l' = length l.
Proof.
  revert l'. induction l as [|a l IH]; simpl; intros l' H.
  - now injection H as <-.
  - destruct (f a); [|discriminate].
    destruct (mapOrNull f l) as [bs|]; [|discriminate].
    injection H as <-. simpl. now rewrite (IH bs eq_refl).
Qed.

Lemma responseViews_total d q :
  respondentsStored d ->
  exists views, mapOrNull toResponseView (responsesTo d q) = Some views.
Proof.
  intros Hfk.
  destruct (mapOrNull_total toResponseView (responsesTo d q)) as (views & Hv & _).
  - intros [r u] Hin. unfold responsesTo in Hin.
    apply in_map_iff in Hin as (r' & Heq & Hin'). injection Heq as <- <-.
    apply filter_In in Hin' as [Hin' _].
    destruct (Hfk r' Hin') as (u & Hu & Hid).
    destruct (find_found (fun u => usr_id u =? rsp_userId r') _ u Hu) as [u' ->];
      [now rewrite Hid, String.eqb_refl|].
    simpl. eauto.
  - now exists views.
Qed.

Lemma toQuestionSummary_entry d q s :
  toQuestionSummary (q, responsesTo d q) = Some s ->
  qs_questionId s = q_id q /\ qs_text s = q_text q
  /\ qs_responseCount s = length (qs_responses s)
  /\ qs_responseCount s
     = length (filter (fun r => rsp_questionId r =? q_id q) (responses d)).
Proof.
  unfold toQuestionSummary.
  destruct (mapOrNull toResponseView (responsesTo d q)) as [views|] eqn:Hv;
    [|discriminate].
  simpl. intros H. injection H as <-. simpl.
  repeat split.
  - symmetry. now apply mapOrNull_length in Hv.
  - unfold responsesTo. now rewrite length_map.
Qed.

Lemma Permutation_insertBy {A} (le : A -> A -> bool) x l :
  Permutation (insertBy le x l) (x :: l).
Proof.
  induction l as [|a l IH]; simpl; [reflexivity|].
  destruct (le x a); [reflexivity|].
  rewrite IH. apply perm_swap.
Qed.

Lemma Permutation_sortBy {A} (le : A -> A -> bool) l :
  Permutation (sortBy le l) l.
Proof.
  induction l as [|a l IH]; simpl; [reflexivity|].
  rewrite Permutation_insertBy. now constructor.
Qed.

Lemma questionsOf_ascending d id :
  Permutation (questionsOf d id)
              (filter (fun q => q_evaluationId q =? id) (questions d))
  /\ StronglySorted (fun a b => (q_order a <= q_order b)%Z) (questionsOf d id).
Proof.
  unfold questionsOf. split; [apply Permutation_sortBy|].
  apply (StronglySorted_weaken (fun a b => orderAsc a b = true)).
  - intros a b Hab. now apply Z.leb_le.
  - apply sortBy_sorted.
    + intros a b. unfold orderAsc. rewrite !Z.leb_le. lia.
    + intros a b c. unfold orderAsc. rewrite !Z.leb_le. lia.
Qed.

(** X20.  What a founder reads.  With no failing collaborator and every
    response given by a stored user, a FOUNDER is shown an evaluation of
    the tenant in any status, with a summary that has one entry per
    question of the evaluation, the entries following the questions in
    ascending [order], each holding as many responses as are stored for
    its question and counting them. *)
Theorem founder_details_summarise_the_responses founder id w e :
  faults w = [] -> role founder = FOUNDER ->
  find (inTenantWithId founder id) (evaluations (db w)) = Some e ->
  respondentsStored (db w) ->
  exists summary qs,
    getEvaluationDetails founder id w
    = (w, inr (WithSummary (viewOf (db w) e) summary))
    /\ Permutation qs (filter (fun q => q_evaluationId q =? id)
                              (questions (db w)))
    /\ StronglySorted (fun a b => (q_order a <= q_order b)%Z) qs
    /\ map qs_questionId summary = map q_id qs
    /\ map qs_text summary = map q_text qs
    /\ Forall (fun s =>
                 qs_responseCount s = length (qs_responses s)
                 /\ qs_responseCount s
                    = length (filter (fun r => rsp_questionId r =? qs_questionId s)
                                     (responses (db w))))
              summary.
Proof.
  intros Hc Hr Hf Hfk.
  set (pair := fun q => (q, responsesTo (db w) q)).
  set (qrs := map pair (questionsOf (db w) id)).
  destruct (mapOrNull_total toQuestionSummary qrs) as (summary & Hsum & Hrel).
  { intros qr Hin. unfold qrs in Hin.
    apply in_map_iff in Hin as (q & <- & _).
    destruct (responseViews_total (db w) q Hfk) as (views & Hv).
    unfold pair, toQuestionSummary. rewrite Hv. simpl. eauto. }
  assert (Hentry : forall qr s, In qr qrs -> toQuestionSummary qr = Some s ->
            qs_questionId s = q_id (fst qr) /\ qs_text s = q_text (fst qr)
            /\ qs_responseCount s = length (qs_responses s)
            /\ qs_responseCount s
               = length (filter (fun r => rsp_questionId r =? qs_questionId s)
                                (responses (db w)))).
  { intros qr s Hin Hs. unfold qrs in Hin.
    apply in_map_iff in Hin as (q & <- & _). unfold pair in *. simpl.
    destruct (toQuestionSummary_entry (db w) q s Hs) as (Hi & Ht & Hn & Hm).
    rewrite Hi. auto. }
  destruct (questionsOf_ascending (db w) id) as [Hperm Hsorted].
  exists summary, (questionsOf (db w) id).
  split; [|split; [exact Hperm|split; [exact Hsorted|split; [|split]]]].
  - unfold getEvaluationDetails.
    rewrite (bind_ok _ _ _ _ _ (details_calm founder id w Hc)).
    rewrite Hf, Hr. simpl.
    unfold getResponseSummary, question_findMany_with_responses, bind, extcall, ret.
    rewrite Hc. fold pair. fold qrs. now rewrite Hsum.
  - rewrite <- (map_map pair (fun qr => q_id (fst qr))). fold qrs.
    clear Hsum. induction Hrel as [|qr s l l' Hqs _ IH]; simpl; [reflexivity|].
    rewrite IH by (intros; apply Hentry; [now right|assumption]).
    now rewrite (proj1 (Hentry qr s (or_introl eq_refl) Hqs)).
  - rewrite <- (map_map pair (fun qr => q_text (fst qr))). fold qrs.
    clear Hsum. induction Hrel as [|qr s l l' Hqs _ IH]; simpl; [reflexivity|].
    rewrite IH by (intros; apply Hentry; [now right|assumption]).
    now rewrite (proj1 (proj2 (Hentry qr s (or_introl eq_refl) Hqs))).
  - apply (Forall2_Forall_r (fun qr s => toQuestionSummary qr = Some s) _ qrs);
      [|assumption].
    intros qr s Hin Hs. now destruct (Hentry qr s Hin Hs) as (_ & _ & Hn & Hm).
Qed.

(** Witness: after tom's answers ada reads one response per question. *)
Lemma founder_details_summarise_the_responses_witness :
  let w2 := submitted (contextOf tom) "ev-1" goodFeedback
              (world tomJoined 60) in
  exists summary,
    getEvaluationDetails (contextOf ada) "ev-1" w2
    = (w2, inr (WithSummary (viewOf (db w2) survey) summary))
    /\ map qs_questionId summary = ["q-1"; "q-2"]
    /\ map qs_responseCount summary = [1; 1].
Proof.
  intros w2.
  destruct (founder_details_summarise_the_responses (contextOf ada) "ev-1" w2
              survey eq_refl eq_refl eq_refl) as (summary & qs & Hrun & _).
  - intros r Hin. simpl in Hin.
    destruct Hin as [<-|[<-|[]]]; exists tom; simpl; tauto.
  - exists summary. split; [exact Hrun|].
    pose proof Hrun as Hrun'. vm_compute in Hrun'.
    injection Hrun' as <-. split; reflexivity.
Defined.

End DetailsFacts.

(* ===================================================================== *)
(** ** The evaluations of a tester *)
(* ===================================================================== *)

Section TesterListingFacts.
Import EvaluationService EvaluationQueries Sample.

Lemma count_by_status context l :
  length (filter (participationWhere context (Some ParticipantStatus.PENDING)) l)
  + length (filter (participationWhere context (Some ParticipantStatus.ACCEPTED)) l)
  + length (filter (participationWhere context (Some ParticipantStatus.REJECTED)) l)
  = length (filter (participationWhere context None) l).
Proof.
  induction l as [|p l IH]; simpl; [reflexivity|].
  unfold participationWhere in *.
  destruct (ep_userId p =? userId context); simpl; [|exact IH].
  destruct (ep_status p); simpl; lia.
Qed.

Lemma findTesterEvaluations_calm context statusFilter options w :
  faults w = [] -> role context = TESTER ->
  let skip := match po_skip options with Some n => n | None => Int 0 end in
  let take := match po_take options with Some n => n | None => Int 20 end in
  let count s := length (filter (participationWhere context s)
                                (participants (db w))) in
  findTesterEvaluations context statusFilter options w
  = (w,
     match window skip take
             (sortBy joinedAtDesc
                (filter (participationWhere context statusFilter)
                        (participants (db w)))) with
     | inl e => inl e
     | inr page =>
         match mapOrNull toTesterItem (map (withEvaluation (db w)) page) with
         | None => inl (Error "TypeError: Cannot read properties of null")
         | Some items =>
             inr {| listing_data := items;
                    listing_meta :=
                      {| total := count statusFilter;
                         meta_skip := skip; meta_take := take;
                         hasMore := sumBelow skip take (count statusFilter) |};
                    listing_counts :=
                      {| pending := count (Some ParticipantStatus.PENDING);
                         accepted := count (Some ParticipantStatus.ACCEPTED);
                         rejected := count (Some ParticipantStatus.REJECTED) |} |}
         end
     end).
Proof.
  intros Hc Hr skip take count. subst skip take count.
  unfold findTesterEvaluations. rewrite Hr.
  change (negb (Role_eqb TESTER TESTER)) with false. cbv iota zeta.
  unfold participant_findMany_with_evaluation, participant_count, bind,
    extcall, ret.
  rewrite Hc. cbv beta iota.
  destruct (window _ _ _) as [e|page]; [reflexivity|].
  repeat (rewrite Hc; cbv beta iota).
  unfold withEvaluation.
  now destruct (mapOrNull toTesterItem _).
Qed.

Lemma testerItems_total context statusFilter w skip take page :
  participationsStored (db w) (userId context) ->
  window skip take
    (sortBy joinedAtDesc
       (filter (participationWhere context statusFilter)
               (participants (db w)))) = inr page ->
  exists items,
    mapOrNull toTesterItem (map (withEvaluation (db w)) page) = Some items
    /\ length items = length page
    /\ forall i, In i items ->
         exists p, In p (participants (db w))
                   /\ participationWhere context statusFilter p = true
                   /\ item_id i = ep_evaluationId p
                   /\ item_participationStatus i = ep_status p
                   /\ item_joinedAt i = ep_joinedAt p.
Proof.
  intros Hfk Hwin.
  assert (Hpage : forall p, In p page ->
            In p (participants (db w))
            /\ participationWhere context statusFilter p = true).
  { intros p Hin. apply (window_In _ _ _ _ _ Hwin) in Hin.
    apply (proj1 (In_sortBy _ _ _)) in Hin. now apply filter_In in Hin. }
  destruct (mapOrNull_total toTesterItem (map (withEvaluation (db w)) page))
    as (items & Hitems & Hrel).
  { intros pe Hin. apply in_map_iff in Hin as (p & <- & Hin).
    destruct (Hpage p Hin) as [Hstored Hwhere].
    unfold participationWhere in Hwhere.
    apply andb_true_iff in Hwhere as [Hu _]. apply String.eqb_eq in Hu.
    destruct (Hfk p Hstored Hu) as (e & He & Hid).
    destruct (find_found (fun e => ev_id e =? ep_evaluationId p) _ e He)
      as [e' Hf]; [now rewrite Hid, String.eqb_refl|].
    unfold withEvaluation. rewrite Hf. simpl. eauto. }
  exists items. split; [exact Hitems|]. split.
  - now rewrite (mapOrNull_length _ _ _ Hitems), length_map.
  - intros i Hi.
    assert (Hsrc : exists pe, In pe (map (withEvaluation (db w)) page)
                              /\ toTesterItem pe = Some i).
    { clear Hitems. induction Hrel as [|pe i' l l' Hpe _ IH];
        [destruct Hi|].
      destruct Hi as [->|Hi].
      - exists pe. split; [now left|assumption].
      - destruct (IH Hi) as (pe' & Hin' & Hpe'). exists pe'.
        split; [now right|assumption]. }
    destruct Hsrc as (pe & Hin & Hpe).
    apply in_map_iff in Hin as (p & <- & Hin).
    destruct (Hpage p Hin) as [Hstored Hwhere].
    exists p. unfold withEvaluation in Hpe. simpl in Hpe.
    destruct (find (fun e => ev_id e =? ep_evaluationId p)
                   (evaluations (db w))) as [e|] eqn:Hf; [|discriminate].
    simpl in Hpe. injection Hpe as <-. simpl.
    apply find_some in Hf as [_ Hid]. apply String.eqb_eq in Hid.
    repeat split; trivial.
Qed.

(** X21.  The listing of a tester's evaluations.  Any role but TESTER
    gets Forbidden.  With no failing collaborator and every participation
    of the tester in a stored evaluation: whatever [skip] and [take] are,
    an answer leaves the store as it was, its three counts add up to the
    number of the tester's participations, [total] is that number without
    a status filter and the count of the status with one, and every entry
    is a participation of the tester, of the filtered status if one is
    given; a [skip] or [take] that is NaN, and a negative [skip], make the
    call fail.  With natural numbers for both, the call answers, the page
    holds the smaller of [take] and what is left of the total after
    [skip], and [hasMore] says exactly that rows remain after the page.
    With a negative [take] the call answers and [hasMore] only compares
    [skip + take] with the total. *)
Theorem findTesterEvaluations_counts_add_up context statusFilter options w :
  (role context <> TESTER ->
   findTesterEvaluations context statusFilter options w
   = (w, inl (ForbiddenException "This endpoint is for TESTERs only")))
  /\
  (faults w = [] -> role context = TESTER ->
   participationsStored (db w) (userId context) ->
   let skip := match po_skip options with Some n => n | None => Int 0 end in
   let take := match po_take options with Some n => n | None => Int 20 end in
   let mine := filter (fun p => ep_userId p =? userId context)
                      (participants (db w)) in
   (forall w' r,
      findTesterEvaluations context statusFilter options w = (w', inr r) ->
      w' = w
      /\ pending (listing_counts r) + accepted (listing_counts r)
         + rejected (listing_counts r) = length mine
      /\ total (listing_meta r)
         = match statusFilter with
           | None => length mine
           | Some ParticipantStatus.PENDING => pending (listing_counts r)
           | Some ParticipantStatus.ACCEPTED => accepted (listing_counts r)
           | Some ParticipantStatus.REJECTED => rejected (listing_counts r)
           end
      /\ (forall i, In i (listing_data r) ->
            exists p, In p mine
                      /\ item_id i = ep_evaluationId p
                      /\ item_participationStatus i = ep_status p
                      /\ item_joinedAt i = ep_joinedAt p
                      /\ (forall s, statusFilter = Some s -> ep_status p = s)))
   /\
   (skip = NaN \/ take = NaN \/ (exists z, skip = Int z /\ (z < 0)%Z) ->
    exists e,
      findTesterEvaluations context statusFilter options w = (w, inl e))
   /\
   (forall s t, skip = Int (Z.of_nat s) -> take = Int (Z.of_nat t) ->
    exists r,
      findTesterEvaluations context statusFilter options w = (w, inr r)
      /\ length (listing_data r) = Nat.min t (total (listing_meta r) - s)
      /\ (hasMore (listing_meta r) = true
          <-> s + length (listing_data r) < total (listing_meta r)))
   /\
   (forall s k, skip = Int (Z.of_nat s) -> take = Int (- Z.of_nat (S k)) ->
    exists r,
      findTesterEvaluations context statusFilter options w = (w, inr r)
      /\ (hasMore (listing_meta r) = true
          <-> s < total (listing_meta r) + S k))).
Proof.
  split.
  - intros Hr. unfold findTesterEvaluations.
    destruct (Role_eqb (role context) TESTER) eqn:Heq; [|reflexivity].
    apply Role_eqb_eq in Heq. contradiction.
  - intros Hc Hr Hfk skip take mine.
    set (ordered := sortBy joinedAtDesc
                      (filter (participationWhere context statusFilter)
                              (participants (db w)))).
    assert (Hmine : forall l,
              filter (participationWhere context None) l
              = filter (fun p => ep_userId p =? userId context) l).
    { intros l. apply filter_ext. intros p. unfold participationWhere.
      apply andb_true_r. }
    pose proof (findTesterEvaluations_calm context statusFilter options w
                  Hc Hr) as Hcalm.
    cbv zeta in Hcalm. fold skip in Hcalm. fold take in Hcalm.
    fold ordered in Hcalm.
    assert (Hanswer : forall page, window skip take ordered = inr page ->
              exists r,
                findTesterEvaluations context statusFilter options w
                = (w, inr r)
                /\ length (listing_data r) = length page
                /\ total (listing_meta r)
                   = length (filter (participationWhere context statusFilter)
                                    (participants (db w)))
                /\ hasMore (listing_meta r)
                   = sumBelow skip take (total (listing_meta r))).
    { intros page Hwin.
      destruct (testerItems_total context statusFilter w skip take page
                  Hfk Hwin) as (items & Hitems & Hlen & _).
      rewrite Hcalm, Hwin, Hitems. eexists. split; [reflexivity|].
      simpl. auto. }
    split; [|split; [|split]].
    + intros w' r Hrun. rewrite Hcalm in Hrun.
      destruct (window skip take ordered) as [e|page] eqn:Hwin;
        [discriminate|].
      destruct (testerItems_total context statusFilter w skip take page
                  Hfk Hwin) as (items & Hitems & _ & Hentries).
      rewrite Hitems in Hrun. injection Hrun as <- <-. simpl.
      split; [reflexivity|]. split; [|split].
      * rewrite count_by_status. now rewrite Hmine.
      * destruct statusFilter as [[| |]|]; try reflexivity.
        now rewrite Hmine.
      * intros i Hi.
        destruct (Hentries i Hi) as (p & Hstored & Hwhere & Hid & Hst & Hj).
        unfold participationWhere in Hwhere.
        apply andb_true_iff in Hwhere as [Hu Hs].
        exists p. split; [apply filter_In; now split|].
        repeat split; trivial.
        intros s ->. destruct (ep_status p), s; simpl in Hs; congruence.
    + intros Hbad. rewrite Hcalm.
      destruct (window_refused skip take ordered Hbad) as [e ->].
      now exists e.
    + intros s t Hs Ht.
      destruct (Hanswer (firstn t (skipn s ordered)))
        as (r & Hrun & Hlen & Htotal & Hmore).
      { rewrite Hs, Ht. apply window_natural. }
      exists r. split; [exact Hrun|].
      assert (Hpage : length (listing_data r)
                      = Nat.min t (total (listing_meta r) - s)).
      { rewrite Hlen, Htotal. unfold ordered.
        now rewrite length_firstn, length_skipn, length_sortBy. }
      split; [exact Hpage|].
      rewrite Hmore, Hs, Ht. unfold sumBelow. rewrite Z.ltb_lt. lia.
    + intros s k Hs Hk.
      destruct (Hanswer (rev (firstn (S k) (skipn s (rev ordered)))))
        as (r & Hrun & _ & _ & Hmore).
      { rewrite Hs, Hk. unfold window.
        rewrite (proj2 (Z.ltb_ge _ _) (Nat2Z.is_nonneg s)).
        assert (Hneg : (0 <=? - Z.of_nat (S k))%Z = false).
        { apply Z.leb_gt. lia. }
        rewrite Hneg, Z.opp_involutive, !Nat2Z.id. reflexivity. }
      exists r. split; [exact Hrun|].
      rewrite Hmore, Hs, Hk. unfold sumBelow. rewrite Z.ltb_lt. lia.
Qed.

(** Witness: tom has joined the survey and nothing else. *)
Lemma findTesterEvaluations_counts_add_up_witness :
  exists r,
    findTesterEvaluations (contextOf tom) None
      {| po_skip := None; po_take := None; po_orderBy := None |}
      (world tomJoined 60)
    = (world tomJoined 60, inr r)
    /\ pending (listing_counts r) + accepted (listing_counts r)
       + rejected (listing_counts r) = 1
    /\ total (listing_meta r) = 1
    /\ length (listing_data r) = 1
    /\ hasMore (listing_meta r) = false.
Proof.
  destruct (proj2 (findTesterEvaluations_counts_add_up (contextOf tom) None
                     {| po_skip := None; po_take := None; po_orderBy := None |}
                     (world tomJoined 60)) eq_refl eq_refl)
    as (Hany & _ & Hnat & _).
  - intros p [<-|[]] _. exists survey. simpl. tauto.
  - destruct (Hnat 0 20 eq_refl eq_refl) as (r & Hrun & Hlen & Hmore).
    destruct (Hany _ r Hrun) as (_ & Hsum & Htotal & _).
    exists r. split; [exact Hrun|]. split; [exact Hsum|].
    split; [exact Htotal|]. rewrite Hlen, Htotal. split; [reflexivity|].
    destruct (hasMore (listing_meta r)); [|reflexivity].
    pose proof (proj1 Hmore eq_refl) as Hlt.
    rewrite Hlen, Htotal in Hlt. simpl in Hlt. lia.
Defined.

End TesterListingFacts.
